(** * Upload intake and catalog store of the media server (Backend/server.js)

    A shallow embedding of the Express handlers of [server.js]: the filename
    sanitizer, the start-up code, the multer storage callbacks, the
    [POST /upload] handler and the two routes that read the catalog, run over
    an explicit file tree and clock. *)

From Stdlib Require Import NArith String Ascii List Lia DecimalPos.
From stdpp Require Import gmap list.

Set Warnings "-register-all".
Local Open Scope N_scope.

(** ** JavaScript strings

    A JavaScript string is a sequence of UTF-16 code units.  The regular
    expressions of [sanitizeFilename] carry no [u] flag and [slice] counts
    code units, so a string is modelled as the list of its code units. *)

Abbreviation jsstring := (list N).

Definition ch (a : ascii) : N := N_of_ascii a.

(** [js "abc"] is the JavaScript string literal ["abc"] (ASCII literals). *)
Definition js (s : string) : jsstring := map N_of_ascii (list_ascii_of_string s).

(** Decimal digits of a [Decimal.uint], most significant first. *)
Fixpoint uint_digits (d : Decimal.uint) : jsstring :=
  match d with
  | Decimal.Nil => []
  | Decimal.D0 r => ch "0" :: uint_digits r
  | Decimal.D1 r => ch "1" :: uint_digits r
  | Decimal.D2 r => ch "2" :: uint_digits r
  | Decimal.D3 r => ch "3" :: uint_digits r
  | Decimal.D4 r => ch "4" :: uint_digits r
  | Decimal.D5 r => ch "5" :: uint_digits r
  | Decimal.D6 r => ch "6" :: uint_digits r
  | Decimal.D7 r => ch "7" :: uint_digits r
  | Decimal.D8 r => ch "8" :: uint_digits r
  | Decimal.D9 r => ch "9" :: uint_digits r
  end.

(** [Number.prototype.toString()] and template interpolation [`${n}`] of a
    non-negative integer such as [Date.now()]. *)
Definition Number_toString (n : N) : jsstring := uint_digits (N.to_uint n).

(** [s.slice(0, n)]. *)
Definition slice0 (n : nat) (s : jsstring) : jsstring := take n s.

(** ** Filename sanitizer (server.js, lines 27-31) *)

Definition in_range (lo hi c : N) : bool := (lo <=? c) && (c <=? hi).

(** The character class [a-zA-Z0-9_.-]. *)
Definition class_word (c : N) : bool :=
  in_range (ch "a") (ch "z") c || in_range (ch "A") (ch "Z") c
  || in_range (ch "0") (ch "9") c
  || (c =? ch "_") || (c =? ch ".") || (c =? ch "-").

Definition is_underscore (c : N) : bool := c =? ch "_".

(** [.replace(/[^a-zA-Z0-9_.-]/g, '_')]: each code unit outside the class
    becomes one underscore. *)
Definition replace_invalid (s : jsstring) : jsstring :=
  map (fun c => if class_word c then c else ch "_") s.

(** [.replace(/_+/g, '_')]: each maximal run of underscores becomes one
    underscore.  An underscore that is followed by another one is dropped, so
    the last underscore of every run is the one that stays. *)
Fixpoint replace_underscore_runs (s : jsstring) : jsstring :=
  match s with
  | [] => []
  | c :: r =>
      if is_underscore c && match r with d :: _ => is_underscore d | [] => false end
      then replace_underscore_runs r
      else c :: replace_underscore_runs r
  end.

Definition sanitizeFilename (filename : jsstring) : jsstring :=
  replace_underscore_runs (replace_invalid filename).

(** The name part of [createMovieFolderName] (lines 34-38) once the clock has
    been read: [`${timestamp}-${sanitizeFilename(title).slice(0, 30)}`]. *)
Definition movieFolderName_at (timestamp : N) (title : jsstring) : jsstring :=
  let sanitizedTitle := slice0 30 (sanitizeFilename title) in
  Number_toString timestamp ++ js "-" ++ sanitizedTitle.

(** The derivation in the order the specification words it: cap the title to
    30 characters first, sanitize the capped string afterwards. *)
Definition spec_movieFolderName (timestamp : N) (title : jsstring) : jsstring :=
  Number_toString timestamp ++ js "-" ++ sanitizeFilename (slice0 30 title).

(** ** File tree

    Paths are relative to the working directory of the process and are kept as
    the list of their segments.  Every name the server joins onto a directory
    is a single segment (the folder name, a stored filename, a fixed name), so
    [path.join(dir, name)] appends one segment. *)

Abbreviation path := (list (list N)).

Definition path_join (dir : path) (name : jsstring) : path := dir ++ [name].

Definition parent (p : path) : path := take (length p - 1) p.

(** A file holds what was written to it: the bytes of an uploaded part, or a
    text, which is also what [readFileSync(p, 'utf8')] returns for it (the
    strings of a request are well-formed, so the UTF-8 round trip is the
    identity). *)
Inductive node : Type :=
| Dir
| File (data : jsstring).

Abbreviation FS := (gmap (list (list N)) node).

Inductive errno : Type := ENOENT | EEXIST | ENOTDIR | EISDIR | ENOTEMPTY | EINVAL.

Inductive syscall : Type := sys_open | sys_mkdir | sys_rename | sys_rmdir.

(** What a [throw] carries. *)
Inductive Exn : Type :=
| SystemError (code : errno) (call : syscall) (p : path) (dest : option (list (list N)))
| SyntaxError
| TypeError (message : jsstring).

Inductive Result (A : Type) : Type :=
| Ok (a : A)
| Throw (e : Exn).
Arguments Ok {A} a.
Arguments Throw {A} e.

(** The working directory itself (the empty path) is always a directory. *)
Definition entry (fs : FS) (p : path) : option node :=
  match p with
  | [] => Some Dir
  | _ => fs !! p
  end.

Definition has_entries (fs : FS) (p : path) : bool :=
  bool_decide (map_Exists (fun q _ => q ≠ [] ∧ parent q = p) fs).

Definition fs_existsSync (fs : FS) (p : path) : bool :=
  match entry fs p with
  | Some _ => true
  | None => false
  end.

Definition fs_mkdirSync (p : path) (fs : FS) : Result FS :=
  match entry fs (parent p) with
  | None => Throw (SystemError ENOENT sys_mkdir p None)
  | Some (File _) => Throw (SystemError ENOTDIR sys_mkdir p None)
  | Some Dir =>
      match entry fs p with
      | Some _ => Throw (SystemError EEXIST sys_mkdir p None)
      | None => Ok (<[p := Dir]> fs)
      end
  end.

Definition fs_writeFileSync (p : path) (data : jsstring) (fs : FS) : Result FS :=
  match entry fs (parent p) with
  | None => Throw (SystemError ENOENT sys_open p None)
  | Some (File _) => Throw (SystemError ENOTDIR sys_open p None)
  | Some Dir =>
      match entry fs p with
      | Some Dir => Throw (SystemError EISDIR sys_open p None)
      | _ => Ok (<[p := File data]> fs)
      end
  end.

Definition fs_readFileSync (p : path) (fs : FS) : Result jsstring :=
  match entry fs p with
  | None => Throw (SystemError ENOENT sys_open p None)
  | Some Dir => Throw (SystemError EISDIR sys_open p None)
  | Some (File data) => Ok data
  end.

(** [rmdir] removes a directory only when it has no entries. *)
Definition fs_rmdirSync (p : path) (fs : FS) : Result FS :=
  match fs !! p with
  | None => Throw (SystemError ENOENT sys_rmdir p None)
  | Some (File _) => Throw (SystemError ENOTDIR sys_rmdir p None)
  | Some Dir =>
      if has_entries fs p then Throw (SystemError ENOTEMPTY sys_rmdir p None)
      else Ok (delete p fs)
  end.

(** Renaming a directory carries its whole subtree along. *)
Definition move_subtree (old new : path) (fs : FS) : FS :=
  kmap (fun q => if bool_decide (old `prefix_of` q)
                 then new ++ drop (length old) q else q) fs.

Definition fs_renameSync (old new : path) (fs : FS) : Result FS :=
  match fs !! old with
  | None => Throw (SystemError ENOENT sys_rename old (Some new))
  | Some (File data) =>
      match entry fs (parent new) with
      | None => Throw (SystemError ENOENT sys_rename old (Some new))
      | Some (File _) => Throw (SystemError ENOTDIR sys_rename old (Some new))
      | Some Dir =>
          match entry fs new with
          | Some Dir => Throw (SystemError EISDIR sys_rename old (Some new))
          | _ => Ok (<[new := File data]> (delete old fs))
          end
      end
  | Some Dir =>
      if bool_decide (old = new) then Ok fs
      else if bool_decide (old `prefix_of` new)
      then Throw (SystemError EINVAL sys_rename old (Some new))
      else
        match entry fs (parent new) with
        | None => Throw (SystemError ENOENT sys_rename old (Some new))
        | Some (File _) => Throw (SystemError ENOTDIR sys_rename old (Some new))
        | Some Dir =>
            match entry fs new with
            | Some (File _) => Throw (SystemError ENOTDIR sys_rename old (Some new))
            | Some Dir =>
                if has_entries fs new
                then Throw (SystemError ENOTEMPTY sys_rename old (Some new))
                else Ok (move_subtree old new (delete new fs))
            | None => Ok (move_subtree old new fs)
            end
        end
  end.

(** ** JSON values *)

Inductive json : Type :=
| JNull
| JBool (b : bool)
| JNumber (lexeme : jsstring)
| JString (s : jsstring)
| JArray (items : list json)
| JObject (members : list (list N * json)).

(** Property read [o.key] on a parsed value; [None] is [undefined]. *)
Fixpoint assoc (key : jsstring) (members : list (list N * json)) : option json :=
  match members with
  | [] => None
  | (k, v) :: r => if bool_decide (k = key) then Some v else assoc key r
  end.

Definition field (key : jsstring) (v : json) : option json :=
  match v with
  | JObject members => assoc key members
  | _ => None
  end.

(** ** The Node runtime

    Library functions the server calls and that are no part of [server.js]. *)

Class NodeRuntime : Type := {
  (** [path.extname(p)] *)
  path_extname : jsstring -> jsstring;
  (** [path.basename(p, suffix)] *)
  path_basename : jsstring -> jsstring -> jsstring;
  (** [JSON.stringify(v, null, 2)] *)
  JSON_stringify : json -> jsstring;
  (** [JSON.parse(text)]; [None] when it throws a [SyntaxError] *)
  JSON_parse : jsstring -> option json;
  (** [new Date(ms).toISOString()] *)
  Date_toISOString : N -> jsstring;
  (** [error.message] *)
  Error_message : Exn -> jsstring
}.

(** ** Process state and the handler monad

    The state a handler runs in: the file tree, and the clock as the sequence
    of values successive readings return. *)

Record World : Type := mkWorld {
  files : FS;
  clock : nat -> N;
  reads : nat
}.

Definition with_files (fs : FS) (w : World) : World :=
  {| files := fs; clock := clock w; reads := reads w |}.

(** A computation may throw; the state reached before the throw stays. *)
Definition M (A : Type) : Type := World -> Result A * World.

Definition retM {A} (a : A) : M A := fun w => (Ok a, w).

Definition bindM {A B} (m : M A) (k : A -> M B) : M B :=
  fun w =>
    match m w with
    | (Ok a, w') => k a w'
    | (Throw e, w') => (Throw e, w')
    end.

Definition throwM {A} (e : Exn) : M A := fun w => (Throw e, w).

(** [try { m } catch (e) { h e }] *)
Definition try_catch {A} (m : M A) (h : Exn -> M A) : M A :=
  fun w =>
    match m w with
    | (Ok a, w') => (Ok a, w')
    | (Throw e, w') => h e w'
    end.

Notation "x <- m ;; k" := (bindM m (fun x => k))
  (at level 100, m at next level, right associativity).
Notation "m ;;; k" := (bindM m (fun _ => k))
  (at level 100, right associativity).

Definition lift_fs (op : FS -> Result FS) : M unit :=
  fun w =>
    match op (files w) with
    | Ok fs' => (Ok tt, with_files fs' w)
    | Throw e => (Throw e, w)
    end.

Definition existsSync (p : path) : M bool :=
  fun w => (Ok (fs_existsSync (files w) p), w).
Definition mkdirSync (p : path) : M unit := lift_fs (fs_mkdirSync p).
Definition writeFileSync (p : path) (data : jsstring) : M unit :=
  lift_fs (fs_writeFileSync p data).
Definition renameSync (old new : path) : M unit := lift_fs (fs_renameSync old new).
Definition rmdirSync (p : path) : M unit := lift_fs (fs_rmdirSync p).
Definition readFileSync (p : path) : M jsstring :=
  fun w => (fs_readFileSync p (files w), w).

(** The state after one more reading of the clock. *)
Definition tick (w : World) : World :=
  {| files := files w; clock := clock w; reads := S (reads w) |}.

(** [Date.now()]: the next reading of the clock. *)
Definition Date_now : M N :=
  fun w => (Ok (clock w (reads w)), tick w).

(** ** The server (server.js) *)

Inductive Slot : Type := thumbnail | video.

(** The two names of [.fields([{ name: "thumbnail" }, { name: "video" }])]. *)
Definition fieldname (slot : Slot) : jsstring :=
  match slot with
  | thumbnail => js "thumbnail"
  | video => js "video"
  end.

(** A file part of the multipart request. *)
Record Upload : Type := mkUpload {
  upload_originalname : jsstring;
  upload_data : jsstring
}.

(** The file object multer hands to the handler in [req.files[name][0]]. *)
Record FileHandle : Type := mkFileHandle {
  file_originalname : jsstring;
  file_filename : jsstring;
  file_path : path
}.

(** [req.body]: a text field is a string, or [undefined] when it was not
    sent. *)
Record Body : Type := mkBody {
  title : option (list N);
  description : option (list N);
  thumbnailURL : option (list N);
  videoURL : option (list N)
}.

Record Request : Type := mkRequest {
  req_body : Body;
  req_parts : Slot -> option Upload
}.

Record Response : Type := mkResponse {
  status : N;
  body : json
}.

(** Truthiness of a string-or-undefined value: [undefined] and [""] are
    falsy. *)
Definition truthy (v : option (list N)) : bool :=
  match v with
  | Some (_ :: _) => true
  | _ => false
  end.

(** [v || ""] *)
Definition or_empty (v : option (list N)) : jsstring :=
  if truthy v then default [] v else [].

Definition message_body (m : jsstring) : json := JObject [(js "message", JString m)].

Definition UPLOADS_BASE_DIR : jsstring := js "uploads".
Definition moviesFile : path := [js "movies.json"].

Section Server.
Context `{NodeRuntime}.

(** Lines 19-24 and 76-81: the directories and the catalog file made at
    start-up.  [JSON.stringify([])] is ["[]"] with and without indentation. *)
Definition startup : M unit :=
  e <- existsSync [UPLOADS_BASE_DIR] ;;
  (if negb e then mkdirSync [UPLOADS_BASE_DIR] else retM tt) ;;;
  e <- existsSync moviesFile ;;
  (if negb e then writeFileSync moviesFile (JSON_stringify (JArray [])) else retM tt).

(** Lines 34-38. *)
Definition createMovieFolderName (title : jsstring) : M (list N) :=
  timestamp <- Date_now ;;
  retM (movieFolderName_at timestamp title).

(** Lines 42-51, [destination]. *)
Definition storage_destination : M path :=
  let tempDir := path_join [UPLOADS_BASE_DIR] (js "temp") in
  e <- existsSync tempDir ;;
  (if negb e then mkdirSync tempDir else retM tt) ;;;
  retM tempDir.

(** The name [filename] builds once the clock has been read (line 58). *)
Definition uniqueName_at (slot : Slot) (now : N) (originalname : jsstring) : jsstring :=
  let fileType := fieldname slot in
  let fileExt := path_extname originalname in
  let baseName := path_basename originalname fileExt in
  let sanitizedName := sanitizeFilename baseName in
  fileType ++ js "-" ++ Number_toString now ++ js "-" ++ sanitizedName ++ fileExt.

(** Lines 52-61, [filename]. *)
Definition storage_filename (slot : Slot) (originalname : jsstring) : M (list N) :=
  now <- Date_now ;;
  retM (uniqueName_at slot now originalname).

(** multer's disk storage for one file part: ask for the destination and the
    filename, write the part there, hand out the file object. *)
Definition stage_part (slot : Slot) (part : option Upload) : M (option FileHandle) :=
  match part with
  | None => retM None
  | Some u =>
      destination <- storage_destination ;;
      filename <- storage_filename slot (upload_originalname u) ;;
      let finalPath := path_join destination filename in
      writeFileSync finalPath (upload_data u) ;;;
      retM (Some {| file_originalname := upload_originalname u;
                    file_filename := filename;
                    file_path := finalPath |})
  end.

(** [upload(req, res, cb)]: the parts in the order of the form. *)
Definition multer_upload (req : Request) : M (Slot -> option FileHandle) :=
  t <- stage_part thumbnail (req_parts req thumbnail) ;;
  v <- stage_part video (req_parts req video) ;;
  retM (fun slot => match slot with thumbnail => t | video => v end).

(** Lines 121-139 for the thumbnail and lines 142-160 for the video: the same
    block, once per slot.  The result is [thumbnailPath] (resp. [videoPath]),
    [None] standing for [undefined]. *)
Definition resolve_slot (slot : Slot) (movieFolderName : jsstring)
    (file : option FileHandle) (url : option (list N)) : M (option (list N)) :=
  let movieFolderPath := path_join [UPLOADS_BASE_DIR] movieFolderName in
  match file with
  | Some f =>
      let originalPath := file_path f in
      let newPath := path_join movieFolderPath (file_filename f) in
      renameSync originalPath newPath ;;;
      retM (Some (js "/uploads/" ++ movieFolderName ++ js "/" ++ file_filename f))
  | None =>
      if truthy url then
        writeFileSync (path_join movieFolderPath (fieldname slot ++ js "-url.txt"))
                      (default [] url) ;;;
        retM url
      else retM None
  end.

(** [metadata], lines 164-171. *)
Definition metadata_object (id title description uploadDate : jsstring)
    (thumbnailPath videoPath : option (list N)) : json :=
  JObject [ (js "id", JString id);
            (js "title", JString title);
            (js "description", JString description);
            (js "uploadDate", JString uploadDate);
            (js "thumbnail", JString (or_empty thumbnailPath));
            (js "video", JString (or_empty videoPath)) ].

(** [newMovie], lines 183-191. *)
Definition newMovie_object (id title description movieFolderName : jsstring)
    (thumbnailPath videoPath : option (list N)) (uploadDate : jsstring) : json :=
  JObject [ (js "id", JString id);
            (js "title", JString title);
            (js "description", JString description);
            (js "folderPath", JString movieFolderName);
            (js "thumbnail", JString (or_empty thumbnailPath));
            (js "video", JString (or_empty videoPath));
            (js "uploadDate", JString uploadDate) ].

Definition parse (text : jsstring) : M json :=
  match JSON_parse text with
  | Some v => retM v
  | None => throwM SyntaxError
  end.

(** Lines 194-202: the catalog as [POST /upload] reads it.  [movies.length]
    inside the [try] throws on [null]; whatever is thrown there leaves
    [movies = []]. *)
Definition read_movies : M json :=
  try_catch
    (data <- readFileSync moviesFile ;;
     movies <- parse data ;;
     match movies with
     | JNull => throwM (TypeError (js "Cannot read properties of null (reading 'length')"))
     | _ => retM movies
     end)
    (fun _ => retM (JArray [])).

(** [movies.push(newMovie)], line 204. *)
Definition push (movies newMovie : json) : M json :=
  match movies with
  | JArray items => retM (JArray (items ++ [newMovie]))
  | _ => throwM (TypeError (js "movies.push is not a function"))
  end.

(** Lines 101-218: the callback of [upload] when multer reports no error.
    The two clock readings of [metadata] are [Date.now()] for [id] and
    [new Date()] for [uploadDate]. *)
Definition process_upload (b : Body) (req_files : Slot -> option FileHandle) : M Response :=
  try_catch
    (if negb (truthy (title b)) || negb (truthy (description b)) then
       retM {| status := 400;
               body := message_body (js "Title and description are required") |}
     else
       let title_ := default [] (title b) in
       let description_ := default [] (description b) in
       movieFolderName <- createMovieFolderName title_ ;;
       let movieFolderPath := path_join [UPLOADS_BASE_DIR] movieFolderName in
       e <- existsSync movieFolderPath ;;
       (if negb e then mkdirSync movieFolderPath else retM tt) ;;;
       thumbnailPath <- resolve_slot thumbnail movieFolderName
                          (req_files thumbnail) (thumbnailURL b) ;;
       videoPath <- resolve_slot video movieFolderName
                      (req_files video) (videoURL b) ;;
       let metadataFile := path_join movieFolderPath (js "metadata.json") in
       id <- Date_now ;;
       uploadDate <- Date_now ;;
       let metadata :=
         metadata_object (Number_toString id) title_ description_
           (Date_toISOString uploadDate) thumbnailPath videoPath in
       writeFileSync metadataFile (JSON_stringify metadata) ;;;
       if negb (truthy thumbnailPath) && negb (truthy videoPath) then
         rmdirSync movieFolderPath ;;;
         retM {| status := 400;
                 body := message_body
                   (js "Please provide at least one thumbnail and one video (file or URL)") |}
       else
         let newMovie :=
           newMovie_object (Number_toString id) title_ description_ movieFolderName
             thumbnailPath videoPath (Date_toISOString uploadDate) in
         movies <- read_movies ;;
         movies <- push movies newMovie ;;
         writeFileSync moviesFile (JSON_stringify movies) ;;;
         retM {| status := 200;
                 body := JObject [ (js "message", JString (js "Movie added successfully"));
                                   (js "movie", newMovie);
                                   (js "folderPath", JString movieFolderName) ] |})
    (fun error =>
       retM {| status := 500;
               body := message_body (js "Server error: " ++ Error_message error) |}).

(** Lines 84-220, [POST /upload].  A [MulterError] reports a part that
    [.fields] does not allow; a [Request] has no such part, so an error of
    [upload] is one of the file tree and takes the second branch of lines
    89-95. *)
Definition post_upload (req : Request) : M Response :=
  fun w =>
    match multer_upload req w with
    | (Throw err, w') =>
        (Ok {| status := 500;
               body := message_body (js "Unknown error: " ++ Error_message err) |}, w')
    | (Ok req_files, w') => process_upload (req_body req) req_files w'
    end.

(** Lines 223-232, [GET /api/movies]. *)
Definition get_movies : M Response :=
  try_catch
    (data <- readFileSync moviesFile ;;
     movies <- parse data ;;
     retM {| status := 200; body := movies |})
    (fun _ =>
       retM {| status := 500; body := message_body (js "Error reading movies") |}).

End Server.

(** ** The rest of the server *)

Section ReadApi.
Context `{NodeRuntime}.

(** [v === s] for a string [s]: it holds for an equal string alone. *)
Definition strict_equals (v : option json) (s : jsstring) : bool :=
  match v with
  | Some (JString t) => bool_decide (t = s)
  | _ => false
  end.

(** [m.id === id] for an entry of the parsed catalog.  Reading a property of
    [null] throws; every other value has an [id] only as an own property of an
    object. *)
Definition id_is (id : jsstring) (m : json) : M bool :=
  match m with
  | JNull => throwM (TypeError (js "Cannot read properties of null (reading 'id')"))
  | _ => retM (strict_equals (field (js "id") m) id)
  end.

(** [Array.prototype.find] with the callback of line 239: the first entry the
    callback accepts, [None] standing for [undefined]. *)
Fixpoint Array_find (id : jsstring) (items : list json) : M (option json) :=
  match items with
  | [] => retM None
  | m :: rest =>
      found <- id_is id m ;;
      if found then retM (Some m) else Array_find id rest
  end.

(** [movies.find(...)]: only an array has the method. *)
Definition movies_find (movies : json) (id : jsstring) : M (option json) :=
  match movies with
  | JArray items => Array_find id items
  | JNull => throwM (TypeError (js "Cannot read properties of null (reading 'find')"))
  | _ => throwM (TypeError (js "movies.find is not a function"))
  end.

(** Lines 235-250, [GET /api/movies/:id].  An entry that [find] returns is an
    object, so [!movie] holds for [undefined] only. *)
Definition get_movie_by_id (id : jsstring) : M Response :=
  try_catch
    (data <- readFileSync moviesFile ;;
     movies <- parse data ;;
     movie <- movies_find movies id ;;
     match movie with
     | None => retM {| status := 404; body := message_body (js "Movie not found") |}
     | Some m => retM {| status := 200; body := m |}
     end)
    (fun _ =>
       retM {| status := 500; body := message_body (js "Error reading movie") |}).

End ReadApi.

(** ** Vocabulary of the statements *)

(** The reference a slot gets when nothing throws: the stored path of the
    file, else the URL, else nothing. *)
Definition slot_reference (movieFolderName : jsstring)
    (file : option FileHandle) (url : option (list N)) : option (list N) :=
  match file with
  | Some f => Some (js "/uploads/" ++ movieFolderName ++ js "/" ++ file_filename f)
  | None => if truthy url then url else None
  end.

(** The folder a request gets in a state: named after the next clock
    reading. *)
Definition folder_of (b : Body) (w : World) : jsstring :=
  movieFolderName_at (clock w (reads w)) (default [] (title b)).

(** The catalog entry of a request in a state: the [id] is the second clock
    reading of the handler and the [uploadDate] the third. *)
Definition movie_of `{NodeRuntime} (b : Body) (req_files : Slot -> option FileHandle)
    (w : World) : json :=
  newMovie_object (Number_toString (clock w (S (reads w))))
    (default [] (title b)) (default [] (description b)) (folder_of b w)
    (slot_reference (folder_of b w) (req_files thumbnail) (thumbnailURL b))
    (slot_reference (folder_of b w) (req_files video) (videoURL b))
    (Date_toISOString (clock w (S (S (reads w))))).

(** The metadata document of the same request. *)
Definition metadata_of `{NodeRuntime} (b : Body)
    (req_files : Slot -> option FileHandle) (w : World) : json :=
  metadata_object (Number_toString (clock w (S (reads w))))
    (default [] (title b)) (default [] (description b))
    (Date_toISOString (clock w (S (S (reads w)))))
    (slot_reference (folder_of b w) (req_files thumbnail) (thumbnailURL b))
    (slot_reference (folder_of b w) (req_files video) (videoURL b)).

(** File objects as multer hands them out: the path is the staging folder
    and the filename, and no directory sits there. *)
Definition staged_in (fs : FS) (req_files : Slot -> option FileHandle) : Prop :=
  forall (slot : Slot) (f : FileHandle),
    req_files slot = Some f ->
    file_path f = [UPLOADS_BASE_DIR; js "temp"; file_filename f]
    /\ fs !! file_path f <> Some Dir.

(** The file tree with the sidecar of a slot, when the slot has a URL. *)
Definition with_sidecar (slot : Slot) (movieFolderName : jsstring)
    (url : option (list N)) (fs : FS) : FS :=
  if truthy url
  then <[[UPLOADS_BASE_DIR; movieFolderName; fieldname slot ++ js "-url.txt"]
         := File (default [] url)]> fs
  else fs.

(** The file tree a submission without files leaves behind before the catalog
    is read: the new folder, the sidecars and the metadata document. *)
Definition item_tree `{NodeRuntime} (b : Body) (req_files : Slot -> option FileHandle)
    (w : World) : FS :=
  <[[UPLOADS_BASE_DIR; folder_of b w; js "metadata.json"]
    := File (JSON_stringify (metadata_of b req_files w))]>
    (with_sidecar video (folder_of b w) (videoURL b)
       (with_sidecar thumbnail (folder_of b w) (thumbnailURL b)
          (<[[UPLOADS_BASE_DIR; folder_of b w] := Dir]> (files w)))).

(** Whether a string has two underscores in a row. *)
Fixpoint double_underscore (s : jsstring) : bool :=
  match s with
  | c :: r =>
      (is_underscore c && match r with d :: _ => is_underscore d | [] => false end)
      || double_underscore r
  | [] => false
  end.

(** The characters the sanitizer keeps as they are. *)
Definition kept (c : N) : bool := class_word c && negb (is_underscore c).

(** ** A Node runtime on a POSIX host

    An instance of [NodeRuntime], to run the handlers on concrete requests.
    The properties below hold for every runtime; this one serves the sample
    runs.  The path functions are those of [path.posix] on names with a last
    portion.  The JSON functions cover the documents this server writes and
    reads back: a number is kept as its lexeme and the members of an object
    keep the order of the text. *)

Module Node.

(** *** [path.posix] *)

Definition slash : N := ch "/".
Definition dot : N := ch ".".

Fixpoint drop_while_slash (s : jsstring) : jsstring :=
  match s with
  | c :: r => if c =? slash then drop_while_slash r else s
  | [] => []
  end.

Fixpoint take_until_slash (s : jsstring) : jsstring :=
  match s with
  | c :: r => if c =? slash then [] else c :: take_until_slash r
  | [] => []
  end.

(** The last portion of a path, trailing separators ignored. *)
Definition last_portion (p : jsstring) : jsstring :=
  rev (take_until_slash (drop_while_slash (rev p))).

(** Position of the last dot of a portion. *)
Definition last_dot (seg : jsstring) : option nat :=
  match list_find (fun c => c = dot) (rev seg) with
  | Some (i, _) => Some (length seg - 1 - i)%nat
  | None => None
  end.

(** From the last dot of the last portion to its end; empty when there is no
    dot, when the only dot leads the portion, and for [..]. *)
Definition extname (p : jsstring) : jsstring :=
  let seg := last_portion p in
  match last_dot seg with
  | None => []
  | Some O => []
  | Some d => if bool_decide (seg = [dot; dot]) then [] else drop d seg
  end.

(** The last portion, without [suffix] when the portion ends with it and is
    longer than it. *)
Definition basename (p suffix : jsstring) : jsstring :=
  let seg := last_portion p in
  if bool_decide (suffix = p) && negb (bool_decide (suffix = [])) then []
  else if bool_decide (suffix `suffix_of` seg) && negb (bool_decide (suffix = seg))
  then take (length seg - length suffix) seg
  else seg.

(** *** [Date.prototype.toISOString] *)

Definition pad (width : nat) (n : N) : jsstring :=
  let d := Number_toString n in
  replicate (width - length d) (ch "0") ++ d.

(** Year, month and day of a count of days since 1970-01-01. *)
Definition civil_from_days (days : N) : N * N * N :=
  let z := days + 719468 in
  let era := z / 146097 in
  let doe := z - era * 146097 in
  let yoe := (doe - doe / 1460 + doe / 36524 - doe / 146096) / 365 in
  let doy := doe - (365 * yoe + yoe / 4 - yoe / 100) in
  let mp := (5 * doy + 2) / 153 in
  let d := doy - (153 * mp + 2) / 5 + 1 in
  let m := if mp <? 10 then mp + 3 else mp - 9 in
  let y := yoe + era * 400 + (if m <=? 2 then 1 else 0) in
  (y, m, d).

Definition toISOString (ms : N) : jsstring :=
  let '(y, m, d) := civil_from_days (ms / 86400000) in
  let t := ms mod 86400000 in
  (if y <=? 9999 then pad 4 y else js "+" ++ pad 6 y)
  ++ js "-" ++ pad 2 m ++ js "-" ++ pad 2 d
  ++ js "T" ++ pad 2 (t / 3600000) ++ js ":" ++ pad 2 (t / 60000 mod 60)
  ++ js ":" ++ pad 2 (t / 1000 mod 60) ++ js "." ++ pad 3 (t mod 1000) ++ js "Z".

(** *** [error.message] *)

Fixpoint join (sep : jsstring) (parts : list (list N)) : jsstring :=
  match parts with
  | [] => []
  | [x] => x
  | x :: r => x ++ sep ++ join sep r
  end.

Definition errno_text (code : errno) : jsstring :=
  match code with
  | ENOENT => js "ENOENT: no such file or directory"
  | EEXIST => js "EEXIST: file already exists"
  | ENOTDIR => js "ENOTDIR: not a directory"
  | EISDIR => js "EISDIR: illegal operation on a directory"
  | ENOTEMPTY => js "ENOTEMPTY: directory not empty"
  | EINVAL => js "EINVAL: invalid argument"
  end.

Definition syscall_text (call : syscall) : jsstring :=
  match call with
  | sys_open => js "open"
  | sys_mkdir => js "mkdir"
  | sys_rename => js "rename"
  | sys_rmdir => js "rmdir"
  end.

Definition quoted_path (p : path) : jsstring := js "'" ++ join (js "/") p ++ js "'".

Definition message (e : Exn) : jsstring :=
  match e with
  | SystemError code call p dest =>
      errno_text code ++ js ", " ++ syscall_text call ++ js " " ++ quoted_path p
      ++ match dest with
         | Some q => js " -> " ++ quoted_path q
         | None => []
         end
  | SyntaxError => js "Unexpected token in JSON"
  | TypeError m => m
  end.

(** *** [JSON.stringify(value, null, 2)] *)

Definition hex_digit (n : N) : N :=
  if n <? 10 then ch "0" + n else ch "a" + (n - 10).

Definition hex4 (c : N) : jsstring :=
  [hex_digit (c / 4096 mod 16); hex_digit (c / 256 mod 16);
   hex_digit (c / 16 mod 16); hex_digit (c mod 16)].

Definition unicode_escape (c : N) : jsstring := js "\u" ++ hex4 c.

Definition is_high_surrogate (c : N) : bool := in_range 55296 56319 c.
Definition is_low_surrogate (c : N) : bool := in_range 56320 57343 c.

(** The body of [QuoteJSONString]: the short escapes, [\u00xx] for the other
    control characters and for surrogates that are not part of a pair. *)
Fixpoint quote_chars (s : jsstring) : jsstring :=
  match s with
  | [] => []
  | c :: r =>
      if c =? 8 then js "\b" ++ quote_chars r
      else if c =? 9 then js "\t" ++ quote_chars r
      else if c =? 10 then js "\n" ++ quote_chars r
      else if c =? 12 then js "\f" ++ quote_chars r
      else if c =? 13 then js "\r" ++ quote_chars r
      else if c =? 34 then [92; 34] ++ quote_chars r
      else if c =? 92 then [92; 92] ++ quote_chars r
      else if c <? 32 then unicode_escape c ++ quote_chars r
      else if is_high_surrogate c then
        match r with
        | d :: r' =>
            if is_low_surrogate d then c :: d :: quote_chars r'
            else unicode_escape c ++ quote_chars r
        | [] => unicode_escape c
        end
      else if is_low_surrogate c then unicode_escape c ++ quote_chars r
      else c :: quote_chars r
  end.

Definition quote (s : jsstring) : jsstring := [34] ++ quote_chars s ++ [34].

Definition spaces (n : nat) : jsstring := replicate n 32.

Definition newline : jsstring := [10].

Fixpoint stringify_at (indent : nat) (v : json) : jsstring :=
  match v with
  | JNull => js "null"
  | JBool true => js "true"
  | JBool false => js "false"
  | JNumber lexeme => lexeme
  | JString s => quote s
  | JArray [] => js "[]"
  | JArray items =>
      js "[" ++ newline
      ++ join (js "," ++ newline)
           (map (fun x => spaces (indent + 2) ++ stringify_at (indent + 2) x) items)
      ++ newline ++ spaces indent ++ js "]"
  | JObject [] => js "{}"
  | JObject members =>
      js "{" ++ newline
      ++ join (js "," ++ newline)
           (map (fun m => spaces (indent + 2) ++ quote (fst m) ++ js ": "
                          ++ stringify_at (indent + 2) (snd m)) members)
      ++ newline ++ spaces indent ++ js "}"
  end.

Definition stringify (v : json) : jsstring := stringify_at 0 v.

(** *** [JSON.parse] *)

Definition is_ws (c : N) : bool := (c =? 32) || (c =? 9) || (c =? 10) || (c =? 13).

Fixpoint skip_ws (s : jsstring) : jsstring :=
  match s with
  | c :: r => if is_ws c then skip_ws r else s
  | [] => []
  end.

Definition is_digit (c : N) : bool := in_range (ch "0") (ch "9") c.

Definition hex_value (c : N) : option N :=
  if is_digit c then Some (c - ch "0")
  else if in_range (ch "a") (ch "f") c then Some (c - ch "a" + 10)
  else if in_range (ch "A") (ch "F") c then Some (c - ch "A" + 10)
  else None.

Definition simple_escape (c : N) : option N :=
  if c =? 34 then Some 34
  else if c =? 92 then Some 92
  else if c =? ch "/" then Some (ch "/")
  else if c =? ch "b" then Some 8
  else if c =? ch "f" then Some 12
  else if c =? ch "n" then Some 10
  else if c =? ch "r" then Some 13
  else if c =? ch "t" then Some 9
  else None.

(** The characters of a string up to its closing quote, and what follows. *)
Fixpoint parse_chars (s acc : jsstring) : option (list N * list N) :=
  match s with
  | [] => None
  | c :: r =>
      if c =? 34 then Some (rev acc, r)
      else if c <? 32 then None
      else if c =? 92 then
        match r with
        | [] => None
        | e :: r1 =>
            if e =? ch "u" then
              match r1 with
              | h1 :: h2 :: h3 :: h4 :: r2 =>
                  match hex_value h1, hex_value h2, hex_value h3, hex_value h4 with
                  | Some a, Some b, Some c', Some d =>
                      parse_chars r2 ((a * 4096 + b * 256 + c' * 16 + d) :: acc)
                  | _, _, _, _ => None
                  end
              | _ => None
              end
            else
              match simple_escape e with
              | Some x => parse_chars r1 (x :: acc)
              | None => None
              end
        end
      else parse_chars r (c :: acc)
  end.

Fixpoint span_digits (s : jsstring) : list N * list N :=
  match s with
  | c :: r => if is_digit c then let '(d, t) := span_digits r in (c :: d, t) else ([], s)
  | [] => ([], [])
  end.

(** A JSON number: an optional minus, an integer part without a leading zero,
    an optional fraction and an optional exponent.  The result is the lexeme
    and what follows it. *)
Definition parse_number (s : jsstring) : option (list N * list N) :=
  let '(sign, s1) := match s with
                     | c :: r => if c =? ch "-" then ([c], r) else ([], s)
                     | [] => ([], s)
                     end in
  let '(int, s2) := span_digits s1 in
  match int with
  | [] => None
  | d :: more =>
      if (d =? ch "0") && negb (bool_decide (more = [])) then None
      else
        let frac :=
          match s2 with
          | c :: r =>
              if c =? dot then
                match span_digits r with
                | ([], _) => None
                | (ds, t) => Some (c :: ds, t)
                end
              else Some ([], s2)
          | [] => Some ([], s2)
          end in
        match frac with
        | None => None
        | Some (f, s3) =>
            let exp :=
              match s3 with
              | c :: r =>
                  if (c =? ch "e") || (c =? ch "E") then
                    let '(sg, r1) := match r with
                                     | x :: r' => if (x =? ch "+") || (x =? ch "-")
                                                  then ([x], r') else ([], r)
                                     | [] => ([], r)
                                     end in
                    match span_digits r1 with
                    | ([], _) => None
                    | (ds, t) => Some (c :: sg ++ ds, t)
                    end
                  else Some ([], s3)
              | [] => Some ([], s3)
              end in
            match exp with
            | None => None
            | Some (e, s4) => Some (sign ++ int ++ f ++ e, s4)
            end
        end
  end.

(** [o[k] = v] while an object literal is read: a repeated key keeps its
    place and takes the later value. *)
Fixpoint set_member (k : jsstring) (v : json) (members : list (list N * json))
    : list (list N * json) :=
  match members with
  | [] => [(k, v)]
  | (k', v') :: r =>
      if bool_decide (k' = k) then (k', v) :: r else (k', v') :: set_member k v r
  end.

Fixpoint parse_value (fuel : nat) (s : jsstring) : option (json * list N) :=
  match fuel with
  | O => None
  | S n =>
      match skip_ws s with
      | 110 :: 117 :: 108 :: 108 :: r => Some (JNull, r)
      | 116 :: 114 :: 117 :: 101 :: r => Some (JBool true, r)
      | 102 :: 97 :: 108 :: 115 :: 101 :: r => Some (JBool false, r)
      | 34 :: r =>
          match parse_chars r [] with
          | Some (str, r') => Some (JString str, r')
          | None => None
          end
      | 91 :: r =>
          match skip_ws r with
          | 93 :: r' => Some (JArray [], r')
          | _ => parse_items n r []
          end
      | 123 :: r =>
          match skip_ws r with
          | 125 :: r' => Some (JObject [], r')
          | _ => parse_members n r []
          end
      | t =>
          match parse_number t with
          | Some (lexeme, r) => Some (JNumber lexeme, r)
          | None => None
          end
      end
  end
with parse_items (fuel : nat) (s : jsstring) (acc : list json) : option (json * list N) :=
  match fuel with
  | O => None
  | S n =>
      match parse_value n s with
      | Some (v, r) =>
          match skip_ws r with
          | 44 :: r' => parse_items n r' (v :: acc)
          | 93 :: r' => Some (JArray (rev (v :: acc)), r')
          | _ => None
          end
      | None => None
      end
  end
with parse_members (fuel : nat) (s : jsstring) (acc : list (list N * json))
    : option (json * list N) :=
  match fuel with
  | O => None
  | S n =>
      match skip_ws s with
      | 34 :: r =>
          match parse_chars r [] with
          | Some (k, r1) =>
              match skip_ws r1 with
              | 58 :: r2 =>
                  match parse_value n r2 with
                  | Some (v, r3) =>
                      match skip_ws r3 with
                      | 44 :: r4 => parse_members n r4 (set_member k v acc)
                      | 125 :: r4 => Some (JObject (set_member k v acc), r4)
                      | _ => None
                      end
                  | None => None
                  end
              | _ => None
              end
          | None => None
          end
      | _ => None
      end
  end.

(** The three functions above recurse on their fuel; [parse] hands them
    twice the length of the text, and accepts a value that is followed by
    white space only. *)
Definition parse (text : jsstring) : option json :=
  match parse_value (2 * length text + 2) text with
  | Some (v, r) => match skip_ws r with [] => Some v | _ => None end
  | None => None
  end.

#[export] Instance runtime : NodeRuntime := {|
  path_extname := extname;
  path_basename := basename;
  JSON_stringify := stringify;
  JSON_parse := parse;
  Date_toISOString := toISOString;
  Error_message := message
|}.

End Node.

(** ** Sample states and requests *)

Module Sample.
Import Node.

(** A clock that advances by a millisecond at every reading. *)
Definition clock0 : nat -> N := fun n => 1700000000000 + N.of_nat n.

(** An empty working directory, and the same after [startup]. *)
Definition empty_world : World := {| files := ∅; clock := clock0; reads := 0 |}.
Definition booted : World := snd (startup empty_world).

(** A state whose catalog file holds text that is no JSON. *)
Definition corrupted : World :=
  with_files (<[moviesFile := File (js "[{ oops")]> (files booted)) booted.

Definition no_parts : Slot -> option Upload := fun _ => None.
Definition no_files : Slot -> option FileHandle := fun _ => None.

(** Title and description, and nothing for either slot. *)
Definition bare_body : Body :=
  {| title := Some (js "a"); description := Some (js "b");
     thumbnailURL := None; videoURL := None |}.

(** The same with both URL fields sent empty, as the form does. *)
Definition empty_urls_body : Body :=
  {| title := Some (js "a"); description := Some (js "b");
     thumbnailURL := Some []; videoURL := Some [] |}.

Definition bare_request : Request := {| req_body := bare_body; req_parts := no_parts |}.

(** No title, but a file and a URL. *)
Definition untitled_body : Body :=
  {| title := Some []; description := Some (js "b");
     thumbnailURL := Some (js "http://t"); videoURL := Some (js "http://v") |}.

(** A thumbnail file and a video URL. *)
Definition movie_request : Request :=
  {| req_body := {| title := Some (js "My Movie"); description := Some (js "d");
                    thumbnailURL := Some (js "http://t");
                    videoURL := Some (js "http://v") |};
     req_parts := fun slot =>
       match slot with
       | thumbnail => Some {| upload_originalname := js "pic.png";
                              upload_data := js "DATA" |}
       | video => None
       end |}.

(** What multer hands over for [movie_request], and the state it leaves. *)
Definition staged_files : Slot -> option FileHandle :=
  match fst (multer_upload movie_request booted) with
  | Ok req_files => req_files
  | Throw _ => no_files
  end.
Definition staged : World := snd (multer_upload movie_request booted).

(** The folder of [movie_request], and [staged] once the folder is made. *)
Definition movie_folder : jsstring := js "1700000000001-My_Movie".
Definition foldered : World :=
  snd (mkdirSync (path_join [UPLOADS_BASE_DIR] movie_folder) staged).

(** The state after [movie_request] has been served, and the entry it added. *)
Definition uploaded : World := snd (post_upload movie_request booted).
Definition uploaded_text : jsstring :=
  match files uploaded !! moviesFile with
  | Some (File text) => text
  | _ => []
  end.
Definition uploaded_movie : json :=
  match parse uploaded_text with
  | Some (JArray [m]) => m
  | _ => JNull
  end.

(** A submission with a video URL and nothing else. *)
Definition url_body : Body :=
  {| title := Some (js "Second"); description := Some (js "d2");
     thumbnailURL := Some []; videoURL := Some (js "http://v2") |}.

(** [movie_request] without its title. *)
Definition untitled_request : Request :=
  {| req_body := untitled_body; req_parts := req_parts movie_request |}.

(** A file object for a video that is not in the staging folder. *)
Definition lost_video : FileHandle :=
  {| file_originalname := js "clip.mp4";
     file_filename := js "video-1700000000000-clip.mp4";
     file_path := [UPLOADS_BASE_DIR; js "temp"; js "video-1700000000000-clip.mp4"] |}.
Definition files_with_lost_video : Slot -> option FileHandle :=
  fun slot => match slot with
              | thumbnail => staged_files thumbnail
              | video => Some lost_video
              end.

(** A catalog whose first entry has a number as its [id] and whose second
    entry is that of [movie_request]; one with a [null] in front; one that is
    an object. *)
Definition numbered : json := JObject [(js "id", JNumber (js "1700000000002"))].
Definition with_catalog (v : json) : World :=
  with_files (<[moviesFile := File (stringify v)]> (files booted)) booted.
Definition two_entries : World := with_catalog (JArray [numbered; uploaded_movie]).
Definition null_first : World := with_catalog (JArray [JNull; uploaded_movie]).
Definition object_catalog : World := with_catalog (JObject []).

End Sample.

(** * Properties *)

Arguments js : simpl never.

(** ** The sanitizer *)

Lemma class_word_underscore : class_word (ch "_") = true.
Proof. reflexivity. Qed.

Lemma replace_invalid_class_word (s : jsstring) :
  Forall (fun c => class_word c = true) (replace_invalid s).
Proof.
  unfold replace_invalid. induction s as [|c r IH]; simpl; constructor; auto.
  destruct (class_word c) eqn:Hc; [exact Hc | exact class_word_underscore].
Qed.

Lemma replace_underscore_runs_Forall (P : N -> Prop) (s : jsstring) :
  Forall P s -> Forall P (replace_underscore_runs s).
Proof.
  induction 1 as [|c r Hc Hr IH]; simpl; [constructor|].
  destruct (is_underscore c && _); [exact IH | constructor; assumption].
Qed.

Lemma is_underscore_eq (c : N) : is_underscore c = true -> c = ch "_".
Proof. unfold is_underscore. intros Hc. apply N.eqb_eq in Hc. exact Hc. Qed.

Lemma replace_underscore_runs_cons (c : N) (r : jsstring) :
  replace_underscore_runs (c :: r) =
  if is_underscore c && match r with d :: _ => is_underscore d | [] => false end
  then replace_underscore_runs r else c :: replace_underscore_runs r.
Proof. reflexivity. Qed.

(** A run is replaced by an underscore, so the first character stays. *)
Lemma replace_underscore_runs_head (s : jsstring) :
  head (replace_underscore_runs s) = head s.
Proof.
  induction s as [|c r IH]; [reflexivity|].
  rewrite replace_underscore_runs_cons.
  destruct (is_underscore c && _) eqn:Hrun; [|reflexivity].
  apply andb_prop in Hrun as [Hc Hd].
  destruct r as [|d r']; [discriminate|].
  rewrite IH. simpl.
  apply is_underscore_eq in Hc, Hd. congruence.
Qed.

Lemma replace_underscore_runs_no_pair (s pre post : jsstring) :
  replace_underscore_runs s <> pre ++ [ch "_"; ch "_"] ++ post.
Proof.
  revert pre. induction s as [|c r IH]; intros pre; simpl.
  - destruct pre; discriminate.
  - destruct (is_underscore c && _) eqn:Hrun; [apply IH|].
    destruct pre as [|x pre']; simpl.
    + intros [= -> Hr].
      pose proof (replace_underscore_runs_head r) as Hh.
      rewrite Hr in Hh. simpl in Hh.
      destruct r as [|d r']; [discriminate|].
      injection Hh as <-. discriminate Hrun.
    + intros [= _ Hr]. exact (IH pre' Hr).
Qed.

Lemma replace_underscore_runs_length (s : jsstring) :
  (length (replace_underscore_runs s) <= length s)%nat.
Proof.
  induction s as [|c r IH]; simpl; [lia|].
  destruct (is_underscore c && _); simpl; lia.
Qed.

Lemma sanitizeFilename_length (s : jsstring) :
  (length (sanitizeFilename s) <= length s)%nat.
Proof.
  unfold sanitizeFilename.
  etransitivity; [apply replace_underscore_runs_length|].
  unfold replace_invalid. rewrite length_map. lia.
Qed.

Lemma sanitizeFilename_class_word (filename : jsstring) :
  Forall (fun c => class_word c = true) (sanitizeFilename filename).
Proof. apply replace_underscore_runs_Forall, replace_invalid_class_word. Qed.

(** C4. For every input string the sanitizer returns a string: all its
    characters are in [A-Za-z0-9_.-] and it has no two consecutive
    underscores.  [sanitizeFilename] is a function of its argument alone,
    defined on every string. *)
Theorem sanitizeFilename_whitelist_no_double_underscore :
  forall filename : jsstring,
    Forall (fun c => class_word c = true) (sanitizeFilename filename)
    /\ (forall pre post : jsstring,
          sanitizeFilename filename <> pre ++ [ch "_"; ch "_"] ++ post).
Proof.
  intros filename. split.
  - apply sanitizeFilename_class_word.
  - intros pre post. apply replace_underscore_runs_no_pair.
Qed.

(** ** The folder name *)

(** C3, as the claim words it, fails: for a title of thirty spaces and an [x]
    the server sanitizes the whole title to [_x] and keeps it, while capping
    first leaves thirty spaces, which sanitize to [_]. *)
Lemma createMovieFolderName_caps_after_sanitizing :
  let title := replicate 30 (ch " ") ++ js "x" in
  let w := {| files := ∅; clock := fun _ => 1700000000000; reads := 0 |} in
  fst (createMovieFolderName title w) = Ok (js "1700000000000-_x")
  /\ spec_movieFolderName 1700000000000 title = js "1700000000000-_"
  /\ fst (createMovieFolderName title w)
     <> Ok (spec_movieFolderName (clock w (reads w)) title).
Proof.
  split; [reflexivity|]. split; [reflexivity|].
  vm_compute. discriminate.
Qed.

(** C3, amended.  For every title the folder name is the clock reading, a
    hyphen, and the first 30 characters of the sanitized title: the sanitizer
    runs on the whole title and its result is capped.  The kept part has at
    most 30 characters, all of the whitelist, and for a title of at most 30
    characters it is the sanitized title itself, as capping first would
    give. *)
Theorem createMovieFolderName_sanitize_then_cap :
  forall (title : jsstring) (w : World),
    createMovieFolderName title w
    = (Ok (Number_toString (clock w (reads w)) ++ js "-"
           ++ take 30 (sanitizeFilename title)), tick w)
    /\ (length (take 30 (sanitizeFilename title)) <= 30)%nat
    /\ Forall (fun c => class_word c = true) (take 30 (sanitizeFilename title))
    /\ ((length title <= 30)%nat ->
        movieFolderName_at (clock w (reads w)) title
        = spec_movieFolderName (clock w (reads w)) title).
Proof.
  intros title w. split; [reflexivity|]. split; [|split].
  - rewrite length_take. lia.
  - apply Forall_take, sanitizeFilename_class_word.
  - intros Hlen. unfold movieFolderName_at, spec_movieFolderName, slice0.
    pose proof (sanitizeFilename_length title) as Hs.
    rewrite !take_ge by lia. reflexivity.
Qed.

Lemma createMovieFolderName_sanitize_then_cap_witness :
  (length (js "My Movie") <= 30)%nat
  /\ movieFolderName_at 1700000000000 (js "My Movie")
     = spec_movieFolderName 1700000000000 (js "My Movie").
Proof.
  split; [vm_compute; lia|].
  apply (createMovieFolderName_sanitize_then_cap (js "My Movie")
           {| files := ∅; clock := fun _ => 1700000000000; reads := 0 |}).
  vm_compute. lia.
Defined.

(** ** Stored filenames *)

(** C10. The stored filename is the slot name, the clock reading and the
    sanitized basename, followed by the original extension as
    [path.extname] returned it: the sanitizer never sees the extension.  So
    whenever the extension holds a character outside [A-Za-z0-9_.-], the
    stored filename holds it too. *)
Theorem storage_filename_keeps_extension `{NodeRuntime} :
  forall (slot : Slot) (originalname : jsstring) (w : World) (c : N),
    c ∈ path_extname originalname ->
    class_word c = false ->
    exists stored : jsstring,
      storage_filename slot originalname w = (Ok stored, tick w)
      /\ stored = fieldname slot ++ js "-" ++ Number_toString (clock w (reads w))
                  ++ js "-"
                  ++ sanitizeFilename
                       (path_basename originalname (path_extname originalname))
                  ++ path_extname originalname
      /\ c ∈ stored
      /\ ~ Forall (fun c => class_word c = true) stored.
Proof.
  intros slot originalname w c Hin Hbad.
  eexists. split; [reflexivity|]. split; [reflexivity|].
  assert (Hc : c ∈ uniqueName_at slot (clock w (reads w)) originalname).
  { unfold uniqueName_at. rewrite !elem_of_app. auto 10. }
  split; [exact Hc|].
  intros Hall. rewrite Forall_forall in Hall.
  specialize (Hall c Hc). congruence.
Qed.

Lemma storage_filename_keeps_extension_witness :
  exists stored : jsstring,
    storage_filename (H := Node.runtime) thumbnail (js "clip.m p4")
      {| files := ∅; clock := fun _ => 1700000000000; reads := 0 |}
    = (Ok stored, tick {| files := ∅; clock := fun _ => 1700000000000; reads := 0 |})
    /\ stored = js "thumbnail-1700000000000-clip.m p4"
    /\ ch " " ∈ stored.
Proof.
  destruct (storage_filename_keeps_extension (H := Node.runtime) thumbnail
              (js "clip.m p4")
              {| files := ∅; clock := fun _ => 1700000000000; reads := 0 |}
              (ch " ")) as (stored & Hrun & Hname & Hin & _).
  - vm_compute. do 2 apply list_elem_of_further. apply list_elem_of_here.
  - reflexivity.
  - exists stored. split; [exact Hrun|]. split; [|exact Hin].
    rewrite Hname. reflexivity.
Defined.

(** ** File tree operations *)

Lemma lift_fs_Ok (op : FS -> Result FS) (w w' : World) (u : unit) :
  lift_fs op w = (Ok u, w') ->
  exists fs', op (files w) = Ok fs' /\ w' = with_files fs' w.
Proof.
  unfold lift_fs. destruct (op (files w)) as [fs'|e]; intros Heq;
    inversion Heq; subst; eauto.
Qed.

Lemma lift_fs_Throw (op : FS -> Result FS) (w w' : World) (e : Exn) :
  lift_fs op w = (Throw e, w') -> op (files w) = Throw e /\ w' = w.
Proof.
  unfold lift_fs. destruct (op (files w)) as [fs'|e']; intros Heq;
    inversion Heq; subst; auto.
Qed.

Lemma fs_mkdirSync_Ok (p : path) (fs fs' : FS) :
  fs_mkdirSync p fs = Ok fs' ->
  fs' = <[p := Dir]> fs /\ entry fs (parent p) = Some Dir /\ entry fs p = None.
Proof.
  unfold fs_mkdirSync.
  destruct (entry fs (parent p)) as [[|d]|]; try discriminate.
  destruct (entry fs p); [discriminate|]. intros [= <-]. auto.
Qed.

Lemma fs_mkdirSync_fresh (p : path) (fs : FS) :
  entry fs (parent p) = Some Dir ->
  entry fs p = None ->
  fs_mkdirSync p fs = Ok (<[p := Dir]> fs).
Proof. unfold fs_mkdirSync. intros -> ->. reflexivity. Qed.

Lemma fs_existsSync_entry (fs : FS) (p : path) :
  fs_existsSync fs p = match entry fs p with Some _ => true | None => false end.
Proof. reflexivity. Qed.

Lemma fs_writeFileSync_Ok (p : path) (data : jsstring) (fs fs' : FS) :
  fs_writeFileSync p data fs = Ok fs' ->
  fs' = <[p := File data]> fs /\ entry fs (parent p) = Some Dir.
Proof.
  unfold fs_writeFileSync.
  destruct (entry fs (parent p)) as [[|d]|]; try discriminate.
  destruct (entry fs p) as [[|d]|]; try discriminate; intros [= <-]; auto.
Qed.

Lemma fs_writeFileSync_into_dir (p : path) (data : jsstring) (fs : FS) :
  entry fs (parent p) = Some Dir ->
  entry fs p <> Some Dir ->
  fs_writeFileSync p data fs = Ok (<[p := File data]> fs).
Proof.
  unfold fs_writeFileSync. intros -> Hp.
  destruct (entry fs p) as [[|d]|]; congruence.
Qed.

Lemma fs_renameSync_file (old new : path) (data : jsstring) (fs : FS) :
  fs !! old = Some (File data) ->
  entry fs (parent new) = Some Dir ->
  entry fs new <> Some Dir ->
  fs_renameSync old new fs = Ok (<[new := File data]> (delete old fs)).
Proof.
  unfold fs_renameSync. intros -> -> Hnew.
  destruct (entry fs new) as [[|d]|]; congruence.
Qed.

(** A directory that holds an entry is not removed. *)
Lemma fs_rmdirSync_not_empty (dir : path) (name : jsstring) (n : node) (fs : FS) :
  fs !! (path_join dir name) = Some n ->
  exists e, fs_rmdirSync dir fs = Throw e.
Proof.
  intros Hn. unfold fs_rmdirSync.
  destruct (fs !! dir) as [[|d]|]; eauto.
  assert (Hex : has_entries fs dir = true).
  { unfold has_entries. apply bool_decide_eq_true.
    exists (path_join dir name), n. split; [exact Hn|].
    unfold path_join, parent. split.
    - destruct dir; discriminate.
    - rewrite length_app. simpl.
      replace (length dir + 1 - 1)%nat with (length dir) by lia.
      apply take_app_length. }
  rewrite Hex. eauto.
Qed.

Lemma entry_lookup (fs : FS) (p : path) : p <> [] -> entry fs p = fs !! p.
Proof. destruct p; [congruence | reflexivity]. Qed.

Lemma parent_path_join (dir : path) (name : jsstring) :
  parent (path_join dir name) = dir.
Proof.
  unfold path_join, parent. rewrite length_app. simpl.
  replace (length dir + 1 - 1)%nat with (length dir) by lia.
  apply take_app_length.
Qed.

(** ** The upload handler *)

Opaque js.

Lemma moviesFile_not_in_uploads (name : jsstring) (rest : path) :
  UPLOADS_BASE_DIR :: name :: rest <> moviesFile.
Proof. unfold moviesFile. intros [=]. Qed.

(** The step [if (!fs.existsSync(p)) fs.mkdirSync(p)]: it throws and leaves
    the state, or it goes on with [p] as the only path it may have added. *)
Lemma mkdir_if_missing (p : path) (w : World) :
  (exists e, (if negb (fs_existsSync (files w) p) then mkdirSync p else retM tt) w
             = (Throw e, w))
  \/ (exists w1,
        (if negb (fs_existsSync (files w) p) then mkdirSync p else retM tt) w
        = (Ok tt, w1)
        /\ clock w1 = clock w /\ reads w1 = reads w
        /\ (files w1 = files w \/ files w1 = <[p := Dir]> (files w))).
Proof.
  destruct (fs_existsSync (files w) p); simpl.
  - right. exists w. auto.
  - unfold mkdirSync, lift_fs.
    destruct (fs_mkdirSync p (files w)) as [fs'|e] eqn:Hm.
    + apply fs_mkdirSync_Ok in Hm as (-> & _).
      right. eexists. split; [reflexivity|]. simpl. auto.
    + left. eauto.
Qed.

(** Reading the catalog for an append never fails and changes nothing. *)
Lemma read_movies_total `{NodeRuntime} (w : World) :
  exists movies, read_movies w = (Ok movies, w).
Proof.
  unfold read_movies, try_catch, bindM, readFileSync, parse, retM, throwM.
  destruct (fs_readFileSync moviesFile (files w)) as [data|e]; [|eauto].
  destruct (JSON_parse data) as [v|]; [|eauto].
  destruct v; eauto.
Qed.

(** The guard of line 104 returns before anything is touched. *)
Lemma process_upload_guard `{NodeRuntime}
    (b : Body) (req_files : Slot -> option FileHandle) (w : World) :
  negb (truthy (title b)) || negb (truthy (description b)) = true ->
  process_upload b req_files w
  = (Ok {| status := 400;
           body := message_body (js "Title and description are required") |}, w).
Proof.
  intros Hguard. unfold process_upload, try_catch. rewrite Hguard. reflexivity.
Qed.

(** C5. When the title or the description is missing or empty, the handler
    answers 400 and leaves the state as it found it, whatever files and URLs
    came with the request: no directory is made and the catalog is not
    written. *)
Theorem process_upload_requires_title_and_description `{NodeRuntime} :
  forall (b : Body) (req_files : Slot -> option FileHandle) (w : World),
    truthy (title b) = false \/ truthy (description b) = false ->
    process_upload b req_files w
    = (Ok {| status := 400;
             body := message_body (js "Title and description are required") |}, w).
Proof.
  intros b req_files w Hmissing.
  apply process_upload_guard.
  destruct Hmissing as [-> | ->]; [reflexivity | apply orb_true_r].
Qed.

Lemma process_upload_requires_title_and_description_witness :
  truthy (title Sample.untitled_body) = false
  /\ Sample.staged_files thumbnail <> None
  /\ process_upload (H := Node.runtime) Sample.untitled_body Sample.staged_files
       Sample.staged
     = (Ok {| status := 400;
              body := message_body (js "Title and description are required") |},
        Sample.staged).
Proof.
  split; [reflexivity|]. split; [vm_compute; discriminate|].
  apply (process_upload_requires_title_and_description (H := Node.runtime)).
  left. reflexivity.
Defined.

(** Without a file and without a URL for either slot the handler never
    reaches its 400 answer: [metadata.json] is in the folder by the time
    [rmdirSync] runs, so the removal throws and the answer is 500. *)
Lemma process_upload_no_assets `{NodeRuntime}
    (b : Body) (req_files : Slot -> option FileHandle) (w : World) :
  truthy (title b) = true -> truthy (description b) = true ->
  req_files thumbnail = None -> req_files video = None ->
  truthy (thumbnailURL b) = false -> truthy (videoURL b) = false ->
  exists m w',
    process_upload b req_files w = (Ok {| status := 500; body := m |}, w')
    /\ files w' !! moviesFile = files w !! moviesFile.
Proof.
  intros Ht Hd Hft Hfv Hut Huv.
  unfold process_upload, try_catch.
  rewrite Ht, Hd, Hft, Hfv. simpl negb. simpl orb. cbv iota.
  unfold resolve_slot. rewrite Hut, Huv.
  unfold bindM, createMovieFolderName, Date_now, retM, existsSync, bindM. simpl.
  set (folder := movieFolderName_at _ _).
  destruct (mkdir_if_missing (path_join [UPLOADS_BASE_DIR] folder) (tick w))
    as [[e He] | (w1 & Hw1 & _ & _ & Hfiles)]; unfold retM in *; simpl in *.
  { rewrite He. eauto. }
  rewrite Hw1.
  assert (Hcat : files w1 !! moviesFile = files w !! moviesFile).
  { destruct Hfiles as [-> | ->]; [reflexivity|].
    apply lookup_insert_ne, moviesFile_not_in_uploads. }
  unfold writeFileSync, lift_fs. simpl.
  destruct (fs_writeFileSync _ _ (files w1)) as [fs'|e] eqn:Hwrite; [|eauto].
  apply fs_writeFileSync_Ok in Hwrite as (-> & _).
  unfold rmdirSync, lift_fs. simpl.
  destruct (fs_rmdirSync_not_empty (path_join [UPLOADS_BASE_DIR] folder)
              (js "metadata.json") (File (JSON_stringify
                (metadata_object (Number_toString (clock w1 (reads w1)))
                   (default [] (title b)) (default [] (description b))
                   (Date_toISOString (clock w1 (S (reads w1)))) None None)))
              (<[path_join (path_join [UPLOADS_BASE_DIR] folder) (js "metadata.json")
                 := File (JSON_stringify
                (metadata_object (Number_toString (clock w1 (reads w1)))
                   (default [] (title b)) (default [] (description b))
                   (Date_toISOString (clock w1 (S (reads w1)))) None None))]>
                 (files w1))) as [e He].
  { apply lookup_insert_eq. }
  rewrite He. do 2 eexists. split; [reflexivity|]. simpl.
  rewrite lookup_insert_ne by apply moviesFile_not_in_uploads. exact Hcat.
Qed.

(** C1, on the code.  [POST /upload] with a title and a description and
    nothing for either slot, after start-up: the answer is 500 with the
    [ENOTEMPTY] message of [rmdir], the folder and its [metadata.json] stay,
    and the catalog file is as it was. *)
Theorem no_assets_answers_500_and_keeps_folder :
  let run := post_upload (H := Node.runtime) Sample.bare_request Sample.booted in
  let folder := path_join [UPLOADS_BASE_DIR] (js "1700000000000-a") in
  fst run
  = Ok {| status := 500;
          body := message_body
            (js "Server error: ENOTEMPTY: directory not empty, rmdir 'uploads/1700000000000-a'") |}
  /\ files (snd run) !! folder = Some Dir
  /\ is_Some (files (snd run) !! path_join folder (js "metadata.json"))
  /\ files (snd run) !! moviesFile = files Sample.booted !! moviesFile.
Proof.
  split; [vm_compute; reflexivity|].
  split; [vm_compute; reflexivity|].
  split; [vm_compute; eexists; reflexivity|].
  vm_compute; reflexivity.
Qed.

(** ** Asset slots *)

Lemma truthy_false (v : option (list N)) :
  truthy v = false <-> v = None \/ v = Some [].
Proof.
  destruct v as [[|c r]|]; simpl; split; intros Hv; auto; try discriminate.
  destruct Hv as [Hv | Hv]; discriminate Hv.
Qed.

(** C9. An empty URL field counts as no URL.  The slot resolves exactly as
    it does without the field; with no file either, its reference is
    undefined, stored as the empty string, and nothing is written.  A
    submission whose slots have no file and only empty or missing URLs is not
    accepted: the answer is not 200 and the catalog file stays as it was. *)
Theorem empty_url_is_no_asset `{NodeRuntime} :
  forall (slot : Slot) (folder : jsstring) (w : World),
    (forall file, resolve_slot slot folder file (Some []) w
                  = resolve_slot slot folder file None w)
    /\ resolve_slot slot folder None (Some []) w = (Ok None, w)
    /\ or_empty None = []
    /\ (forall (b : Body) (req_files : Slot -> option FileHandle),
          truthy (title b) = true -> truthy (description b) = true ->
          req_files thumbnail = None -> req_files video = None ->
          (thumbnailURL b = Some [] \/ thumbnailURL b = None) ->
          (videoURL b = Some [] \/ videoURL b = None) ->
          exists r w',
            process_upload b req_files w = (Ok r, w')
            /\ status r <> 200
            /\ files w' !! moviesFile = files w !! moviesFile).
Proof.
  intros slot folder w. split; [|split; [|split]].
  - intros [f|]; reflexivity.
  - reflexivity.
  - reflexivity.
  - intros b req_files Ht Hd Hft Hfv Hut Huv.
    destruct (process_upload_no_assets b req_files w Ht Hd Hft Hfv)
      as (m & w' & Hrun & Hcat).
    + apply truthy_false. tauto.
    + apply truthy_false. tauto.
    + exists {| status := 500; body := m |}, w'.
      split; [exact Hrun|]. split; [discriminate | exact Hcat].
Qed.

Lemma empty_url_is_no_asset_witness :
  exists r w',
    process_upload (H := Node.runtime) Sample.empty_urls_body Sample.no_files
      Sample.booted = (Ok r, w')
    /\ status r <> 200
    /\ files w' !! moviesFile = files Sample.booted !! moviesFile.
Proof.
  apply (empty_url_is_no_asset (H := Node.runtime) thumbnail [] Sample.booted);
    solve [reflexivity | left; reflexivity].
Defined.

(** The sidecar of a slot. *)
Lemma sidecar_name (slot : Slot) :
  fieldname slot ++ js "-url.txt"
  = match slot with
    | thumbnail => js "thumbnail-url.txt"
    | video => js "video-url.txt"
    end.
Proof. destruct slot; reflexivity. Qed.

(** C6. For either slot: with an uploaded file, a URL sent along has no
    effect on what the slot does, and the reference, when the slot resolves,
    is the stored path of the file.  With no file and a URL, the reference is
    the URL as sent and [{slot}-url.txt] in the item folder is written with
    the URL as its contents.  With neither, the reference is undefined, stored
    as the empty string, and the state is not touched. *)
Theorem resolve_slot_file_then_url_then_nothing :
  forall (slot : Slot) (folder : jsstring) (w : World),
    let movieFolderPath := [UPLOADS_BASE_DIR; folder] in
    let sidecar := movieFolderPath
                   ++ [match slot with
                       | thumbnail => js "thumbnail-url.txt"
                       | video => js "video-url.txt"
                       end] in
    (forall (f : FileHandle) (url : option (list N)),
        resolve_slot slot folder (Some f) url w
        = resolve_slot slot folder (Some f) None w
        /\ (forall ref w', resolve_slot slot folder (Some f) url w = (Ok ref, w') ->
               ref = Some (js "/uploads/" ++ folder ++ js "/" ++ file_filename f)))
    /\ (forall url : jsstring,
          url <> [] ->
          files w !! movieFolderPath = Some Dir ->
          files w !! sidecar <> Some Dir ->
          resolve_slot slot folder None (Some url) w
          = (Ok (Some url), with_files (<[sidecar := File url]> (files w)) w)
          /\ or_empty (Some url) = url)
    /\ (resolve_slot slot folder None None w = (Ok None, w)
        /\ or_empty None = []).
Proof.
  intros slot folder w movieFolderPath sidecar.
  split; [|split; [|split; reflexivity]].
  { intros f url. split; [reflexivity|].
    intros ref w'. unfold resolve_slot, bindM, renameSync, lift_fs, retM.
    destruct (fs_renameSync _ _ _); intros [= <- _]; reflexivity. }
  intros url Hurl Hdir Hside.
  assert (Htruthy : truthy (Some url) = true) by (destruct url; [congruence | reflexivity]).
  split.
  - unfold resolve_slot. rewrite Htruthy.
    unfold bindM, writeFileSync, lift_fs, retM.
    rewrite sidecar_name.
    change (path_join (path_join [UPLOADS_BASE_DIR] folder) ?n)
      with (movieFolderPath ++ [n]).
    fold sidecar.
    rewrite fs_writeFileSync_into_dir; [reflexivity| |exact Hside].
    exact Hdir.
  - unfold or_empty. rewrite Htruthy. reflexivity.
Qed.

Lemma resolve_slot_file_then_url_then_nothing_witness :
  js "http://v" <> []
  /\ files Sample.foldered !! [UPLOADS_BASE_DIR; Sample.movie_folder] = Some Dir
  /\ resolve_slot video Sample.movie_folder None (Some (js "http://v")) Sample.foldered
     = (Ok (Some (js "http://v")),
        with_files
          (<[[UPLOADS_BASE_DIR; Sample.movie_folder; js "video-url.txt"]
             := File (js "http://v")]> (files Sample.foldered))
          Sample.foldered).
Proof.
  assert (Hurl : js "http://v" <> []) by (vm_compute; discriminate).
  assert (Hdir : files Sample.foldered !! [UPLOADS_BASE_DIR; Sample.movie_folder]
                 = Some Dir) by (vm_compute; reflexivity).
  split; [exact Hurl|]. split; [exact Hdir|].
  apply (resolve_slot_file_then_url_then_nothing video Sample.movie_folder
           Sample.foldered); [exact Hurl | exact Hdir |].
  vm_compute. discriminate.
Defined.

(** C7. In a working directory where [uploads] is a directory, multer
    stores an uploaded file in the staging folder under the name
    [{slot}-{clock reading}-{sanitized basename}{extension}].  The handler
    renames that file into the item folder under the same name: afterwards
    the staging path is gone, the new path holds the contents, and the slot's
    reference is [/uploads/{folder}/{name}]. *)
Theorem uploaded_file_is_renamed_into_folder `{NodeRuntime} :
  forall (slot : Slot) (w : World),
    (forall u : Upload,
        let name :=
          fieldname slot ++ js "-" ++ Number_toString (clock w (reads w)) ++ js "-"
          ++ sanitizeFilename
               (path_basename (upload_originalname u)
                  (path_extname (upload_originalname u)))
          ++ path_extname (upload_originalname u) in
        files w !! [UPLOADS_BASE_DIR] = Some Dir ->
        (forall d, files w !! [UPLOADS_BASE_DIR; js "temp"] <> Some (File d)) ->
        files w !! [UPLOADS_BASE_DIR; js "temp"; name] <> Some Dir ->
        exists (f : FileHandle) (w' : World),
          stage_part slot (Some u) w = (Ok (Some f), w')
          /\ file_filename f = name
          /\ file_path f = [UPLOADS_BASE_DIR; js "temp"; name]
          /\ files w' !! file_path f = Some (File (upload_data u)))
    /\ (forall (folder : jsstring) (f : FileHandle) (url : option (list N))
               (data : jsstring),
          let newPath := [UPLOADS_BASE_DIR; folder; file_filename f] in
          files w !! file_path f = Some (File data) ->
          files w !! [UPLOADS_BASE_DIR; folder] = Some Dir ->
          files w !! newPath <> Some Dir ->
          file_path f <> newPath ->
          exists w',
            resolve_slot slot folder (Some f) url w
            = (Ok (Some (js "/uploads/" ++ folder ++ js "/" ++ file_filename f)), w')
            /\ files w' = <[newPath := File data]> (delete (file_path f) (files w))
            /\ files w' !! file_path f = None
            /\ files w' !! newPath = Some (File data)).
Proof.
  intros slot w. split.
  - intros u name Huploads Htemp Hname.
    set (tempDir := [UPLOADS_BASE_DIR; js "temp"]) in *.
    assert (Hstage : forall w1 : World,
               clock w1 = clock w -> reads w1 = reads w ->
               entry (files w1) tempDir = Some Dir ->
               files w1 !! (tempDir ++ [name]) <> Some Dir ->
               exists (f : FileHandle) (w' : World),
                 (filename <- storage_filename slot (upload_originalname u) ;;
                  writeFileSync (path_join tempDir filename) (upload_data u) ;;;
                  retM (Some {| file_originalname := upload_originalname u;
                                file_filename := filename;
                                file_path := path_join tempDir filename |})) w1
                 = (Ok (Some f), w')
                 /\ file_filename f = name
                 /\ file_path f = tempDir ++ [name]
                 /\ files w' !! file_path f = Some (File (upload_data u))).
    { intros w1 Hclock Hreads Hdir Hfree.
      unfold storage_filename, bindM, Date_now, retM, writeFileSync, lift_fs.
      rewrite Hclock, Hreads. fold name. simpl files.
      rewrite fs_writeFileSync_into_dir;
        [|rewrite parent_path_join; exact Hdir|exact Hfree].
      do 2 eexists. split; [reflexivity|]. simpl.
      split; [reflexivity|]. split; [reflexivity|]. apply lookup_insert_eq. }
    unfold stage_part, storage_destination.
    change (path_join [UPLOADS_BASE_DIR] (js "temp")) with tempDir.
    unfold bindM at 1. unfold bindM at 1, existsSync. unfold bindM at 1.
    rewrite fs_existsSync_entry.
    destruct (entry (files w) tempDir) as [[|d]|] eqn:Htmp.
    + unfold retM at 1 2. apply Hstage; auto.
    + exfalso. exact (Htemp d Htmp).
    + unfold negb, mkdirSync, lift_fs.
      rewrite fs_mkdirSync_fresh; [|exact Huploads|exact Htmp].
      unfold retM at 1. apply Hstage; try reflexivity.
      * simpl. apply lookup_insert_eq.
      * simpl. rewrite lookup_insert_ne; [exact Hname|].
        unfold tempDir. intros [=].
  - intros folder f url data newPath Hold Hdir Hnew Hne.
    unfold resolve_slot, bindM, renameSync, lift_fs, retM.
    change (path_join (path_join [UPLOADS_BASE_DIR] folder) (file_filename f))
      with newPath.
    rewrite (fs_renameSync_file _ _ data) by assumption.
    eexists. split; [reflexivity|]. simpl. split; [reflexivity|]. split.
    + rewrite lookup_insert_ne by congruence. apply lookup_delete_eq.
    + apply lookup_insert_eq.
Qed.

Lemma uploaded_file_is_renamed_into_folder_witness :
  let u := {| upload_originalname := js "pic.png"; upload_data := js "DATA" |} in
  let name := js "thumbnail-1700000000000-pic.png" in
  (exists (f : FileHandle) (w1 : World),
      stage_part (H := Node.runtime) thumbnail (Some u) Sample.booted
      = (Ok (Some f), w1)
      /\ file_filename f = name
      /\ file_path f = [UPLOADS_BASE_DIR; js "temp"; name]
      /\ files w1 !! file_path f = Some (File (js "DATA")))
  /\ (exists (f : FileHandle) (w' : World),
        Sample.staged_files thumbnail = Some f
        /\ resolve_slot thumbnail Sample.movie_folder (Some f) (Some (js "http://t"))
             Sample.foldered
           = (Ok (Some (js "/uploads/1700000000001-My_Movie/thumbnail-1700000000000-pic.png")),
              w')
        /\ files w' !! [UPLOADS_BASE_DIR; js "temp"; name] = None
        /\ files w' !! [UPLOADS_BASE_DIR; Sample.movie_folder; name]
           = Some (File (js "DATA"))).
Proof.
  intros u name. split.
  - destruct (uploaded_file_is_renamed_into_folder (H := Node.runtime) thumbnail
                Sample.booted) as [Hstage _].
    apply (Hstage u).
    + vm_compute. reflexivity.
    + intros d. vm_compute. discriminate.
    + vm_compute. discriminate.
  - destruct (uploaded_file_is_renamed_into_folder (H := Node.runtime) thumbnail
                Sample.foldered) as [_ Hmove].
    set (f := {| file_originalname := js "pic.png";
                 file_filename := name;
                 file_path := [UPLOADS_BASE_DIR; js "temp"; name] |}).
    destruct (Hmove Sample.movie_folder f (Some (js "http://t")) (js "DATA"))
      as (w' & Hrun & _ & Hgone & Hthere).
    + vm_compute. reflexivity.
    + vm_compute. reflexivity.
    + vm_compute. discriminate.
    + vm_compute. discriminate.
    + exists f, w'. split; [vm_compute; reflexivity|].
      split; [exact Hrun|]. split; [exact Hgone | exact Hthere].
Defined.

(** ** Metadata and catalog *)

(** The five properties the metadata document and the catalog entry share. *)
Lemma metadata_newMovie_fields
    (id t d folder date : jsstring) (tp vp : option (list N)) :
  let metadata := metadata_object id t d date tp vp in
  let movie := newMovie_object id t d folder tp vp date in
  field (js "id") metadata = Some (JString id)
  /\ field (js "id") movie = Some (JString id)
  /\ field (js "title") metadata = Some (JString t)
  /\ field (js "title") movie = Some (JString t)
  /\ field (js "description") metadata = Some (JString d)
  /\ field (js "description") movie = Some (JString d)
  /\ field (js "thumbnail") metadata = Some (JString (or_empty tp))
  /\ field (js "thumbnail") movie = Some (JString (or_empty tp))
  /\ field (js "video") metadata = Some (JString (or_empty vp))
  /\ field (js "video") movie = Some (JString (or_empty vp)).
Proof. repeat split; reflexivity. Qed.

(** C8. When the handler answers 200, the [metadata.json] of the item folder
    holds the serialized metadata object, the catalog file holds the
    serialized array that ends with the new entry, the answer carries that
    entry, and the two objects have the same [id], [title], [description],
    [thumbnail] and [video]. *)
Theorem metadata_agrees_with_catalog_entry `{NodeRuntime} :
  forall (b : Body) (req_files : Slot -> option FileHandle) (w w' : World)
         (r : Response),
    process_upload b req_files w = (Ok r, w') ->
    status r = 200 ->
    exists (folder : jsstring) (metadata movie : json) (earlier : list json)
           (id thumbnail_ref video_ref : jsstring),
      field (js "movie") (body r) = Some movie
      /\ field (js "folderPath") (body r) = Some (JString folder)
      /\ files w' !! [UPLOADS_BASE_DIR; folder; js "metadata.json"]
         = Some (File (JSON_stringify metadata))
      /\ files w' !! moviesFile
         = Some (File (JSON_stringify (JArray (earlier ++ [movie]))))
      /\ field (js "id") metadata = Some (JString id)
      /\ field (js "id") movie = Some (JString id)
      /\ field (js "title") metadata = Some (JString (default [] (title b)))
      /\ field (js "title") movie = Some (JString (default [] (title b)))
      /\ field (js "description") metadata
         = Some (JString (default [] (description b)))
      /\ field (js "description") movie
         = Some (JString (default [] (description b)))
      /\ field (js "thumbnail") metadata = Some (JString thumbnail_ref)
      /\ field (js "thumbnail") movie = Some (JString thumbnail_ref)
      /\ field (js "video") metadata = Some (JString video_ref)
      /\ field (js "video") movie = Some (JString video_ref).
Proof.
  intros b req_files w w' r.
  unfold process_upload, try_catch.
  destruct (negb (truthy (title b)) || negb (truthy (description b))).
  { unfold retM. intros [= <- _]. discriminate. }
  unfold bindM at 1. unfold createMovieFolderName, bindM at 1, Date_now, retM at 1.
  set (folder := movieFolderName_at _ _).
  unfold bindM at 1, existsSync. unfold bindM at 1.
  destruct (mkdir_if_missing (path_join [UPLOADS_BASE_DIR] folder) (tick w))
    as [[e He] | (w1 & Hw1 & _)]; unfold retM in *; simpl files in *.
  { rewrite He. intros [= <- _]. discriminate. }
  rewrite Hw1. clear Hw1.
  unfold bindM at 1.
  destruct (resolve_slot thumbnail folder _ _ w1) as [[tp|e] w2];
    [|intros [= <- _]; discriminate].
  unfold bindM at 1.
  destruct (resolve_slot video folder _ _ w2) as [[vp|e] w3];
    [|intros [= <- _]; discriminate].
  unfold bindM at 1, Date_now. unfold bindM at 1. unfold bindM at 1.
  set (id := Number_toString _). set (date := Date_toISOString _).
  unfold writeFileSync at 1, lift_fs.
  destruct (fs_writeFileSync _ _ _) as [fs4|e] eqn:Hmeta;
    [|intros [= <- _]; discriminate].
  apply fs_writeFileSync_Ok in Hmeta as (-> & _). simpl files.
  destruct (negb (truthy tp) && negb (truthy vp)).
  { unfold bindM, rmdirSync, lift_fs.
    destruct (fs_rmdirSync _ _); intros [= <- _]; discriminate. }
  unfold bindM at 1.
  match goal with
  | |- context [read_movies ?w4] =>
      destruct (read_movies_total w4) as [movies ->]
  end.
  unfold bindM at 1, push.
  destruct movies as [| | | |earlier|]; unfold throwM;
    try (intros [= <- _]; discriminate).
  unfold retM at 1. unfold bindM, writeFileSync, lift_fs, retM.
  destruct (fs_writeFileSync moviesFile _ _) as [fs5|e] eqn:Hcat;
    [|intros [= <- _]; discriminate].
  apply fs_writeFileSync_Ok in Hcat as (-> & _).
  intros [= <- <-] _. simpl.
  pose proof (metadata_newMovie_fields id (default [] (title b))
                (default [] (description b)) folder date tp vp) as Hfields.
  exists folder, (metadata_object id (default [] (title b))
                    (default [] (description b)) date tp vp),
    (newMovie_object id (default [] (title b)) (default [] (description b))
       folder tp vp date), earlier, id, (or_empty tp), (or_empty vp).
  split; [reflexivity|]. split; [reflexivity|]. split.
  { rewrite lookup_insert_ne by (symmetry; apply moviesFile_not_in_uploads).
    apply lookup_insert_eq. }
  split; [apply lookup_insert_eq|].
  exact Hfields.
Qed.

Lemma metadata_agrees_with_catalog_entry_witness :
  exists (r : Response) (w' : World),
    process_upload (H := Node.runtime) (req_body Sample.movie_request)
      Sample.staged_files Sample.staged = (Ok r, w')
    /\ status r = 200
    /\ exists (folder : jsstring) (metadata movie : json) (earlier : list json),
         files w' !! [UPLOADS_BASE_DIR; folder; js "metadata.json"]
         = Some (File (Node.stringify metadata))
         /\ files w' !! moviesFile
            = Some (File (Node.stringify (JArray (earlier ++ [movie]))))
         /\ field (js "id") metadata = field (js "id") movie
         /\ field (js "thumbnail") metadata = field (js "thumbnail") movie
         /\ field (js "video") metadata = field (js "video") movie.
Proof.
  destruct (process_upload (H := Node.runtime) (req_body Sample.movie_request)
              Sample.staged_files Sample.staged) as [res w'] eqn:Hrun.
  assert (Hok : exists r, res = Ok r /\ status r = 200).
  { apply (f_equal fst) in Hrun. simpl in Hrun. subst res.
    vm_compute. eexists. split; reflexivity. }
  destruct Hok as (r & -> & Hstatus).
  exists r, w'. split; [reflexivity|]. split; [exact Hstatus|].
  destruct (metadata_agrees_with_catalog_entry (H := Node.runtime) _ _ _ _ _
              Hrun Hstatus)
    as (folder & metadata & movie & earlier & id & tref & vref
        & _ & _ & Hmeta & Hcat & Hid1 & Hid2 & _ & _ & _ & _ & Ht1 & Ht2 & Hv1 & Hv2).
  exists folder, metadata, movie, earlier.
  split; [exact Hmeta|]. split; [exact Hcat|].
  split; [congruence|]. split; congruence.
Defined.

(** ** Reading the catalog *)

(** C2, as the claim words it, fails: with no catalog file at all,
    [GET /api/movies] answers 500 with an error message and not an empty
    list. *)
Lemma get_movies_fails_on_unreadable_store :
  (exists e, fs_readFileSync moviesFile (files Sample.empty_world) = Throw e)
  /\ fst (get_movies (H := Node.runtime) Sample.empty_world)
     = Ok {| status := 500; body := message_body (js "Error reading movies") |}
  /\ fst (get_movies (H := Node.runtime) Sample.empty_world)
     <> Ok {| status := 200; body := JArray [] |}.
Proof.
  split; [eexists; reflexivity|]. split; [reflexivity|].
  vm_compute. discriminate.
Qed.

(** C2, amended.  When the catalog file cannot be read, or its text is not
    JSON, the read that precedes an append yields the empty array and goes
    on, while [GET /api/movies] answers 500 with the message
    [Error reading movies]; neither changes the state. *)
Theorem unreadable_catalog_empty_for_append_500_for_list `{NodeRuntime} :
  forall w : World,
    ((exists e, fs_readFileSync moviesFile (files w) = Throw e)
     \/ (exists text, fs_readFileSync moviesFile (files w) = Ok text
                      /\ JSON_parse text = None)) ->
    read_movies w = (Ok (JArray []), w)
    /\ get_movies w
       = (Ok {| status := 500; body := message_body (js "Error reading movies") |},
          w).
Proof.
  intros w Hbad.
  unfold read_movies, get_movies, try_catch, bindM, readFileSync, parse, retM,
    throwM.
  destruct Hbad as [[e ->] | (text & -> & ->)]; split; reflexivity.
Qed.

Lemma unreadable_catalog_empty_for_append_500_for_list_witness :
  (exists text, fs_readFileSync moviesFile (files Sample.corrupted) = Ok text
                /\ Node.parse text = None)
  /\ read_movies (H := Node.runtime) Sample.corrupted
     = (Ok (JArray []), Sample.corrupted)
  /\ get_movies (H := Node.runtime) Sample.corrupted
     = (Ok {| status := 500; body := message_body (js "Error reading movies") |},
        Sample.corrupted).
Proof.
  assert (Hbad : exists text,
             fs_readFileSync moviesFile (files Sample.corrupted) = Ok text
             /\ JSON_parse (NodeRuntime := Node.runtime) text = None).
  { exists (js "[{ oops"). split; vm_compute; reflexivity. }
  split; [exact Hbad|].
  apply (unreadable_catalog_empty_for_append_500_for_list (H := Node.runtime)).
  right. exact Hbad.
Defined.

(** ** The route as a whole *)

(** The folder name holds a hyphen: it is never the staging folder, and a
    staged file is moved when it is renamed into the item folder. *)
Lemma movieFolderName_not_temp (timestamp : N) (title : jsstring) :
  movieFolderName_at timestamp title <> js "temp".
Proof.
  intros Heq.
  assert (Hin : ch "-" ∈ movieFolderName_at timestamp title).
  { assert (Hhyphen : js "-" = [ch "-"]) by (vm_compute; reflexivity).
    unfold movieFolderName_at. rewrite Hhyphen, !elem_of_app. right. left.
    apply list_elem_of_here. }
  rewrite Heq in Hin. apply list_elem_of_In in Hin. vm_compute in Hin.
  repeat (destruct Hin as [Hin | Hin]; [discriminate Hin|]). exact Hin.
Qed.

(** multer writes below [uploads/temp] and nowhere else. *)
Lemma stage_part_frame `{NodeRuntime}
    (slot : Slot) (part : option Upload) (w w' : World)
    (r : Result (option FileHandle)) :
  stage_part slot part w = (r, w') ->
  forall p : path,
    ~ [UPLOADS_BASE_DIR; js "temp"] `prefix_of` p ->
    files w' !! p = files w !! p.
Proof.
  intros Hrun p Hout.
  assert (Htemp : p <> [UPLOADS_BASE_DIR; js "temp"]).
  { intros ->. apply Hout. reflexivity. }
  destruct part as [u|]; [|injection Hrun as _ <-; reflexivity].
  revert Hrun.
  unfold stage_part, storage_destination, storage_filename.
  unfold bindM at 1. unfold bindM at 1, existsSync. unfold bindM at 1.
  destruct (mkdir_if_missing (path_join [UPLOADS_BASE_DIR] (js "temp")) w)
    as [[e He] | (w1 & Hw1 & _ & _ & Hfiles)]; unfold retM in *.
  { rewrite He. intros [= _ <-]. reflexivity. }
  rewrite Hw1.
  assert (Hp1 : files w1 !! p = files w !! p).
  { destruct Hfiles as [-> | ->]; [reflexivity|].
    apply lookup_insert_ne. intros <-. apply Htemp. reflexivity. }
  unfold bindM, Date_now, writeFileSync, lift_fs. simpl files.
  destruct (fs_writeFileSync _ _ _) as [fs'|e] eqn:Hwrite.
  - apply fs_writeFileSync_Ok in Hwrite as (-> & _).
    intros [= _ <-]. simpl. rewrite lookup_insert_ne; [exact Hp1|].
    intros <-. apply Hout. eexists. reflexivity.
  - intros [= _ <-]. exact Hp1.
Qed.

Lemma multer_upload_frame `{NodeRuntime}
    (req : Request) (w w' : World) (r : Result (Slot -> option FileHandle)) :
  multer_upload req w = (r, w') ->
  forall p : path,
    ~ [UPLOADS_BASE_DIR; js "temp"] `prefix_of` p ->
    files w' !! p = files w !! p.
Proof.
  unfold multer_upload, bindM. intros Hrun p Hout.
  destruct (stage_part thumbnail _ w) as [[t|e] w1] eqn:Ht.
  - destruct (stage_part video _ w1) as [[v|e] w2] eqn:Hv.
    + injection Hrun as _ <-.
      rewrite (stage_part_frame _ _ _ _ _ Hv p Hout).
      exact (stage_part_frame _ _ _ _ _ Ht p Hout).
    + injection Hrun as _ <-.
      rewrite (stage_part_frame _ _ _ _ _ Hv p Hout).
      exact (stage_part_frame _ _ _ _ _ Ht p Hout).
  - injection Hrun as _ <-. exact (stage_part_frame _ _ _ _ _ Ht p Hout).
Qed.

(** [POST /upload] without a title or a description: whatever was uploaded,
    the answer is 400 once multer has staged the parts, and nothing outside
    the staging folder has changed, so no item folder exists that did not
    before and the catalog file is as it was. *)
Lemma post_upload_requires_title_and_description `{NodeRuntime}
    (req : Request) (w : World) :
  truthy (title (req_body req)) = false
  \/ truthy (description (req_body req)) = false ->
  exists (r : Response) (w' : World),
    post_upload req w = (Ok r, w')
    /\ ((exists req_files, multer_upload req w = (Ok req_files, w')) ->
        r = {| status := 400;
               body := message_body (js "Title and description are required") |})
    /\ (forall p : path,
          ~ [UPLOADS_BASE_DIR; js "temp"] `prefix_of` p ->
          files w' !! p = files w !! p).
Proof.
  intros Hmissing. unfold post_upload.
  destruct (multer_upload req w) as [[req_files|e] w1] eqn:Hm.
  - rewrite process_upload_guard
      by (destruct Hmissing as [-> | ->]; [reflexivity | apply orb_true_r]).
    do 2 eexists. split; [reflexivity|]. split; [reflexivity|].
    exact (multer_upload_frame _ _ _ _ Hm).
  - do 2 eexists. split; [reflexivity|]. split.
    + intros [req_files [=]].
    + exact (multer_upload_frame _ _ _ _ Hm).
Qed.

(** The sample request end to end on the POSIX runtime: the answer is 200,
    the two documents on disk parse back, and the parsed metadata and the last
    parsed catalog entry carry the same five values. *)
Example sample_upload_documents_agree :
  let run := post_upload (H := Node.runtime) Sample.movie_request Sample.booted in
  let folder := [UPLOADS_BASE_DIR; Sample.movie_folder] in
  exists (r : Response) (t1 t2 : jsstring) (metadata movie : json),
    fst run = Ok r /\ status r = 200
    /\ files (snd run) !! (folder ++ [js "metadata.json"]) = Some (File t1)
    /\ Node.parse t1 = Some metadata
    /\ files (snd run) !! moviesFile = Some (File t2)
    /\ Node.parse t2 = Some (JArray [movie])
    /\ field (js "id") metadata = Some (JString (js "1700000000002"))
    /\ field (js "id") movie = Some (JString (js "1700000000002"))
    /\ field (js "title") metadata = field (js "title") movie
    /\ field (js "description") metadata = field (js "description") movie
    /\ field (js "thumbnail") metadata
       = Some (JString (js "/uploads/1700000000001-My_Movie/thumbnail-1700000000000-pic.png"))
    /\ field (js "thumbnail") movie = field (js "thumbnail") metadata
    /\ field (js "video") metadata = Some (JString (js "http://v"))
    /\ field (js "video") movie = field (js "video") metadata
    /\ files (snd run) !! (folder ++ [js "video-url.txt"]) = Some (File (js "http://v"))
    /\ files (snd run) !! [UPLOADS_BASE_DIR; js "temp";
                           js "thumbnail-1700000000000-pic.png"] = None.
Proof.
  vm_compute. do 5 eexists. repeat (split; [reflexivity|]). reflexivity.
Qed.

(** * Further properties of the code *)

(** ** More on the sanitizer *)

Lemma replace_invalid_clean (s : jsstring) :
  forallb class_word s = true -> replace_invalid s = s.
Proof.
  unfold replace_invalid. induction s as [|c r IH]; [reflexivity|].
  intros Hs. apply andb_prop in Hs as [Hc Hr].
  cbn [map]. rewrite Hc. f_equal. exact (IH Hr).
Qed.

Lemma replace_underscore_runs_clean (s : jsstring) :
  double_underscore s = false -> replace_underscore_runs s = s.
Proof.
  induction s as [|c r IH]; intros Hclean; [reflexivity|].
  rewrite replace_underscore_runs_cons.
  cbn [double_underscore] in Hclean. apply orb_false_elim in Hclean as [Hrun Hr].
  rewrite Hrun. f_equal. exact (IH Hr).
Qed.

Lemma sanitizeFilename_clean (s : jsstring) :
  forallb class_word s = true ->
  double_underscore s = false ->
  sanitizeFilename s = s.
Proof.
  intros Hclass Hruns. unfold sanitizeFilename.
  rewrite replace_invalid_clean by exact Hclass.
  apply replace_underscore_runs_clean, Hruns.
Qed.

Lemma Forall_forallb_class_word (s : jsstring) :
  Forall (fun c => class_word c = true) s -> forallb class_word s = true.
Proof. induction 1 as [|c r Hc _ IH]; simpl; [reflexivity|]. rewrite Hc. exact IH. Qed.

(** [double_underscore] decides the occurrence of ["__"]. *)
Lemma double_underscore_false (s : jsstring) :
  double_underscore s = false <->
  forall pre post : jsstring, s <> pre ++ [ch "_"; ch "_"] ++ post.
Proof.
  split.
  - induction s as [|c r IH]; intros Hs pre post Heq.
    + destruct pre; discriminate.
    + cbn [double_underscore] in Hs. apply orb_false_elim in Hs as [Hrun Hr].
      destruct pre as [|x pre'].
      * injection Heq as -> ->. discriminate Hrun.
      * injection Heq as _ ->. exact (IH Hr pre' post eq_refl).
  - induction s as [|c r IH]; intros Hs; [reflexivity|].
    cbn [double_underscore]. apply orb_false_intro.
    + destruct (is_underscore c && _) eqn:Hrun; [|reflexivity].
      exfalso. apply andb_prop in Hrun as [Hc Hd].
      destruct r as [|d r']; [discriminate|].
      apply is_underscore_eq in Hc, Hd. subst.
      exact (Hs [] r' eq_refl).
    + apply IH. intros pre post ->. exact (Hs (c :: pre) post eq_refl).
Qed.

(** X1. Sanitizing twice is sanitizing once. *)
Theorem sanitizeFilename_idempotent :
  forall filename : jsstring,
    sanitizeFilename (sanitizeFilename filename) = sanitizeFilename filename.
Proof.
  intros filename. apply sanitizeFilename_clean.
  - apply Forall_forallb_class_word, sanitizeFilename_class_word.
  - apply double_underscore_false. intros pre post.
    apply replace_underscore_runs_no_pair.
Qed.

(** X2. A name made of characters of [A-Za-z0-9_.-] with no two underscores
    in a row comes back from the sanitizer as it went in. *)
Theorem sanitizeFilename_keeps_clean_names :
  forall filename : jsstring,
    forallb class_word filename = true ->
    double_underscore filename = false ->
    sanitizeFilename filename = filename.
Proof. exact sanitizeFilename_clean. Qed.

Lemma sanitizeFilename_keeps_clean_names_witness :
  sanitizeFilename (js "My_Movie-2.mp4") = js "My_Movie-2.mp4".
Proof.
  apply sanitizeFilename_keeps_clean_names; vm_compute; reflexivity.
Defined.

Lemma kept_class_word (c : N) : kept c = true -> class_word c = true.
Proof. unfold kept. intros Hk. apply andb_prop in Hk as [Hc _]. exact Hc. Qed.

Lemma filter_kept_replace_invalid (s : jsstring) :
  List.filter kept (replace_invalid s) = List.filter kept s.
Proof.
  unfold replace_invalid. induction s as [|c r IH]; [reflexivity|].
  cbn [map List.filter]. rewrite IH.
  destruct (class_word c) eqn:Hc; [reflexivity|].
  assert (Hus : kept (ch "_") = false) by reflexivity.
  assert (Hkc : kept c = false) by (unfold kept; rewrite Hc; reflexivity).
  rewrite Hus, Hkc. reflexivity.
Qed.

Lemma filter_kept_replace_underscore_runs (s : jsstring) :
  List.filter kept (replace_underscore_runs s) = List.filter kept s.
Proof.
  induction s as [|c r IH]; [reflexivity|].
  rewrite replace_underscore_runs_cons.
  destruct (is_underscore c && _) eqn:Hrun.
  - apply andb_prop in Hrun as [Hc _].
    assert (Hkc : kept c = false) by (unfold kept; rewrite Hc; apply andb_false_r).
    cbn [List.filter]. rewrite Hkc. exact IH.
  - cbn [List.filter]. rewrite IH. reflexivity.
Qed.

(** X3. The sanitizer loses no letter, digit, dot or hyphen and does not
    reorder them: what is left of the output once the underscores are taken
    out is what is left of the input once every character but those is taken
    out. *)
Theorem sanitizeFilename_keeps_letters_digits_dots_hyphens :
  forall filename : jsstring,
    List.filter kept (sanitizeFilename filename) = List.filter kept filename.
Proof.
  intros filename. unfold sanitizeFilename.
  rewrite filter_kept_replace_underscore_runs.
  apply filter_kept_replace_invalid.
Qed.

(** X4. The sanitizer never makes a name longer, and it returns the empty
    string for the empty string only. *)
Theorem sanitizeFilename_shorter_and_empty_only_for_empty :
  forall filename : jsstring,
    (length (sanitizeFilename filename) <= length filename)%nat
    /\ (sanitizeFilename filename = [] <-> filename = []).
Proof.
  intros filename. split; [apply sanitizeFilename_length|].
  split; [|intros ->; reflexivity].
  intros Hempty.
  pose proof (replace_underscore_runs_head (replace_invalid filename)) as Hhead.
  unfold sanitizeFilename in Hempty. rewrite Hempty in Hhead.
  destruct filename; [reflexivity | discriminate Hhead].
Qed.

(** ** More on names *)

Lemma uint_digits_class_word (d : Decimal.uint) :
  Forall (fun c => class_word c = true) (uint_digits d).
Proof. induction d; simpl; constructor; solve [reflexivity | assumption]. Qed.

Lemma Number_toString_not_empty (n : N) : Number_toString n <> [].
Proof.
  unfold Number_toString. destruct n as [|p]; [discriminate|].
  simpl. pose proof (Unsigned.to_uint_nonnil p) as Hp.
  destruct (Pos.to_uint p); solve [congruence | discriminate].
Qed.

Lemma movieFolderName_class_word (timestamp : N) (title : jsstring) :
  Forall (fun c => class_word c = true) (movieFolderName_at timestamp title).
Proof.
  unfold movieFolderName_at, slice0. rewrite !Forall_app. split; [|split].
  - apply uint_digits_class_word.
  - vm_compute. repeat constructor.
  - apply Forall_take, sanitizeFilename_class_word.
Qed.

(** X5. The folder name is one path segment: its characters are all of
    [A-Za-z0-9_.-], so it holds no separator; it is not empty, not [.], not
    [..] and not the name of the staging folder. *)
Theorem createMovieFolderName_is_one_safe_segment :
  forall (title : jsstring) (w : World),
    exists name : jsstring,
      createMovieFolderName title w = (Ok name, tick w)
      /\ Forall (fun c => class_word c = true) name
      /\ (ch "/" ∉ name)
      /\ name <> []
      /\ name <> js "." /\ name <> js ".." /\ name <> js "temp".
Proof.
  intros title w. eexists. split; [reflexivity|].
  set (name := movieFolderName_at (clock w (reads w)) title).
  pose proof (movieFolderName_class_word (clock w (reads w)) title) as Hclass.
  fold name in Hclass.
  assert (Hhyphen : ch "-" ∈ name).
  { assert (Hh : js "-" = [ch "-"]) by (vm_compute; reflexivity).
    unfold name, movieFolderName_at. rewrite Hh, !elem_of_app. right. left.
    apply list_elem_of_here. }
  assert (Hother : forall s : jsstring, ch "-" ∉ s -> name <> s).
  { intros s Hs Heq. apply Hs. rewrite <- Heq. exact Hhyphen. }
  split; [exact Hclass|]. split.
  { intros Hslash. rewrite Forall_forall in Hclass.
    specialize (Hclass _ Hslash). discriminate Hclass. }
  split; [intros Heq; rewrite Heq in Hhyphen; inversion Hhyphen|].
  repeat split; apply Hother; intros Hin; apply list_elem_of_In in Hin;
    vm_compute in Hin; intuition discriminate.
Qed.

(** X6. Of a stored filename only the extension can hold a character outside
    [A-Za-z0-9_.-]: such a character of the name is a character of what
    [path.extname] returned, and with a clean extension the whole name is
    clean. *)
Theorem stored_filename_unsafe_only_in_extension `{NodeRuntime} :
  forall (slot : Slot) (now : N) (originalname : jsstring),
    (forall c : N,
        c ∈ uniqueName_at slot now originalname ->
        class_word c = false ->
        c ∈ path_extname originalname)
    /\ (Forall (fun c => class_word c = true) (path_extname originalname) ->
        Forall (fun c => class_word c = true) (uniqueName_at slot now originalname)).
Proof.
  intros slot now originalname.
  assert (Hfront : Forall (fun c => class_word c = true)
                     (fieldname slot ++ js "-" ++ Number_toString now ++ js "-"
                      ++ sanitizeFilename
                           (path_basename originalname (path_extname originalname)))).
  { rewrite !Forall_app. repeat split.
    - destruct slot; vm_compute; repeat constructor.
    - vm_compute. repeat constructor.
    - apply uint_digits_class_word.
    - vm_compute. repeat constructor.
    - apply sanitizeFilename_class_word. }
  rewrite !Forall_app in Hfront. destruct Hfront as (H1 & H2 & H3 & H4 & H5).
  split.
  - intros c Hin Hbad. unfold uniqueName_at in Hin. rewrite !elem_of_app in Hin.
    rewrite Forall_forall in H1, H2, H3, H4, H5.
    destruct Hin as [Hin | [Hin | [Hin | [Hin | [Hin | Hin]]]]];
      [apply H1 in Hin | apply H2 in Hin | apply H3 in Hin | apply H4 in Hin
       | apply H5 in Hin | exact Hin]; congruence.
  - intros Hext. unfold uniqueName_at. rewrite !Forall_app. auto 10.
Qed.

Lemma stored_filename_unsafe_only_in_extension_witness :
  ch " " ∈ path_extname (NodeRuntime := Node.runtime) (js "clip.m p4")
  /\ Forall (fun c => class_word c = true)
       (uniqueName_at (H := Node.runtime) video 1700000000000 (js "clip.mp4")).
Proof.
  split.
  - apply (stored_filename_unsafe_only_in_extension (H := Node.runtime)
             thumbnail 1700000000000 (js "clip.m p4")); [|reflexivity].
    vm_compute. do 30 apply list_elem_of_further. apply list_elem_of_here.
  - apply (stored_filename_unsafe_only_in_extension (H := Node.runtime)
             video 1700000000000 (js "clip.mp4")).
    vm_compute. repeat constructor.
Defined.

(** ** Start-up *)

Lemma with_files_same (w : World) : with_files (files w) w = w.
Proof. destruct w; reflexivity. Qed.

(** What [startup] does, by what is there already. *)
Lemma startup_run `{NodeRuntime} (w : World) :
  startup w
  = (Ok tt,
     with_files
       (match files w !! moviesFile with
        | Some _ => fun fs : FS => fs
        | None => fun fs : FS => <[moviesFile := File (JSON_stringify (JArray []))]> fs
        end
          (match files w !! [UPLOADS_BASE_DIR] with
           | Some _ => files w
           | None => <[[UPLOADS_BASE_DIR] := Dir]> (files w)
           end)) w).
Proof.
  unfold startup. unfold bindM at 1, existsSync at 1. unfold bindM at 1.
  rewrite fs_existsSync_entry.
  assert (Hne : [UPLOADS_BASE_DIR] <> moviesFile).
  { intros Heq.
    apply (f_equal (fun p : path => length (concat p))) in Heq.
    vm_compute in Heq. discriminate. }
  destruct (entry (files w) [UPLOADS_BASE_DIR]) as [n|] eqn:Hup;
    change (entry (files w) [UPLOADS_BASE_DIR]) with (files w !! [UPLOADS_BASE_DIR])
      in Hup; rewrite Hup; cbn [negb].
  - unfold retM at 1. unfold bindM, existsSync. rewrite fs_existsSync_entry.
    destruct (entry (files w) moviesFile) as [m|] eqn:Hcat;
      change (entry (files w) moviesFile) with (files w !! moviesFile) in Hcat;
      rewrite Hcat; cbn [negb].
    + unfold retM. rewrite with_files_same. reflexivity.
    + unfold writeFileSync, lift_fs.
      rewrite fs_writeFileSync_into_dir; [reflexivity|reflexivity|].
      change (entry (files w) moviesFile) with (files w !! moviesFile).
      rewrite Hcat. discriminate.
  - unfold mkdirSync, lift_fs.
    rewrite fs_mkdirSync_fresh; [|reflexivity|exact Hup].
    unfold bindM, existsSync. rewrite fs_existsSync_entry. cbn [files with_files].
    change (entry (<[[UPLOADS_BASE_DIR]:=Dir]> (files w)) moviesFile)
      with (<[[UPLOADS_BASE_DIR]:=Dir]> (files w) !! moviesFile).
    rewrite lookup_insert_ne by exact Hne.
    destruct (files w !! moviesFile) as [m|] eqn:Hcat; cbn [negb].
    + reflexivity.
    + unfold writeFileSync, lift_fs. cbn [files with_files].
      rewrite fs_writeFileSync_into_dir; [reflexivity|reflexivity|].
      change (entry (<[[UPLOADS_BASE_DIR]:=Dir]> (files w)) moviesFile)
        with (<[[UPLOADS_BASE_DIR]:=Dir]> (files w) !! moviesFile).
      rewrite lookup_insert_ne by exact Hne. rewrite Hcat. discriminate.
Qed.

Lemma uploads_not_catalog : [UPLOADS_BASE_DIR] <> moviesFile.
Proof.
  intros Heq. apply (f_equal (fun p : path => length (concat p))) in Heq.
  vm_compute in Heq. discriminate.
Qed.

(** X7. Start-up goes through in every state of the file tree, makes the
    [uploads] directory and an empty catalog where they are missing, and
    leaves every entry that is there as it is: it never overwrites an
    existing catalog, and it does not look at what kind of entry [uploads]
    is. *)
Theorem startup_creates_what_is_missing_and_keeps_the_rest `{NodeRuntime} :
  forall w : World,
    exists w' : World,
      startup w = (Ok tt, w')
      /\ clock w' = clock w /\ reads w' = reads w
      /\ (forall (p : path) (n : node), files w !! p = Some n -> files w' !! p = Some n)
      /\ (forall p : path,
            p <> [UPLOADS_BASE_DIR] -> p <> moviesFile -> files w' !! p = files w !! p)
      /\ (files w !! [UPLOADS_BASE_DIR] = None ->
          files w' !! [UPLOADS_BASE_DIR] = Some Dir)
      /\ (files w !! moviesFile = None ->
          files w' !! moviesFile = Some (File (JSON_stringify (JArray [])))).
Proof.
  intros w. eexists. split; [apply startup_run|].
  pose proof uploads_not_catalog as Hne.
  cbn [clock reads files with_files].
  split; [reflexivity|]. split; [reflexivity|].
  destruct (files w !! moviesFile) as [m|] eqn:Hcat;
    destruct (files w !! [UPLOADS_BASE_DIR]) as [u|] eqn:Hup.
  - repeat split; try discriminate; auto.
  - repeat split; try discriminate.
    + intros p n Hp. rewrite lookup_insert_ne; [exact Hp|]. congruence.
    + intros p Hp _. apply lookup_insert_ne. congruence.
    + intros _. apply lookup_insert_eq.
  - repeat split; try discriminate.
    + intros p n Hp. rewrite lookup_insert_ne; [exact Hp|]. congruence.
    + intros p _ Hp. apply lookup_insert_ne. congruence.
    + intros _. apply lookup_insert_eq.
  - repeat split.
    + intros p n Hp. rewrite !lookup_insert_ne; [exact Hp| |]; congruence.
    + intros p Hp1 Hp2. rewrite !lookup_insert_ne; congruence.
    + intros _. rewrite lookup_insert_ne by congruence. apply lookup_insert_eq.
    + intros _. apply lookup_insert_eq.
Qed.

(** X8. Starting a second time changes nothing. *)
Theorem startup_twice_is_startup_once `{NodeRuntime} :
  forall w : World, startup (snd (startup w)) = (Ok tt, snd (startup w)).
Proof.
  intros w. pose proof uploads_not_catalog as Hne.
  rewrite (startup_run (snd (startup w))).
  rewrite (startup_run w). cbn [snd files with_files].
  assert (Hup : is_Some
            (match files w !! moviesFile with
             | Some _ => fun fs : FS => fs
             | None => fun fs : FS =>
                 <[moviesFile := File (JSON_stringify (JArray []))]> fs
             end
               (match files w !! [UPLOADS_BASE_DIR] with
                | Some _ => files w
                | None => <[[UPLOADS_BASE_DIR] := Dir]> (files w)
                end) !! [UPLOADS_BASE_DIR])).
  { destruct (files w !! moviesFile) eqn:Hcat;
      destruct (files w !! [UPLOADS_BASE_DIR]) eqn:Hu;
      rewrite ?lookup_insert_ne by congruence;
      rewrite ?Hu, ?lookup_insert_eq; eauto. }
  assert (Hcat : is_Some
            (match files w !! moviesFile with
             | Some _ => fun fs : FS => fs
             | None => fun fs : FS =>
                 <[moviesFile := File (JSON_stringify (JArray []))]> fs
             end
               (match files w !! [UPLOADS_BASE_DIR] with
                | Some _ => files w
                | None => <[[UPLOADS_BASE_DIR] := Dir]> (files w)
                end) !! moviesFile)).
  { destruct (files w !! moviesFile) eqn:Hc;
      destruct (files w !! [UPLOADS_BASE_DIR]) eqn:Hu;
      rewrite ?lookup_insert_eq; rewrite ?lookup_insert_ne by congruence;
      rewrite ?Hc; eauto. }
  destruct Hup as [u ->]. destruct Hcat as [c ->]. reflexivity.
Qed.

(** ** The read routes *)

Lemma strict_equals_true (v : option json) (s : jsstring) :
  strict_equals v s = true <-> v = Some (JString s).
Proof.
  unfold strict_equals. destruct v as [[| | |t| |]|]; split; intros Hv;
    try discriminate; try (injection Hv as ->).
  - apply bool_decide_eq_true in Hv. congruence.
  - apply bool_decide_eq_true. reflexivity.
Qed.

Lemma strict_equals_false (v : option json) (s : jsstring) :
  strict_equals v s = false <-> v <> Some (JString s).
Proof.
  rewrite <- strict_equals_true. destruct (strict_equals v s); split; congruence.
Qed.

Lemma Array_find_state `{NodeRuntime} (id : jsstring) (items : list json)
    (w w' : World) (r : Result (option json)) :
  Array_find id items w = (r, w') -> w' = w.
Proof.
  revert r. induction items as [|m rest IH]; intros r.
  - intros [= _ <-]. reflexivity.
  - cbn [Array_find]. unfold bindM, id_is.
    destruct m; unfold throwM, retM;
      try (intros [= _ <-]; reflexivity);
      destruct (strict_equals _ _); try (intros [= _ <-]; reflexivity); apply IH.
Qed.

(** Entries that are no [null] and have another [id] are passed over. *)
Lemma Array_find_skip `{NodeRuntime} (id : jsstring) (before rest : list json)
    (w : World) :
  Forall (fun x => x <> JNull /\ field (js "id") x <> Some (JString id)) before ->
  Array_find id (before ++ rest) w = Array_find id rest w.
Proof.
  induction 1 as [|x before [Hnull Hid] _ IH]; [reflexivity|].
  cbn [app Array_find]. unfold bindM, id_is.
  apply strict_equals_false in Hid.
  destruct x; try congruence; unfold retM; rewrite Hid; exact IH.
Qed.

Lemma get_movie_by_id_on_array `{NodeRuntime} (id text : jsstring)
    (items : list json) (w : World) :
  files w !! moviesFile = Some (File text) ->
  JSON_parse text = Some (JArray items) ->
  get_movie_by_id id w
  = match Array_find id items w with
    | (Ok None, _) =>
        (Ok {| status := 404; body := message_body (js "Movie not found") |}, w)
    | (Ok (Some m), _) => (Ok {| status := 200; body := m |}, w)
    | (Throw _, _) =>
        (Ok {| status := 500; body := message_body (js "Error reading movie") |}, w)
    end.
Proof.
  intros Hfile Hparse.
  unfold get_movie_by_id, try_catch, bindM, readFileSync, fs_readFileSync, parse.
  change (entry (files w) moviesFile) with (files w !! moviesFile).
  rewrite Hfile, Hparse. unfold retM at 1. cbn [movies_find].
  destruct (Array_find id items w) as [[[m|]|e] w'] eqn:Hfind;
    apply Array_find_state in Hfind; subst w'; reflexivity.
Qed.

(** X9. [GET /api/movies/:id] answers 200 with the first entry of the
    catalog array whose [id] is the string of the route, when no entry before
    it is [null]; entries after it are not looked at. *)
Theorem get_movie_by_id_returns_first_match `{NodeRuntime} :
  forall (id text : jsstring) (before after : list json) (m : json) (w : World),
    files w !! moviesFile = Some (File text) ->
    JSON_parse text = Some (JArray (before ++ m :: after)) ->
    Forall (fun x => x <> JNull /\ field (js "id") x <> Some (JString id)) before ->
    field (js "id") m = Some (JString id) ->
    get_movie_by_id id w = (Ok {| status := 200; body := m |}, w).
Proof.
  intros id text before after m w Hfile Hparse Hbefore Hid.
  rewrite (get_movie_by_id_on_array id text _ w Hfile Hparse).
  rewrite Array_find_skip by exact Hbefore.
  cbn [Array_find]. unfold bindM, id_is.
  apply strict_equals_true in Hid.
  destruct m; try discriminate Hid; unfold retM; rewrite Hid; reflexivity.
Qed.

(** X10. [GET /api/movies/:id] answers 404 [Movie not found] when the catalog
    is an array none of whose entries is [null] or has the [id] of the route
    as a string; an [id] stored as a number is not found. *)
Theorem get_movie_by_id_not_found `{NodeRuntime} :
  forall (id text : jsstring) (items : list json) (w : World),
    files w !! moviesFile = Some (File text) ->
    JSON_parse text = Some (JArray items) ->
    Forall (fun x => x <> JNull /\ field (js "id") x <> Some (JString id)) items ->
    get_movie_by_id id w
    = (Ok {| status := 404; body := message_body (js "Movie not found") |}, w).
Proof.
  intros id text items w Hfile Hparse Hitems.
  rewrite (get_movie_by_id_on_array id text _ w Hfile Hparse).
  rewrite <- (app_nil_r items).
  rewrite Array_find_skip by exact Hitems. reflexivity.
Qed.

(** X11. [GET /api/movies/:id] answers 500 [Error reading movie] when the
    catalog cannot be read, is no JSON, is JSON but no array, or is an array
    with a [null] before any entry of that [id]. *)
Theorem get_movie_by_id_fails_on_bad_catalog `{NodeRuntime} :
  forall (id : jsstring) (w : World),
    ((exists e, fs_readFileSync moviesFile (files w) = Throw e)
     \/ (exists text, files w !! moviesFile = Some (File text)
                      /\ JSON_parse text = None)
     \/ (exists text v, files w !! moviesFile = Some (File text)
                        /\ JSON_parse text = Some v
                        /\ forall items, v <> JArray items)
     \/ (exists text before after,
           files w !! moviesFile = Some (File text)
           /\ JSON_parse text = Some (JArray (before ++ JNull :: after))
           /\ Forall (fun x => x <> JNull
                               /\ field (js "id") x <> Some (JString id)) before)) ->
    get_movie_by_id id w
    = (Ok {| status := 500; body := message_body (js "Error reading movie") |}, w).
Proof.
  intros id w [[e He] | [(text & Hfile & Hparse) | [(text & v & Hfile & Hparse & Hv)
              | (text & before & after & Hfile & Hparse & Hbefore)]]].
  - unfold get_movie_by_id, try_catch, bindM, readFileSync. rewrite He. reflexivity.
  - unfold get_movie_by_id, try_catch, bindM, readFileSync, fs_readFileSync, parse.
    change (entry (files w) moviesFile) with (files w !! moviesFile).
    rewrite Hfile, Hparse. reflexivity.
  - unfold get_movie_by_id, try_catch, bindM, readFileSync, fs_readFileSync, parse.
    change (entry (files w) moviesFile) with (files w !! moviesFile).
    rewrite Hfile, Hparse. unfold retM at 1.
    destruct v; try reflexivity. exfalso. exact (Hv _ eq_refl).
  - rewrite (get_movie_by_id_on_array id text _ w Hfile Hparse).
    rewrite Array_find_skip by exact Hbefore. reflexivity.
Qed.

Lemma get_movie_by_id_returns_first_match_witness :
  get_movie_by_id (H := Node.runtime) (js "1700000000002") Sample.two_entries
  = (Ok {| status := 200; body := Sample.uploaded_movie |}, Sample.two_entries).
Proof.
  apply (get_movie_by_id_returns_first_match (H := Node.runtime)
           (js "1700000000002")
           (Node.stringify (JArray [Sample.numbered; Sample.uploaded_movie]))
           [Sample.numbered] [] Sample.uploaded_movie).
  - vm_compute. reflexivity.
  - vm_compute. reflexivity.
  - repeat constructor; vm_compute; discriminate.
  - vm_compute. reflexivity.
Defined.

Lemma get_movie_by_id_not_found_witness :
  get_movie_by_id (H := Node.runtime) (js "1700000000003") Sample.two_entries
  = (Ok {| status := 404; body := message_body (js "Movie not found") |},
     Sample.two_entries).
Proof.
  apply (get_movie_by_id_not_found (H := Node.runtime) (js "1700000000003")
           (Node.stringify (JArray [Sample.numbered; Sample.uploaded_movie]))
           [Sample.numbered; Sample.uploaded_movie]).
  - vm_compute. reflexivity.
  - vm_compute. reflexivity.
  - repeat constructor; vm_compute; discriminate.
Defined.

Lemma get_movie_by_id_fails_on_bad_catalog_witness :
  get_movie_by_id (H := Node.runtime) (js "1700000000002") Sample.object_catalog
  = (Ok {| status := 500; body := message_body (js "Error reading movie") |},
     Sample.object_catalog)
  /\ get_movie_by_id (H := Node.runtime) (js "1700000000002") Sample.null_first
     = (Ok {| status := 500; body := message_body (js "Error reading movie") |},
        Sample.null_first).
Proof.
  split; apply (get_movie_by_id_fails_on_bad_catalog (H := Node.runtime)).
  - right. right. left. exists (js "{}"), (JObject []).
    split; [vm_compute; reflexivity|]. split; [vm_compute; reflexivity|].
    intros items. discriminate.
  - right. right. right.
    exists (Node.stringify (JArray [JNull; Sample.uploaded_movie])), [],
      [Sample.uploaded_movie].
    split; [vm_compute; reflexivity|]. split; [vm_compute; reflexivity|].
    constructor.
Defined.

(** X12. The two read routes always answer and never change the state:
    [GET /api/movies] with 200 or 500, [GET /api/movies/:id] with 200, 404 or
    500. *)
Theorem read_routes_answer_and_change_nothing `{NodeRuntime} :
  forall (id : jsstring) (w : World),
    (exists r, get_movies w = (Ok r, w) /\ (status r = 200 \/ status r = 500))
    /\ (exists r, get_movie_by_id id w = (Ok r, w)
                  /\ (status r = 200 \/ status r = 404 \/ status r = 500)).
Proof.
  intros id w. split.
  - unfold get_movies, try_catch, bindM, readFileSync, parse, retM, throwM.
    destruct (fs_readFileSync moviesFile (files w)) as [text|e]; [|eauto].
    destruct (JSON_parse text) as [v|]; eauto.
  - unfold get_movie_by_id, try_catch, bindM, readFileSync, parse, throwM.
    destruct (fs_readFileSync moviesFile (files w)) as [text|e];
      [|unfold retM; eauto 6].
    destruct (JSON_parse text) as [v|]; [|unfold retM; eauto 6].
    unfold retM at 1.
    destruct (movies_find v id w) as [[[m|]|e] w'] eqn:Hfind.
    + assert (w' = w) as ->.
      { destruct v; try discriminate Hfind.
        exact (Array_find_state _ _ _ _ _ Hfind). }
      unfold retM. eauto 6.
    + assert (w' = w) as ->.
      { destruct v; try discriminate Hfind.
        exact (Array_find_state _ _ _ _ _ Hfind). }
      unfold retM. eauto 6.
    + assert (w' = w) as ->.
      { destruct v; try (injection Hfind as _ <-; reflexivity).
        exact (Array_find_state _ _ _ _ _ Hfind). }
      unfold retM. eauto 6.
Qed.

(** ** Runs of the upload handler *)

Lemma truthy_slot_reference (folder : jsstring) (file : option FileHandle)
    (url : option (list N)) :
  truthy (slot_reference folder file url)
  = match file with Some _ => true | None => truthy url end.
Proof.
  destruct file as [f|]; simpl.
  - assert (Hs : js "/uploads/" = ch "/" :: js "uploads/") by (vm_compute; reflexivity).
    rewrite Hs. reflexivity.
  - destruct (truthy url) eqn:Hu; [exact Hu | reflexivity].
Qed.

(** What one slot does to the state, for a file object whose path holds no
    directory. *)
Lemma resolve_slot_run (slot : Slot) (folder : jsstring) (file : option FileHandle)
    (url : option (list N)) (w w' : World) (r : Result (option (list N))) :
  resolve_slot slot folder file url w = (r, w') ->
  (forall f, file = Some f -> files w !! file_path f <> Some Dir) ->
  clock w' = clock w /\ reads w' = reads w
  /\ (forall ref, r = Ok ref -> ref = slot_reference folder file url)
  /\ (forall p : path,
        (forall f, file = Some f -> p <> file_path f) ->
        ~ [UPLOADS_BASE_DIR; folder] `prefix_of` p ->
        files w' !! p = files w !! p)
  /\ (forall p : path, files w !! p <> Some Dir -> files w' !! p <> Some Dir).
Proof.
  intros Hrun Hfile. unfold resolve_slot in Hrun.
  destruct file as [f|].
  - specialize (Hfile f eq_refl).
    unfold bindM, renameSync, lift_fs, retM, fs_renameSync in Hrun.
    set (new := path_join (path_join [UPLOADS_BASE_DIR] folder) (file_filename f)) in *.
    assert (Hnew : forall p, ~ [UPLOADS_BASE_DIR; folder] `prefix_of` p -> p <> new).
    { intros p Hp ->. apply Hp. exists [file_filename f]. reflexivity. }
    destruct (files w !! file_path f) as [[|data]|] eqn:Hold; [congruence| |].
    + destruct (entry (files w) (parent new)) as [[|d]|];
        [|injection Hrun as <- <-; repeat split; auto; discriminate
         |injection Hrun as <- <-; repeat split; auto; discriminate].
      destruct (entry (files w) new) as [[|d]|];
        injection Hrun as <- <-; cbn [clock reads files with_files];
        repeat split; auto; try discriminate.
      * intros ref [= <-]. reflexivity.
      * intros p Hp1 Hp2. rewrite lookup_insert_ne by (apply not_eq_sym, Hnew, Hp2).
        apply lookup_delete_ne. apply not_eq_sym, Hp1. reflexivity.
      * intros p Hp. destruct (decide (new = p)) as [<-|Hne].
        { rewrite lookup_insert_eq. discriminate. }
        rewrite lookup_insert_ne by exact Hne.
        destruct (decide (file_path f = p)) as [<-|Hne2].
        { rewrite lookup_delete_eq. discriminate. }
        rewrite lookup_delete_ne by exact Hne2. exact Hp.
      * intros ref [= <-]. reflexivity.
      * intros p Hp1 Hp2. rewrite lookup_insert_ne by (apply not_eq_sym, Hnew, Hp2).
        apply lookup_delete_ne. apply not_eq_sym, Hp1. reflexivity.
      * intros p Hp. destruct (decide (new = p)) as [<-|Hne].
        { rewrite lookup_insert_eq. discriminate. }
        rewrite lookup_insert_ne by exact Hne.
        destruct (decide (file_path f = p)) as [<-|Hne2].
        { rewrite lookup_delete_eq. discriminate. }
        rewrite lookup_delete_ne by exact Hne2. exact Hp.
    + injection Hrun as <- <-. repeat split; auto; discriminate.
  - destruct (truthy url) eqn:Hurl.
    + unfold bindM, writeFileSync, lift_fs, retM in Hrun.
      set (sidecar := path_join (path_join [UPLOADS_BASE_DIR] folder)
                        (fieldname slot ++ js "-url.txt")) in *.
      destruct (fs_writeFileSync sidecar _ (files w)) as [fs'|e] eqn:Hwrite.
      * apply fs_writeFileSync_Ok in Hwrite as (-> & _).
        injection Hrun as <- <-. cbn [clock reads files with_files].
        repeat split; auto.
        -- intros ref [= <-]. simpl. rewrite Hurl. reflexivity.
        -- intros p _ Hp. apply lookup_insert_ne. intros <-. apply Hp.
           eexists. reflexivity.
        -- intros p Hp. destruct (decide (sidecar = p)) as [<-|Hne].
           { rewrite lookup_insert_eq. discriminate. }
           rewrite lookup_insert_ne by exact Hne. exact Hp.
      * injection Hrun as <- <-. repeat split; auto; discriminate.
    + injection Hrun as <- <-. repeat split; auto.
      intros ref [= <-]. simpl. rewrite Hurl. reflexivity.
Qed.

(** What the handler reads as the catalog depends on the catalog file
    alone. *)
Lemma read_movies_same_catalog `{NodeRuntime} (w1 w2 : World) (v : json) :
  files w2 !! moviesFile = files w1 !! moviesFile ->
  read_movies w1 = (Ok v, w1) ->
  read_movies w2 = (Ok v, w2).
Proof.
  unfold read_movies, try_catch, bindM, readFileSync, fs_readFileSync, parse,
    retM, throwM.
  change (entry (files w1) moviesFile) with (files w1 !! moviesFile).
  change (entry (files w2) moviesFile) with (files w2 !! moviesFile).
  intros ->.
  destruct (files w1 !! moviesFile) as [[|text]|];
    try (intros [= <-]; reflexivity).
  destruct (JSON_parse text) as [u|]; [|intros [= <-]; reflexivity].
  destruct u; intros [= <-]; reflexivity.
Qed.

Lemma staged_not_folder (name folder : jsstring) :
  [UPLOADS_BASE_DIR; js "temp"; name] <> [UPLOADS_BASE_DIR; folder].
Proof. intros [=]. Qed.

Lemma staged_not_catalog (name : jsstring) :
  [UPLOADS_BASE_DIR; js "temp"; name] <> moviesFile.
Proof. intros [=]. Qed.

Lemma catalog_not_below (folder : jsstring) :
  ~ [UPLOADS_BASE_DIR; folder] `prefix_of` moviesFile.
Proof. intros [k Hk]. unfold moviesFile in Hk. simpl in Hk. discriminate Hk. Qed.

(** A run that ends in 200, step by step. *)
Lemma process_upload_accepted `{NodeRuntime}
    (b : Body) (req_files : Slot -> option FileHandle) (w w' : World)
    (r : Response) :
  process_upload b req_files w = (Ok r, w') ->
  status r = 200 ->
  staged_in (files w) req_files ->
  exists (earlier : list json) (fs4 : FS),
    read_movies w = (Ok (JArray earlier), w)
    /\ r = {| status := 200;
              body := JObject [ (js "message", JString (js "Movie added successfully"));
                                (js "movie", movie_of b req_files w);
                                (js "folderPath", JString (folder_of b w)) ] |}
    /\ fs4 !! [UPLOADS_BASE_DIR; folder_of b w; js "metadata.json"]
       = Some (File (JSON_stringify (metadata_of b req_files w)))
    /\ fs4 !! [UPLOADS_BASE_DIR; folder_of b w] = Some Dir
    /\ files w'
       = <[moviesFile
           := File (JSON_stringify (JArray (earlier ++ [movie_of b req_files w])))]> fs4
    /\ clock w' = clock w /\ reads w' = S (S (S (reads w)))
    /\ truthy (title b) = true /\ truthy (description b) = true
    /\ (truthy (slot_reference (folder_of b w) (req_files thumbnail) (thumbnailURL b))
        = true
        \/ truthy (slot_reference (folder_of b w) (req_files video) (videoURL b))
           = true).
Proof.
  intros Hrun Hstatus Hstaged. revert Hrun.
  unfold process_upload, try_catch.
  destruct (negb (truthy (title b)) || negb (truthy (description b))) eqn:Hguard.
  { unfold retM. intros [= <- _]. discriminate. }
  apply orb_false_elim in Hguard as [Ht Hd].
  apply negb_false_iff in Ht, Hd.
  unfold bindM at 1. unfold createMovieFolderName, bindM at 1, Date_now, retM at 1.
  change (movieFolderName_at (clock w (reads w)) (default [] (title b)))
    with (folder_of b w).
  set (folder := folder_of b w).
  unfold bindM at 1, existsSync. unfold bindM at 1.
  destruct (mkdir_if_missing (path_join [UPLOADS_BASE_DIR] folder) (tick w))
    as [[e He] | (w1 & Hw1 & Hc1 & Hr1 & Hf1)]; unfold retM in *;
    cbn [files clock reads tick] in *.
  { rewrite He. intros [= <- _]. discriminate. }
  rewrite Hw1. clear Hw1.
  assert (Hsame1 : forall p, p <> [UPLOADS_BASE_DIR; folder] ->
                             files w1 !! p = files w !! p).
  { intros p Hp. destruct Hf1 as [-> | ->]; [reflexivity|].
    apply lookup_insert_ne. apply not_eq_sym. exact Hp. }
  unfold bindM at 1.
  destruct (resolve_slot thumbnail folder _ _ w1) as [[tp|e] w2] eqn:Hrt;
    [|intros [= <- _]; discriminate].
  apply resolve_slot_run in Hrt as (Hc2 & Hr2 & Href2 & Hframe2 & Hnodir2).
  2:{ intros f Hf. destruct (Hstaged _ _ Hf) as [Hpath Hnd].
      rewrite Hsame1; [exact Hnd|]. rewrite Hpath. apply staged_not_folder. }
  specialize (Href2 _ eq_refl). subst tp.
  unfold bindM at 1.
  destruct (resolve_slot video folder _ _ w2) as [[vp|e] w3] eqn:Hrv;
    [|intros [= <- _]; discriminate].
  apply resolve_slot_run in Hrv as (Hc3 & Hr3 & Href3 & Hframe3 & Hnodir3).
  2:{ intros f Hf. destruct (Hstaged _ _ Hf) as [Hpath Hnd].
      apply Hnodir2. rewrite Hsame1; [exact Hnd|].
      rewrite Hpath. apply staged_not_folder. }
  specialize (Href3 _ eq_refl). subst vp.
  assert (Hcat3 : files w3 !! moviesFile = files w !! moviesFile).
  { rewrite Hframe3, Hframe2, Hsame1; try reflexivity;
      try apply catalog_not_below;
      try (intros f Hf; destruct (Hstaged _ _ Hf) as [-> _];
           apply not_eq_sym, staged_not_catalog).
    intros [=]. }
  assert (Hdir3 : files w3 !! [UPLOADS_BASE_DIR; folder] <> None ->
                  True) by auto.
  unfold bindM at 1, Date_now. unfold bindM at 1. unfold bindM at 1.
  cbn [clock reads tick].
  rewrite Hc3, Hc2, Hc1, Hr3, Hr2, Hr1.
  fold (metadata_of b req_files w). fold (movie_of b req_files w).
  unfold writeFileSync at 1, lift_fs.
  destruct (fs_writeFileSync _ _ _) as [fs4|e] eqn:Hmeta;
    [|intros [= <- _]; discriminate].
  apply fs_writeFileSync_Ok in Hmeta as (-> & Hparent).
  cbn [files tick] in *.
  destruct (negb (truthy _) && negb (truthy _)) eqn:Hassets.
  { unfold bindM, rmdirSync, lift_fs.
    destruct (fs_rmdirSync _ _); intros [= <- _]; discriminate. }
  unfold bindM at 1.
  match goal with
  | |- context [read_movies ?w4] =>
      destruct (read_movies_total w4) as [movies Hread]; rewrite Hread
  end.
  unfold bindM at 1, push.
  destruct movies as [| | | |earlier|]; unfold throwM;
    try (intros [= <- _]; discriminate).
  unfold retM at 1. unfold bindM, writeFileSync, lift_fs, retM.
  destruct (fs_writeFileSync moviesFile _ _) as [fs5|e] eqn:Hcat;
    [|intros [= <- _]; discriminate].
  apply fs_writeFileSync_Ok in Hcat as (-> & _).
  intros [= <- <-]. cbn [files clock reads with_files tick].
  exists earlier, (<[path_join (path_join [UPLOADS_BASE_DIR] folder) (js "metadata.json")
                     := File (JSON_stringify (metadata_of b req_files w))]> (files w3)).
  split.
  { destruct (read_movies_total w) as [v Hv].
    rewrite Hv. f_equal. f_equal.
    eapply read_movies_same_catalog in Hv as Hread'.
    - rewrite Hread in Hread'. injection Hread' as <-. reflexivity.
    - cbn [files with_files]. rewrite lookup_insert_ne by (intros [=]).
      exact Hcat3. }
  split; [reflexivity|].
  split; [apply lookup_insert_eq|].
  split.
  { rewrite lookup_insert_ne by (intros [=]).
    rewrite parent_path_join in Hparent. exact Hparent. }
  split; [reflexivity|]. split; [rewrite Hc3, Hc2, Hc1; reflexivity|].
  split; [rewrite Hr3, Hr2, Hr1; reflexivity|].
  split; [exact Ht|]. split; [exact Hd|].
  apply andb_false_iff in Hassets as [Ha | Ha]; apply negb_false_iff in Ha; auto.
Qed.

Lemma read_movies_array `{NodeRuntime} (w : World) (text : jsstring)
    (items : list json) :
  files w !! moviesFile = Some (File text) ->
  JSON_parse text = Some (JArray items) ->
  read_movies w = (Ok (JArray items), w).
Proof.
  intros Hfile Hparse.
  unfold read_movies, try_catch, bindM, readFileSync, fs_readFileSync, parse.
  change (entry (files w) moviesFile) with (files w !! moviesFile).
  rewrite Hfile, Hparse. reflexivity.
Qed.

Lemma read_movies_fallback `{NodeRuntime} (w : World) :
  (exists e, fs_readFileSync moviesFile (files w) = Throw e)
  \/ (exists text, files w !! moviesFile = Some (File text)
                   /\ (JSON_parse text = None \/ JSON_parse text = Some JNull)) ->
  read_movies w = (Ok (JArray []), w).
Proof.
  unfold read_movies, try_catch, bindM, readFileSync, parse.
  intros [[e ->] | (text & Hfile & Hparse)]; [reflexivity|].
  unfold fs_readFileSync.
  change (entry (files w) moviesFile) with (files w !! moviesFile).
  rewrite Hfile. destruct Hparse as [-> | ->]; reflexivity.
Qed.

(** X13. When the handler answers 200 to file objects as multer hands them
    out, and the catalog file held an array, the catalog file afterwards holds
    that array with one entry more at its end: the entries that were there
    stay, in their order.  The new entry is the [movie] of the answer; its
    [id] is the handler's second clock reading - the folder is named after
    the first - and its references are the stored path of a file, else the
    URL, else the empty string. *)
Theorem accepted_upload_appends_to_catalog `{NodeRuntime} :
  forall (b : Body) (req_files : Slot -> option FileHandle) (w w' : World)
         (r : Response) (text : jsstring) (earlier : list json),
    process_upload b req_files w = (Ok r, w') ->
    status r = 200 ->
    staged_in (files w) req_files ->
    files w !! moviesFile = Some (File text) ->
    JSON_parse text = Some (JArray earlier) ->
    files w' !! moviesFile
    = Some (File (JSON_stringify (JArray (earlier ++ [movie_of b req_files w]))))
    /\ field (js "movie") (body r) = Some (movie_of b req_files w)
    /\ field (js "folderPath") (body r) = Some (JString (folder_of b w))
    /\ files w' !! [UPLOADS_BASE_DIR; folder_of b w] = Some Dir
    /\ files w' !! [UPLOADS_BASE_DIR; folder_of b w; js "metadata.json"]
       = Some (File (JSON_stringify (metadata_of b req_files w))).
Proof.
  intros b req_files w w' r text earlier Hrun Hstatus Hstaged Hfile Hparse.
  destruct (process_upload_accepted b req_files w w' r Hrun Hstatus Hstaged)
    as (earlier' & fs4 & Hread & -> & Hmeta & Hdir & -> & _).
  rewrite (read_movies_array w text earlier Hfile Hparse) in Hread.
  injection Hread as <-.
  split; [apply lookup_insert_eq|]. split; [reflexivity|]. split; [reflexivity|].
  split.
  - rewrite lookup_insert_ne by (apply not_eq_sym, moviesFile_not_in_uploads).
    exact Hdir.
  - rewrite lookup_insert_ne by (apply not_eq_sym, moviesFile_not_in_uploads).
    exact Hmeta.
Qed.

(** X14. When the catalog file cannot be read, holds no JSON or holds
    [null], an upload that is answered 200 leaves a catalog of one entry, its
    own: whatever the file held before is written over. *)
Theorem accepted_upload_replaces_unreadable_catalog `{NodeRuntime} :
  forall (b : Body) (req_files : Slot -> option FileHandle) (w w' : World)
         (r : Response),
    process_upload b req_files w = (Ok r, w') ->
    status r = 200 ->
    staged_in (files w) req_files ->
    ((exists e, fs_readFileSync moviesFile (files w) = Throw e)
     \/ (exists text, files w !! moviesFile = Some (File text)
                      /\ (JSON_parse text = None \/ JSON_parse text = Some JNull))) ->
    files w' !! moviesFile
    = Some (File (JSON_stringify (JArray [movie_of b req_files w]))).
Proof.
  intros b req_files w w' r Hrun Hstatus Hstaged Hbad.
  destruct (process_upload_accepted b req_files w w' r Hrun Hstatus Hstaged)
    as (earlier' & fs4 & Hread & _ & _ & _ & -> & _).
  rewrite (read_movies_fallback w Hbad) in Hread.
  injection Hread as <-. apply lookup_insert_eq.
Qed.

Lemma accepted_upload_appends_to_catalog_witness :
  exists (r : Response) (w' : World),
    process_upload (H := Node.runtime) Sample.url_body Sample.no_files Sample.uploaded
    = (Ok r, w')
    /\ status r = 200
    /\ files w' !! moviesFile
       = Some (File (Node.stringify
                       (JArray [Sample.uploaded_movie;
                                movie_of (H := Node.runtime) Sample.url_body
                                  Sample.no_files Sample.uploaded]))).
Proof.
  destruct (process_upload (H := Node.runtime) Sample.url_body Sample.no_files
              Sample.uploaded) as [res w'] eqn:Hrun.
  assert (Hok : exists r, res = Ok r /\ status r = 200).
  { apply (f_equal fst) in Hrun. simpl in Hrun. subst res.
    vm_compute. eexists. split; reflexivity. }
  destruct Hok as (r & -> & Hstatus).
  exists r, w'. split; [reflexivity|]. split; [exact Hstatus|].
  apply (accepted_upload_appends_to_catalog (H := Node.runtime) _ _ _ _ _
           Sample.uploaded_text [Sample.uploaded_movie] Hrun Hstatus).
  - intros slot f Hf. discriminate Hf.
  - vm_compute. reflexivity.
  - vm_compute. reflexivity.
Defined.

Lemma accepted_upload_replaces_unreadable_catalog_witness :
  exists (r : Response) (w' : World),
    files Sample.corrupted !! moviesFile = Some (File (js "[{ oops"))
    /\ process_upload (H := Node.runtime) Sample.url_body Sample.no_files
         Sample.corrupted = (Ok r, w')
    /\ status r = 200
    /\ files w' !! moviesFile
       = Some (File (Node.stringify
                       (JArray [movie_of (H := Node.runtime) Sample.url_body
                                  Sample.no_files Sample.corrupted]))).
Proof.
  destruct (process_upload (H := Node.runtime) Sample.url_body Sample.no_files
              Sample.corrupted) as [res w'] eqn:Hrun.
  assert (Hok : exists r, res = Ok r /\ status r = 200).
  { apply (f_equal fst) in Hrun. simpl in Hrun. subst res.
    vm_compute. eexists. split; reflexivity. }
  destruct Hok as (r & -> & Hstatus).
  exists r, w'. split; [vm_compute; reflexivity|].
  split; [reflexivity|]. split; [exact Hstatus|].
  apply (accepted_upload_replaces_unreadable_catalog (H := Node.runtime) _ _ _ _ _
           Hrun Hstatus).
  - intros slot f Hf. discriminate Hf.
  - right. exists (js "[{ oops"). split; [vm_compute; reflexivity|].
    left. vm_compute. reflexivity.
Defined.

(** ** Submissions without files *)

Lemma with_files_with_files (fs1 fs2 : FS) (w : World) :
  with_files fs1 (with_files fs2 w) = with_files fs1 w.
Proof. reflexivity. Qed.

(** A slot without a file, in a folder that is a directory. *)
Lemma resolve_slot_without_file (slot : Slot) (folder : jsstring)
    (url : option (list N)) (w : World) :
  files w !! [UPLOADS_BASE_DIR; folder] = Some Dir ->
  files w !! [UPLOADS_BASE_DIR; folder; fieldname slot ++ js "-url.txt"] <> Some Dir ->
  resolve_slot slot folder None url w
  = (Ok (slot_reference folder None url),
     with_files (with_sidecar slot folder url (files w)) w).
Proof.
  intros Hdir Hside. unfold resolve_slot, slot_reference, with_sidecar.
  destruct (truthy url) eqn:Hurl.
  - unfold bindM, writeFileSync, lift_fs, retM.
    rewrite fs_writeFileSync_into_dir; [reflexivity|exact Hdir|exact Hside].
  - unfold retM. rewrite with_files_same. reflexivity.
Qed.

Lemma with_sidecar_lookup_other (slot : Slot) (folder : jsstring)
    (url : option (list N)) (fs : FS) (p : path) :
  p <> [UPLOADS_BASE_DIR; folder; fieldname slot ++ js "-url.txt"] ->
  with_sidecar slot folder url fs !! p = fs !! p.
Proof.
  intros Hp. unfold with_sidecar. destruct (truthy url); [|reflexivity].
  apply lookup_insert_ne. apply not_eq_sym. exact Hp.
Qed.

Lemma sidecar_not_metadata (slot : Slot) :
  fieldname slot ++ js "-url.txt" <> js "metadata.json".
Proof. destruct slot; vm_compute; discriminate. Qed.

Lemma sidecars_differ :
  fieldname thumbnail ++ js "-url.txt" <> fieldname video ++ js "-url.txt".
Proof. vm_compute. discriminate. Qed.

(** The steps of the handler up to the metadata document, for a submission
    without files into a folder that is not there yet. *)
Lemma process_upload_without_files `{NodeRuntime}
    (b : Body) (req_files : Slot -> option FileHandle) (w : World) :
  truthy (title b) = true -> truthy (description b) = true ->
  req_files thumbnail = None -> req_files video = None ->
  files w !! [UPLOADS_BASE_DIR] = Some Dir ->
  (forall rest : path, files w !! ([UPLOADS_BASE_DIR; folder_of b w] ++ rest) = None) ->
  process_upload b req_files w
  = try_catch
      (if negb (truthy (slot_reference (folder_of b w) None (thumbnailURL b)))
          && negb (truthy (slot_reference (folder_of b w) None (videoURL b)))
       then
         rmdirSync [UPLOADS_BASE_DIR; folder_of b w] ;;;
         retM {| status := 400;
                 body := message_body
                   (js "Please provide at least one thumbnail and one video (file or URL)") |}
       else
         movies <- read_movies ;;
         movies <- push movies (movie_of b req_files w) ;;
         writeFileSync moviesFile (JSON_stringify movies) ;;;
         retM {| status := 200;
                 body := JObject [ (js "message", JString (js "Movie added successfully"));
                                   (js "movie", movie_of b req_files w);
                                   (js "folderPath", JString (folder_of b w)) ] |})
      (fun error =>
         retM {| status := 500;
                 body := message_body (js "Server error: " ++ Error_message error) |})
      (with_files (item_tree b req_files w) (tick (tick (tick w)))).
Proof.
  intros Ht Hd Hnt Hnv Hup Hfresh.
  unfold process_upload. rewrite Ht, Hd. cbn [negb orb].
  unfold try_catch. 
  unfold bindM at 1. unfold createMovieFolderName, bindM at 1, Date_now, retM at 1.
  change (movieFolderName_at (clock w (reads w)) (default [] (title b)))
    with (folder_of b w).
  set (folder := folder_of b w) in *.
  unfold bindM at 1, existsSync. unfold bindM at 1.
  rewrite fs_existsSync_entry.
  change (entry (files (tick w)) (path_join [UPLOADS_BASE_DIR] folder))
    with (files w !! ([UPLOADS_BASE_DIR; folder] ++ [])).
  rewrite Hfresh. cbn [negb]. unfold mkdirSync, lift_fs.
  rewrite fs_mkdirSync_fresh; [|exact Hup|exact (Hfresh [])].
  set (fs1 := <[path_join [UPLOADS_BASE_DIR] folder := Dir]> (files (tick w))).
  assert (Hdir1 : fs1 !! [UPLOADS_BASE_DIR; folder] = Some Dir)
    by apply lookup_insert_eq.
  assert (Hbelow1 : forall name, fs1 !! [UPLOADS_BASE_DIR; folder; name] = None).
  { intros name. unfold fs1. rewrite lookup_insert_ne by (intros [=]).
    exact (Hfresh [name]). }
  unfold bindM at 1. rewrite Hnt.
  rewrite resolve_slot_without_file;
    [|exact Hdir1|cbn [files with_files]; rewrite Hbelow1; discriminate].
  cbn [files with_files]. rewrite with_files_with_files.
  set (fs2 := with_sidecar thumbnail folder (thumbnailURL b) fs1).
  unfold bindM at 1. rewrite Hnv.
  rewrite resolve_slot_without_file; cbn [files with_files].
  2:{ unfold fs2. rewrite with_sidecar_lookup_other by (intros [=]). exact Hdir1. }
  2:{ unfold fs2. rewrite with_sidecar_lookup_other.
      - rewrite Hbelow1. discriminate.
      - intros Heq. apply sidecars_differ. congruence. }
  rewrite with_files_with_files.
  set (fs3 := with_sidecar video folder (videoURL b) fs2).
  unfold bindM at 1, Date_now. unfold bindM at 1. unfold bindM at 1.
  cbn [clock reads tick with_files].
  unfold writeFileSync at 1, lift_fs. cbn [files with_files tick].
  rewrite fs_writeFileSync_into_dir.
  2:{ rewrite parent_path_join.
      change (entry fs3 (path_join [UPLOADS_BASE_DIR] folder))
        with (fs3 !! [UPLOADS_BASE_DIR; folder]).
      unfold fs3, fs2.
      rewrite !with_sidecar_lookup_other by (intros [=]). exact Hdir1. }
  2:{ change (entry fs3 (path_join (path_join [UPLOADS_BASE_DIR] folder)
                           (js "metadata.json")))
        with (fs3 !! [UPLOADS_BASE_DIR; folder; js "metadata.json"]).
      unfold fs3, fs2. rewrite !with_sidecar_lookup_other.
      - rewrite Hbelow1. discriminate.
      - intros Heq.
        first [apply (sidecar_not_metadata video); congruence
              |apply (sidecar_not_metadata thumbnail); congruence].
      - intros Heq.
        first [apply (sidecar_not_metadata video); congruence
              |apply (sidecar_not_metadata thumbnail); congruence]. }
  unfold item_tree, movie_of, metadata_of. rewrite Hnt, Hnv.
  reflexivity.
Qed.

Lemma item_tree_catalog `{NodeRuntime} (b : Body)
    (req_files : Slot -> option FileHandle) (w : World) :
  item_tree b req_files w !! moviesFile = files w !! moviesFile.
Proof.
  unfold item_tree.
  rewrite lookup_insert_ne by (intros [=]).
  rewrite !with_sidecar_lookup_other by (intros [=]).
  apply lookup_insert_ne. intros [=].
Qed.

Lemma write_catalog `{NodeRuntime} (fs : FS) (text data : jsstring) :
  fs !! moviesFile = Some (File text) ->
  fs_writeFileSync moviesFile data fs = Ok (<[moviesFile := File data]> fs).
Proof.
  intros Hfile. apply fs_writeFileSync_into_dir; [reflexivity|].
  change (entry fs moviesFile) with (fs !! moviesFile). rewrite Hfile. discriminate.
Qed.

(** A decidable form of "nothing at or below a path". *)
Lemma nothing_below (fs : FS) (p : path) :
  bool_decide (map_Forall (fun q _ => ~ p `prefix_of` q) fs) = true ->
  forall rest : path, fs !! (p ++ rest) = None.
Proof.
  intros Hall rest. apply bool_decide_eq_true in Hall.
  destruct (fs !! (p ++ rest)) as [n|] eqn:Hq; [|reflexivity].
  exfalso. apply (Hall _ _ Hq). exists rest. reflexivity.
Qed.

(** X15. A submission without files and with a URL for at least one slot,
    into a working directory where [uploads] is a directory, nothing sits at
    the folder's path and the catalog file holds an array: the answer is 200
    with the new entry, the folder holds [metadata.json] and one sidecar per
    URL, and the catalog file holds the array with the entry at its end. *)
Theorem upload_of_urls_is_accepted `{NodeRuntime} :
  forall (b : Body) (req_files : Slot -> option FileHandle) (w : World)
         (text : jsstring) (earlier : list json),
    truthy (title b) = true -> truthy (description b) = true ->
    req_files thumbnail = None -> req_files video = None ->
    truthy (thumbnailURL b) = true \/ truthy (videoURL b) = true ->
    files w !! [UPLOADS_BASE_DIR] = Some Dir ->
    (forall rest : path,
        files w !! ([UPLOADS_BASE_DIR; folder_of b w] ++ rest) = None) ->
    files w !! moviesFile = Some (File text) ->
    JSON_parse text = Some (JArray earlier) ->
    process_upload b req_files w
    = (Ok {| status := 200;
             body := JObject [ (js "message", JString (js "Movie added successfully"));
                               (js "movie", movie_of b req_files w);
                               (js "folderPath", JString (folder_of b w)) ] |},
       with_files
         (<[moviesFile
            := File (JSON_stringify (JArray (earlier ++ [movie_of b req_files w])))]>
            (item_tree b req_files w))
         (tick (tick (tick w)))).
Proof.
  intros b req_files w text earlier Ht Hd Hnt Hnv Hurl Hup Hfresh Hfile Hparse.
  rewrite process_upload_without_files by assumption.
  unfold try_catch.
  rewrite !truthy_slot_reference.
  assert (Hassets : negb (truthy (thumbnailURL b)) && negb (truthy (videoURL b))
                    = false).
  { destruct Hurl as [-> | ->]; [reflexivity | apply andb_false_r]. }
  rewrite Hassets.
  unfold bindM at 1.
  rewrite (read_movies_same_catalog w
             (with_files (item_tree b req_files w) (tick (tick (tick w))))
             (JArray earlier) (item_tree_catalog b req_files w)
             (read_movies_array w text earlier Hfile Hparse)).
  unfold bindM at 1, push, retM at 1.
  unfold bindM, writeFileSync, lift_fs. cbn [files with_files].
  rewrite (write_catalog _ text)
    by (rewrite item_tree_catalog; exact Hfile).
  reflexivity.
Qed.


Lemma upload_of_urls_is_accepted_witness :
  fst (process_upload (H := Node.runtime) Sample.url_body Sample.no_files
         Sample.uploaded)
  = Ok {| status := 200;
          body := JObject [ (js "message", JString (js "Movie added successfully"));
                            (js "movie",
                             movie_of (H := Node.runtime) Sample.url_body
                               Sample.no_files Sample.uploaded);
                            (js "folderPath", JString (js "1700000000004-Second")) ] |}.
Proof.
  rewrite (upload_of_urls_is_accepted (H := Node.runtime) Sample.url_body
             Sample.no_files Sample.uploaded Sample.uploaded_text
             [Sample.uploaded_movie]).
  - reflexivity.
  - reflexivity.
  - reflexivity.
  - reflexivity.
  - reflexivity.
  - right. reflexivity.
  - vm_compute. reflexivity.
  - apply nothing_below. vm_compute. reflexivity.
  - vm_compute. reflexivity.
  - vm_compute. reflexivity.
Defined.


(** ** Every request is answered *)

Lemma process_upload_answers `{NodeRuntime}
    (b : Body) (req_files : Slot -> option FileHandle) (w : World) :
  exists (r : Response) (w' : World),
    process_upload b req_files w = (Ok r, w')
    /\ (r = {| status := 400;
               body := message_body (js "Title and description are required") |}
        /\ w' = w
        \/ (exists movie folder,
              r = {| status := 200;
                     body := JObject [ (js "message",
                                        JString (js "Movie added successfully"));
                                       (js "movie", movie);
                                       (js "folderPath", JString folder) ] |})
        \/ (exists e,
              r = {| status := 500;
                     body := message_body (js "Server error: " ++ Error_message e) |})).
Proof.
  unfold process_upload, try_catch.
  destruct (negb (truthy (title b)) || negb (truthy (description b))).
  { unfold retM. eauto 6. }
  unfold bindM at 1. unfold createMovieFolderName, bindM at 1, Date_now, retM at 1.
  set (folder := movieFolderName_at _ _).
  unfold bindM at 1, existsSync. unfold bindM at 1.
  destruct (mkdir_if_missing (path_join [UPLOADS_BASE_DIR] folder) (tick w))
    as [[e He] | (w1 & Hw1 & _)]; unfold retM in *; simpl files in *.
  { rewrite He. eauto 8. }
  rewrite Hw1. clear Hw1.
  unfold bindM at 1.
  destruct (resolve_slot thumbnail folder _ _ w1) as [[tp|e] w2]; [|eauto 8].
  unfold bindM at 1.
  destruct (resolve_slot video folder _ _ w2) as [[vp|e] w3]; [|eauto 8].
  unfold bindM at 1, Date_now. unfold bindM at 1. unfold bindM at 1.
  unfold writeFileSync at 1, lift_fs.
  destruct (fs_writeFileSync _ _ _) as [fs4|e] eqn:Hmeta; [|eauto 8].
  apply fs_writeFileSync_Ok in Hmeta as (-> & _). simpl files.
  destruct (negb (truthy tp) && negb (truthy vp)).
  { unfold bindM, rmdirSync, lift_fs. cbn [files with_files].
    match goal with
    | |- context [fs_rmdirSync ?dir (<[path_join ?dir ?name := ?n]> ?fs)] =>
        destruct (fs_rmdirSync_not_empty dir name n (<[path_join dir name := n]> fs))
          as [e He]; [apply lookup_insert_eq | rewrite He]
    end.
    eauto 8. }
  unfold bindM at 1.
  match goal with
  | |- context [read_movies ?w4] =>
      destruct (read_movies_total w4) as [movies ->]
  end.
  unfold bindM at 1, push.
  destruct movies as [| | | |earlier|]; unfold throwM; try solve [eauto 8].
  unfold retM at 1. unfold bindM, writeFileSync, lift_fs, retM.
  destruct (fs_writeFileSync moviesFile _ _) as [fs5|e]; eauto 8.
Qed.



(** ** Staging *)

(** A part that multer has staged: where it is and what the state is. *)
Lemma stage_part_inv `{NodeRuntime} (slot : Slot) (part : option Upload)
    (w w' : World) (h : option FileHandle) :
  stage_part slot part w = (Ok h, w') ->
  (part = None /\ h = None /\ w' = w)
  \/ (exists u,
        part = Some u
        /\ h = Some {| file_originalname := upload_originalname u;
                       file_filename :=
                         uniqueName_at slot (clock w (reads w)) (upload_originalname u);
                       file_path :=
                         [UPLOADS_BASE_DIR; js "temp";
                          uniqueName_at slot (clock w (reads w)) (upload_originalname u)] |}
        /\ clock w' = clock w /\ reads w' = S (reads w)
        /\ (exists fs1,
              (fs1 = files w \/ fs1 = <[[UPLOADS_BASE_DIR; js "temp"] := Dir]> (files w))
              /\ files w'
                 = <[[UPLOADS_BASE_DIR; js "temp";
                      uniqueName_at slot (clock w (reads w)) (upload_originalname u)]
                     := File (upload_data u)]> fs1)).
Proof.
  destruct part as [u|]; [|intros [= <- <-]; left; auto].
  intros Hrun. right. exists u. split; [reflexivity|]. revert Hrun.
  unfold stage_part, storage_destination, storage_filename.
  unfold bindM at 1. unfold bindM at 1, existsSync. unfold bindM at 1.
  destruct (mkdir_if_missing (path_join [UPLOADS_BASE_DIR] (js "temp")) w)
    as [[e He] | (w1 & Hw1 & Hc1 & Hr1 & Hf1)]; unfold retM in *.
  { rewrite He. discriminate. }
  rewrite Hw1. unfold bindM, Date_now, writeFileSync, lift_fs. cbn [files tick].
  destruct (fs_writeFileSync _ _ _) as [fs'|e] eqn:Hwrite; [|discriminate].
  apply fs_writeFileSync_Ok in Hwrite as (-> & _).
  intros [= <- <-]. cbn [clock reads files with_files tick].
  rewrite Hc1, Hr1. split; [reflexivity|]. split; [reflexivity|].
  split; [reflexivity|]. exists (files w1). split; [exact Hf1 | reflexivity].
Qed.

Lemma uniqueName_slots_differ `{NodeRuntime} (t1 t2 : N) (n1 n2 : jsstring) :
  uniqueName_at thumbnail t1 n1 <> uniqueName_at video t2 n2.
Proof.
  unfold uniqueName_at. intros Heq. apply (f_equal head) in Heq.
  assert (Ht : fieldname thumbnail = ch "t" :: js "humbnail") by (vm_compute; reflexivity).
  assert (Hv : fieldname video = ch "v" :: js "ideo") by (vm_compute; reflexivity).
  rewrite Ht, Hv in Heq. simpl in Heq. discriminate Heq.
Qed.

Lemma multer_upload_staged `{NodeRuntime} :
  forall (req : Request) (w w' : World) (req_files : Slot -> option FileHandle),
    multer_upload req w = (Ok req_files, w') ->
    staged_in (files w') req_files
    /\ (forall (slot : Slot) (f : FileHandle),
          req_files slot = Some f ->
          exists (u : Upload) (now : N),
            req_parts req slot = Some u
            /\ file_filename f = uniqueName_at slot now (upload_originalname u)
            /\ files w' !! [UPLOADS_BASE_DIR; js "temp"; file_filename f]
               = Some (File (upload_data u)))
    /\ (forall slot : Slot, req_parts req slot = None -> req_files slot = None)
    /\ (forall p : path,
          ~ [UPLOADS_BASE_DIR; js "temp"] `prefix_of` p ->
          files w' !! p = files w !! p).
Proof.
  intros req w w' req_files Hrun.
  assert (Hframe := multer_upload_frame req w w' (Ok req_files) Hrun).
  revert Hrun. unfold multer_upload, bindM.
  destruct (stage_part thumbnail _ w) as [[t|e] w1] eqn:Ht; [|discriminate].
  destruct (stage_part video _ w1) as [[v|e] w2] eqn:Hv; [|discriminate].
  unfold retM. intros [= <- <-].
  apply stage_part_inv in Ht, Hv.
  assert (Hdata : forall (slot : Slot) (f : FileHandle),
             match slot with thumbnail => t | video => v end = Some f ->
             file_path f = [UPLOADS_BASE_DIR; js "temp"; file_filename f]
             /\ exists (u : Upload) (now : N),
                  req_parts req slot = Some u
                  /\ file_filename f = uniqueName_at slot now (upload_originalname u)
                  /\ files w2 !! [UPLOADS_BASE_DIR; js "temp"; file_filename f]
                     = Some (File (upload_data u))).
  { intros slot f Hf. destruct slot.
    - destruct Ht as [(_ & -> & _) | (ut & Hpt & -> & Hct & Hrt & fs1 & Hfs1 & Hft)];
        [discriminate Hf|].
      injection Hf as <-. cbn [file_path file_filename].
      split; [reflexivity|].
      exists ut, (clock w (reads w)). split; [exact Hpt|]. split; [reflexivity|].
      destruct Hv as [(_ & _ & ->) | (uv & _ & _ & _ & _ & fs2 & Hfs2 & ->)].
      + rewrite Hft. apply lookup_insert_eq.
      + rewrite lookup_insert_ne.
        * destruct Hfs2 as [-> | ->].
          -- rewrite Hft. apply lookup_insert_eq.
          -- rewrite lookup_insert_ne by (intros [=]).
             rewrite Hft. apply lookup_insert_eq.
        * intros Heq.
          apply (uniqueName_slots_differ (clock w (reads w)) (clock w1 (reads w1))
                   (upload_originalname ut) (upload_originalname uv)).
          congruence.
    - destruct Hv as [(_ & -> & _) | (uv & Hpv & -> & Hcv & Hrv & fs2 & Hfs2 & Hfv)];
        [discriminate Hf|].
      injection Hf as <-. cbn [file_path file_filename].
      split; [reflexivity|].
      exists uv, (clock w1 (reads w1)). split; [exact Hpv|]. split; [reflexivity|].
      rewrite Hfv. apply lookup_insert_eq. }
  split; [|split; [|split]].
  - intros slot f Hf. destruct (Hdata slot f Hf) as (Hpath & u & now & _ & _ & Hfile).
    split; [exact Hpath|]. rewrite Hpath, Hfile. discriminate.
  - intros slot f Hf. destruct (Hdata slot f Hf) as (_ & u & now & Hu).
    exists u, now. exact Hu.
  - intros slot Hnone.
    destruct slot.
    + destruct Ht as [(_ & -> & _) | (ut & Hpt & _)]; [reflexivity | congruence].
    + destruct Hv as [(_ & -> & _) | (uv & Hpv & _)]; [reflexivity | congruence].
  - exact Hframe.
Qed.

(** X18. What multer hands to the handler: each file object carries the
    name [{slot}-{clock reading}-{sanitized basename}{extension}], its path is
    that name in [uploads/temp], the part's contents are there - the later
    part does not write over the earlier - and nothing outside [uploads/temp]
    has changed. *)
Theorem multer_upload_stages_below_temp `{NodeRuntime} :
  forall (req : Request) (w w' : World) (req_files : Slot -> option FileHandle),
    multer_upload req w = (Ok req_files, w') ->
    staged_in (files w') req_files
    /\ (forall (slot : Slot) (f : FileHandle),
          req_files slot = Some f ->
          exists (u : Upload) (now : N),
            req_parts req slot = Some u
            /\ file_filename f = uniqueName_at slot now (upload_originalname u)
            /\ files w' !! [UPLOADS_BASE_DIR; js "temp"; file_filename f]
               = Some (File (upload_data u)))
    /\ (forall slot : Slot, req_parts req slot = None -> req_files slot = None)
    /\ (forall p : path,
          ~ [UPLOADS_BASE_DIR; js "temp"] `prefix_of` p ->
          files w' !! p = files w !! p).
Proof. exact multer_upload_staged. Qed.

Lemma multer_upload_stages_below_temp_witness :
  staged_in (files Sample.staged) Sample.staged_files
  /\ files Sample.staged !! moviesFile = files Sample.booted !! moviesFile.
Proof.
  unfold Sample.staged, Sample.staged_files.
  destruct (multer_upload (H := Node.runtime) Sample.movie_request Sample.booted)
    as [res w1] eqn:Hrun.
  assert (Hok : exists req_files, res = Ok req_files).
  { apply (f_equal fst) in Hrun. simpl in Hrun. subst res.
    vm_compute. eexists. reflexivity. }
  destruct Hok as [req_files ->]. cbn [fst snd].
  destruct (multer_upload_stages_below_temp (H := Node.runtime) Sample.movie_request
              Sample.booted w1 req_files Hrun) as (Hstaged & _ & _ & Hframe).
  split; [exact Hstaged|]. apply Hframe.
  intros [k Hk]. discriminate Hk.
Defined.

Lemma multer_upload_parts `{NodeRuntime} (req : Request) (w w' : World)
    (req_files : Slot -> option FileHandle) (slot : Slot) (u : Upload) :
  multer_upload req w = (Ok req_files, w') ->
  req_parts req slot = Some u ->
  exists f, req_files slot = Some f.
Proof.
  unfold multer_upload, bindM.
  destruct (stage_part thumbnail _ w) as [[t|e] w1] eqn:Ht; [|discriminate].
  destruct (stage_part video _ w1) as [[v|e] w2] eqn:Hv; [|discriminate].
  unfold retM. intros [= <- <-] Hu.
  apply stage_part_inv in Ht, Hv.
  destruct slot.
  - destruct Ht as [(Hp & _) | (ut & _ & -> & _)]; [congruence | eauto].
  - destruct Hv as [(Hp & _) | (uv & _ & -> & _)]; [congruence | eauto].
Qed.

(** X19. When [POST /upload] answers 400, every part the request carried is
    still in [uploads/temp] afterwards, under its staged name and with its
    contents: the handler returns without removing what multer stored. *)
Theorem rejected_upload_leaves_its_parts_in_temp `{NodeRuntime} :
  forall (req : Request) (w w' : World) (r : Response) (slot : Slot) (u : Upload),
    post_upload req w = (Ok r, w') ->
    status r = 400 ->
    req_parts req slot = Some u ->
    exists now : N,
      files w' !! [UPLOADS_BASE_DIR; js "temp";
                   uniqueName_at slot now (upload_originalname u)]
      = Some (File (upload_data u)).
Proof.
  intros req w w' r slot u Hrun Hstatus Hpart. revert Hrun. unfold post_upload.
  destruct (multer_upload req w) as [[req_files|e] w1] eqn:Hm.
  2:{ intros [= <- _]. discriminate Hstatus. }
  intros Hrun.
  destruct (multer_upload_staged req w w1 req_files Hm) as (_ & Hdata & _ & _).
  destruct (multer_upload_parts req w w1 req_files slot u Hm Hpart) as [f Hf].
  destruct (Hdata slot f Hf) as (u' & now & Hu' & Hname & Hfile).
  assert (u' = u) as -> by congruence.
  exists now. rewrite <- Hname.
  destruct (process_upload_answers (req_body req) req_files w1)
    as (r' & w'' & Hrun' & Hcases).
  rewrite Hrun' in Hrun. injection Hrun as -> ->.
  destruct Hcases as [[_ ->] | [(movie & folder & ->) | (e & ->)]];
    [exact Hfile | discriminate Hstatus | discriminate Hstatus].
Qed.

Lemma rejected_upload_leaves_its_parts_in_temp_witness :
  exists (r : Response) (w' : World) (now : N),
    post_upload (H := Node.runtime) Sample.untitled_request Sample.booted = (Ok r, w')
    /\ status r = 400
    /\ files w' !! [UPLOADS_BASE_DIR; js "temp";
                    uniqueName_at (H := Node.runtime) thumbnail now (js "pic.png")]
       = Some (File (js "DATA")).
Proof.
  destruct (post_upload (H := Node.runtime) Sample.untitled_request Sample.booted)
    as [res w'] eqn:Hrun.
  assert (Hok : exists r, res = Ok r /\ status r = 400).
  { apply (f_equal fst) in Hrun. simpl in Hrun. subst res.
    vm_compute. eexists. split; reflexivity. }
  destruct Hok as (r & -> & Hstatus).
  destruct (rejected_upload_leaves_its_parts_in_temp (H := Node.runtime)
              Sample.untitled_request Sample.booted w' r thumbnail
              {| upload_originalname := js "pic.png"; upload_data := js "DATA" |}
              Hrun Hstatus eq_refl) as [now Hfile].
  exists r, w', now. split; [reflexivity|]. split; [exact Hstatus | exact Hfile].
Defined.

(** ** A move that fails *)

(** X20. When the thumbnail's file is moved and the video's file object
    points at a path with no entry, the handler answers 500 with the message
    of the failed [rename] and stops there: the thumbnail stays in the new
    folder, no [metadata.json] is written, and the catalog file is as it
    was. *)
Theorem failed_move_leaves_earlier_move_and_no_entry `{NodeRuntime} :
  forall (b : Body) (req_files : Slot -> option FileHandle) (w : World)
         (ft fv : FileHandle) (data : jsstring),
    truthy (title b) = true -> truthy (description b) = true ->
    req_files thumbnail = Some ft -> req_files video = Some fv ->
    file_path ft = [UPLOADS_BASE_DIR; js "temp"; file_filename ft] ->
    file_path fv = [UPLOADS_BASE_DIR; js "temp"; file_filename fv] ->
    files w !! file_path ft = Some (File data) ->
    files w !! file_path fv = None ->
    files w !! [UPLOADS_BASE_DIR] = Some Dir ->
    (forall rest : path,
        files w !! ([UPLOADS_BASE_DIR; folder_of b w] ++ rest) = None) ->
    let folder := [UPLOADS_BASE_DIR; folder_of b w] in
    exists w' : World,
      process_upload b req_files w
      = (Ok {| status := 500;
               body := message_body
                         (js "Server error: "
                          ++ Error_message
                               (SystemError ENOENT sys_rename (file_path fv)
                                  (Some (folder ++ [file_filename fv])))) |}, w')
      /\ files w' !! folder = Some Dir
      /\ files w' !! (folder ++ [file_filename ft]) = Some (File data)
      /\ files w' !! file_path ft = None
      /\ (forall name : jsstring,
            name <> file_filename ft -> files w' !! (folder ++ [name]) = None)
      /\ files w' !! moviesFile = files w !! moviesFile.
Proof.
  intros b req_files w ft fv data Ht Hd Hft Hfv Hpt Hpv Hold Hlost Hup Hfresh folder.
  unfold process_upload. rewrite Ht, Hd. cbn [negb orb]. unfold try_catch.
  unfold bindM at 1. unfold createMovieFolderName, bindM at 1, Date_now, retM at 1.
  change (movieFolderName_at (clock w (reads w)) (default [] (title b)))
    with (folder_of b w).
  unfold bindM at 1, existsSync. unfold bindM at 1.
  rewrite fs_existsSync_entry.
  change (entry (files (tick w)) (path_join [UPLOADS_BASE_DIR] (folder_of b w)))
    with (files w !! ([UPLOADS_BASE_DIR; folder_of b w] ++ [])).
  rewrite Hfresh. cbn [negb]. unfold mkdirSync, lift_fs.
  rewrite fs_mkdirSync_fresh; [|exact Hup|exact (Hfresh [])].
  set (fs1 := <[path_join [UPLOADS_BASE_DIR] (folder_of b w) := Dir]> (files (tick w))).
  assert (Htemp : forall name, fs1 !! [UPLOADS_BASE_DIR; js "temp"; name]
                               = files w !! [UPLOADS_BASE_DIR; js "temp"; name]).
  { intros name. apply lookup_insert_ne. intros [=]. }
  assert (Hbelow : forall name, fs1 !! [UPLOADS_BASE_DIR; folder_of b w; name] = None).
  { intros name. unfold fs1. rewrite lookup_insert_ne by (intros [=]).
    exact (Hfresh [name]). }
  assert (Hnot_temp : folder_of b w <> js "temp") by apply movieFolderName_not_temp.
  unfold bindM at 1. rewrite Hft.
  unfold resolve_slot at 1, bindM at 1, renameSync, lift_fs. cbn [files with_files].
  rewrite (fs_renameSync_file _ _ data).
  2:{ rewrite Hpt, Htemp, <- Hpt. exact Hold. }
  2:{ rewrite parent_path_join. apply lookup_insert_eq. }
  2:{ change (entry fs1 (path_join (path_join [UPLOADS_BASE_DIR] (folder_of b w))
                           (file_filename ft)))
        with (fs1 !! [UPLOADS_BASE_DIR; folder_of b w; file_filename ft]).
      rewrite Hbelow. discriminate. }
  unfold retM at 1. unfold bindM at 1. rewrite Hfv.
  unfold resolve_slot, bindM at 1, renameSync, lift_fs. cbn [files with_files].
  set (fs2 := <[path_join (path_join [UPLOADS_BASE_DIR] (folder_of b w))
                  (file_filename ft) := File data]> (delete (file_path ft) fs1)).
  assert (Hlost2 : fs2 !! file_path fv = None).
  { unfold fs2. rewrite lookup_insert_ne.
    - destruct (decide (file_path ft = file_path fv)) as [<- | Hne].
      + apply lookup_delete_eq.
      + rewrite lookup_delete_ne by exact Hne.
        rewrite Hpv, Htemp, <- Hpv. exact Hlost.
    - rewrite Hpv. intros Heq. apply Hnot_temp. unfold path_join in Heq.
      cbn [app] in Heq. congruence. }
  unfold fs_renameSync. rewrite Hlost2.
  eexists. split; [reflexivity|]. cbn [files with_files]. fold fs2.
  split.
  { unfold fs2. rewrite lookup_insert_ne by (intros [=]).
    rewrite lookup_delete_ne by (rewrite Hpt; intros [=]).
    apply lookup_insert_eq. }
  split; [apply lookup_insert_eq|]. split; [|split].
  - unfold fs2. rewrite lookup_insert_ne.
    + apply lookup_delete_eq.
    + rewrite Hpt. intros Heq. apply Hnot_temp. unfold path_join in Heq.
      cbn [app] in Heq. congruence.
  - intros name Hname. unfold fs2. rewrite lookup_insert_ne.
    + rewrite lookup_delete_ne.
      * exact (Hbelow name).
      * rewrite Hpt. intros Heq. apply Hnot_temp. unfold folder in Heq.
        cbn [app] in Heq. congruence.
    + intros Heq. apply Hname. unfold folder, path_join in Heq.
      cbn [app] in Heq. congruence.
  - unfold fs2. rewrite lookup_insert_ne by (intros [=]).
    rewrite lookup_delete_ne by (rewrite Hpt; intros [=]).
    unfold fs1. apply lookup_insert_ne. intros [=].
Qed.

Lemma failed_move_leaves_earlier_move_and_no_entry_witness :
  fst (process_upload (H := Node.runtime) (req_body Sample.movie_request)
         Sample.files_with_lost_video Sample.staged)
  = Ok {| status := 500;
          body := message_body
                    (js "Server error: ENOENT: no such file or directory, rename 'uploads/temp/video-1700000000000-clip.mp4' -> 'uploads/1700000000001-My_Movie/video-1700000000000-clip.mp4'") |}.
Proof.
  destruct (failed_move_leaves_earlier_move_and_no_entry (H := Node.runtime)
              (req_body Sample.movie_request) Sample.files_with_lost_video
              Sample.staged
              {| file_originalname := js "pic.png";
                 file_filename := js "thumbnail-1700000000000-pic.png";
                 file_path := [UPLOADS_BASE_DIR; js "temp";
                               js "thumbnail-1700000000000-pic.png"] |}
              Sample.lost_video (js "DATA")) as (w' & Hrun & _).
  - reflexivity.
  - reflexivity.
  - vm_compute. reflexivity.
  - reflexivity.
  - reflexivity.
  - reflexivity.
  - vm_compute. reflexivity.
  - vm_compute. reflexivity.
  - vm_compute. reflexivity.
  - apply nothing_below. vm_compute. reflexivity.
  - rewrite Hrun. reflexivity.
Defined.

(** ** Uploading, then reading *)

(** X21. After [POST /upload] has answered 200 on a catalog that held an
    array, and provided [JSON.parse] gives back the array that
    [JSON.stringify] wrote, [GET /api/movies] answers 200 with the earlier
    entries followed by the [movie] of the upload's answer, and
    [GET /api/movies/:id] with that movie's [id] answers 200 with that movie
    when no earlier entry is [null] or has the same [id]. *)
Theorem accepted_upload_is_listed_and_found `{NodeRuntime} :
  forall (req : Request) (w w' : World) (r : Response) (text : jsstring)
         (earlier : list json) (movie : json),
    post_upload req w = (Ok r, w') ->
    status r = 200 ->
    files w !! moviesFile = Some (File text) ->
    JSON_parse text = Some (JArray earlier) ->
    field (js "movie") (body r) = Some movie ->
    JSON_parse (JSON_stringify (JArray (earlier ++ [movie])))
    = Some (JArray (earlier ++ [movie])) ->
    get_movies w' = (Ok {| status := 200; body := JArray (earlier ++ [movie]) |}, w')
    /\ exists id : jsstring,
         field (js "id") movie = Some (JString id)
         /\ (Forall (fun x => x <> JNull /\ field (js "id") x <> Some (JString id))
               earlier ->
             get_movie_by_id id w' = (Ok {| status := 200; body := movie |}, w')).
Proof.
  intros req w w' r text earlier movie Hrun Hstatus Hfile Hparse Hmovie Hback.
  revert Hrun. unfold post_upload.
  destruct (multer_upload req w) as [[req_files|e] w1] eqn:Hm.
  2:{ intros [= <- _]. discriminate Hstatus. }
  intros Hrun.
  destruct (multer_upload_staged req w w1 req_files Hm) as (Hstaged & _ & _ & Hframe).
  assert (Hfile1 : files w1 !! moviesFile = Some (File text)).
  { rewrite Hframe; [exact Hfile|]. intros [k Hk]. discriminate Hk. }
  destruct (process_upload_accepted (req_body req) req_files w1 w' r Hrun Hstatus
              Hstaged) as (earlier' & fs4 & Hread & -> & _ & _ & Hfiles & _).
  rewrite (read_movies_array w1 text earlier Hfile1 Hparse) in Hread.
  injection Hread as <-.
  cbn [body field assoc] in Hmovie.
  assert (Hm2 : movie = movie_of (req_body req) req_files w1).
  { revert Hmovie.
    assert (Hk1 : bool_decide (js "message" = js "movie") = false)
      by (vm_compute; reflexivity).
    assert (Hk2 : bool_decide (js "movie" = js "movie") = true)
      by (vm_compute; reflexivity).
    rewrite Hk1, Hk2. intros [= <-]. reflexivity. }
  subst movie.
  assert (Hcat : files w' !! moviesFile
                 = Some (File (JSON_stringify
                                 (JArray (earlier
                                          ++ [movie_of (req_body req) req_files w1]))))).
  { rewrite Hfiles. apply lookup_insert_eq. }
  split.
  - unfold get_movies, try_catch, bindM, readFileSync, fs_readFileSync, parse.
    change (entry (files w') moviesFile) with (files w' !! moviesFile).
    rewrite Hcat, Hback. reflexivity.
  - exists (Number_toString (clock w1 (S (reads w1)))).
    split; [reflexivity|]. intros Hearlier.
    rewrite (get_movie_by_id_on_array _ _ _ w' Hcat Hback).
    rewrite Array_find_skip by exact Hearlier.
    cbn [Array_find]. unfold bindM, id_is, movie_of, newMovie_object.
    assert (Hid : strict_equals
                    (field (js "id")
                       (JObject
                          [(js "id", JString (Number_toString (clock w1 (S (reads w1)))));
                           (js "title", JString (default [] (title (req_body req))));
                           (js "description",
                            JString (default [] (description (req_body req))));
                           (js "folderPath", JString (folder_of (req_body req) w1));
                           (js "thumbnail",
                            JString (or_empty
                                       (slot_reference (folder_of (req_body req) w1)
                                          (req_files thumbnail)
                                          (thumbnailURL (req_body req)))));
                           (js "video",
                            JString (or_empty
                                       (slot_reference (folder_of (req_body req) w1)
                                          (req_files video)
                                          (videoURL (req_body req)))));
                           (js "uploadDate",
                            JString (Date_toISOString (clock w1 (S (S (reads w1))))))]))
                    (Number_toString (clock w1 (S (reads w1)))) = true).
    { apply strict_equals_true. reflexivity. }
    unfold retM. rewrite Hid. reflexivity.
Qed.

Lemma accepted_upload_is_listed_and_found_witness :
  get_movies (H := Node.runtime) Sample.uploaded
  = (Ok {| status := 200; body := JArray [Sample.uploaded_movie] |}, Sample.uploaded)
  /\ get_movie_by_id (H := Node.runtime) (js "1700000000002") Sample.uploaded
     = (Ok {| status := 200; body := Sample.uploaded_movie |}, Sample.uploaded).
Proof.
  unfold Sample.uploaded.
  destruct (post_upload (H := Node.runtime) Sample.movie_request Sample.booted)
    as [res w'] eqn:Hrun.
  assert (Hok : exists r, res = Ok r /\ status r = 200
                          /\ field (js "movie") (body r) = Some Sample.uploaded_movie).
  { apply (f_equal fst) in Hrun. simpl in Hrun. subst res.
    vm_compute. eexists. split; [reflexivity|]. split; reflexivity. }
  destruct Hok as (r & -> & Hstatus & Hmovie). cbn [snd].
  destruct (accepted_upload_is_listed_and_found (H := Node.runtime)
              Sample.movie_request Sample.booted w' r (js "[]") []
              Sample.uploaded_movie Hrun Hstatus)
    as (Hlist & id & Hid & Hfound).
  - vm_compute. reflexivity.
  - vm_compute. reflexivity.
  - exact Hmovie.
  - vm_compute. reflexivity.
  - split; [exact Hlist|].
    assert (id = js "1700000000002") as ->.
    { assert (Hid' : field (js "id") Sample.uploaded_movie
                     = Some (JString (js "1700000000002")))
        by (vm_compute; reflexivity).
      congruence. }
    apply Hfound. constructor.
Defined.

(** ** An upload with a file, from the request to the catalog *)

(** Staging one part where [uploads] is a directory and no file sits at
    [uploads/temp]. *)
Lemma stage_part_ok `{NodeRuntime} (slot : Slot) (u : Upload) (w : World) :
  let name := uniqueName_at slot (clock w (reads w)) (upload_originalname u) in
  files w !! [UPLOADS_BASE_DIR] = Some Dir ->
  (files w !! [UPLOADS_BASE_DIR; js "temp"] = None
   \/ files w !! [UPLOADS_BASE_DIR; js "temp"] = Some Dir) ->
  files w !! [UPLOADS_BASE_DIR; js "temp"; name] <> Some Dir ->
  exists fs0 : FS,
    stage_part slot (Some u) w
    = (Ok (Some {| file_originalname := upload_originalname u;
                   file_filename := name;
                   file_path := [UPLOADS_BASE_DIR; js "temp"; name] |}),
       with_files (<[[UPLOADS_BASE_DIR; js "temp"; name] := File (upload_data u)]> fs0)
         (tick w))
    /\ fs0 !! [UPLOADS_BASE_DIR; js "temp"] = Some Dir
    /\ (forall p, p <> [UPLOADS_BASE_DIR; js "temp"] -> fs0 !! p = files w !! p).
Proof.
  intros name Hup Htemp Hname.
  unfold stage_part, storage_destination, storage_filename.
  unfold bindM at 1. unfold bindM at 1, existsSync. unfold bindM at 1.
  rewrite fs_existsSync_entry.
  change (entry (files w) (path_join [UPLOADS_BASE_DIR] (js "temp")))
    with (files w !! [UPLOADS_BASE_DIR; js "temp"]).
  destruct Htemp as [Htemp | Htemp]; rewrite Htemp; cbn [negb].
  - unfold mkdirSync, lift_fs.
    rewrite fs_mkdirSync_fresh; [|exact Hup|exact Htemp].
    unfold retM at 1. unfold bindM, Date_now, writeFileSync, lift_fs, retM.
    cbn [files with_files tick clock reads]. fold name.
    rewrite fs_writeFileSync_into_dir.
    + eexists. split; [reflexivity|]. split; [apply lookup_insert_eq|].
      intros p Hp. apply lookup_insert_ne. apply not_eq_sym. exact Hp.
    + rewrite parent_path_join. apply lookup_insert_eq.
    + change (entry ?fs (path_join ?d ?n)) with (fs !! (d ++ [n])).
      rewrite lookup_insert_ne by (intros [=]). exact Hname.
  - unfold retM at 1 2. unfold bindM, Date_now, writeFileSync, lift_fs, retM.
    cbn [files with_files tick clock reads]. fold name.
    rewrite fs_writeFileSync_into_dir.
    + exists (files w). split; [reflexivity|]. split; [exact Htemp | reflexivity].
    + rewrite parent_path_join. exact Htemp.
    + exact Hname.
Qed.

(** The steps of the handler up to the metadata document, for a staged
    thumbnail file and no video file, into a folder that is not there yet. *)
Lemma process_upload_with_thumbnail_file `{NodeRuntime}
    (b : Body) (req_files : Slot -> option FileHandle) (w : World)
    (ft : FileHandle) (data : jsstring) :
  truthy (title b) = true -> truthy (description b) = true ->
  req_files thumbnail = Some ft -> req_files video = None ->
  file_path ft = [UPLOADS_BASE_DIR; js "temp"; file_filename ft] ->
  files w !! file_path ft = Some (File data) ->
  files w !! [UPLOADS_BASE_DIR] = Some Dir ->
  (forall rest : path, files w !! ([UPLOADS_BASE_DIR; folder_of b w] ++ rest) = None) ->
  process_upload b req_files w
  = try_catch
      (movies <- read_movies ;;
       movies <- push movies (movie_of b req_files w) ;;
       writeFileSync moviesFile (JSON_stringify movies) ;;;
       retM {| status := 200;
               body := JObject [ (js "message", JString (js "Movie added successfully"));
                                 (js "movie", movie_of b req_files w);
                                 (js "folderPath", JString (folder_of b w)) ] |})
      (fun error =>
         retM {| status := 500;
                 body := message_body (js "Server error: " ++ Error_message error) |})
      (with_files
         (<[[UPLOADS_BASE_DIR; folder_of b w; js "metadata.json"]
            := File (JSON_stringify (metadata_of b req_files w))]>
            (with_sidecar video (folder_of b w) (videoURL b)
               (<[[UPLOADS_BASE_DIR; folder_of b w; file_filename ft] := File data]>
                  (delete (file_path ft)
                     (<[[UPLOADS_BASE_DIR; folder_of b w] := Dir]> (files w))))))
         (tick (tick (tick w)))).
Proof.
  intros Ht Hd Hft Hnv Hpt Hold Hup Hfresh.
  unfold process_upload. rewrite Ht, Hd. cbn [negb orb]. unfold try_catch.
  unfold bindM at 1. unfold createMovieFolderName, bindM at 1, Date_now, retM at 1.
  change (movieFolderName_at (clock w (reads w)) (default [] (title b)))
    with (folder_of b w).
  set (folder := folder_of b w) in *.
  unfold bindM at 1, existsSync. unfold bindM at 1.
  rewrite fs_existsSync_entry.
  change (entry (files (tick w)) (path_join [UPLOADS_BASE_DIR] folder))
    with (files w !! ([UPLOADS_BASE_DIR; folder] ++ [])).
  rewrite Hfresh. cbn [negb]. unfold mkdirSync, lift_fs.
  rewrite fs_mkdirSync_fresh; [|exact Hup|exact (Hfresh [])].
  set (fs1 := <[path_join [UPLOADS_BASE_DIR] folder := Dir]> (files (tick w))).
  assert (Hdir1 : fs1 !! [UPLOADS_BASE_DIR; folder] = Some Dir)
    by apply lookup_insert_eq.
  assert (Hbelow1 : forall name, fs1 !! [UPLOADS_BASE_DIR; folder; name] = None).
  { intros name. unfold fs1. rewrite lookup_insert_ne by (intros [=]).
    exact (Hfresh [name]). }
  assert (Hnot_temp : folder <> js "temp") by apply movieFolderName_not_temp.
  unfold bindM at 1. rewrite Hft.
  unfold resolve_slot at 1, bindM at 1, renameSync, lift_fs. cbn [files with_files].
  rewrite (fs_renameSync_file _ _ data).
  2:{ unfold fs1. rewrite lookup_insert_ne by (rewrite Hpt; intros [=]). exact Hold. }
  2:{ rewrite parent_path_join. exact Hdir1. }
  2:{ change (entry fs1 (path_join (path_join [UPLOADS_BASE_DIR] folder)
                           (file_filename ft)))
        with (fs1 !! [UPLOADS_BASE_DIR; folder; file_filename ft]).
      rewrite Hbelow1. discriminate. }
  unfold retM at 1.
  set (fs2 := <[path_join (path_join [UPLOADS_BASE_DIR] folder) (file_filename ft)
                := File data]> (delete (file_path ft) fs1)).
  assert (Hdir2 : fs2 !! [UPLOADS_BASE_DIR; folder] = Some Dir).
  { unfold fs2. rewrite lookup_insert_ne by (intros [=]).
    rewrite lookup_delete_ne by (rewrite Hpt; intros [=]). exact Hdir1. }
  assert (Hbelow2 : forall name, name <> file_filename ft ->
                                 fs2 !! [UPLOADS_BASE_DIR; folder; name] = None).
  { intros name Hname. unfold fs2. rewrite lookup_insert_ne.
    - rewrite lookup_delete_ne; [apply Hbelow1|].
      rewrite Hpt. intros Heq. apply Hnot_temp. congruence.
    - unfold path_join. cbn [app]. intros Heq. apply Hname. congruence. }
  assert (Hnodir2 : forall name, fs2 !! [UPLOADS_BASE_DIR; folder; name] <> Some Dir).
  { intros name. destruct (decide (name = file_filename ft)) as [-> | Hname].
    - unfold fs2, path_join. cbn [app]. rewrite lookup_insert_eq. discriminate.
    - rewrite Hbelow2 by exact Hname. discriminate. }
  unfold bindM at 1. rewrite Hnv.
  rewrite resolve_slot_without_file; cbn [files with_files];
    [|exact Hdir2|apply Hnodir2].
  rewrite with_files_with_files.
  set (fs3 := with_sidecar video folder (videoURL b) fs2).
  unfold bindM at 1, Date_now. unfold bindM at 1. unfold bindM at 1.
  cbn [clock reads tick with_files].
  unfold writeFileSync at 1, lift_fs. cbn [files with_files tick].
  rewrite fs_writeFileSync_into_dir.
  2:{ rewrite parent_path_join.
      change (entry fs3 (path_join [UPLOADS_BASE_DIR] folder))
        with (fs3 !! [UPLOADS_BASE_DIR; folder]).
      unfold fs3. rewrite with_sidecar_lookup_other by (intros [=]). exact Hdir2. }
  2:{ change (entry fs3 (path_join (path_join [UPLOADS_BASE_DIR] folder)
                           (js "metadata.json")))
        with (fs3 !! [UPLOADS_BASE_DIR; folder; js "metadata.json"]).
      unfold fs3. rewrite with_sidecar_lookup_other.
      - apply Hnodir2.
      - intros Heq. apply (sidecar_not_metadata video). congruence. }
  assert (Htp : truthy (Some (js "/uploads/" ++ folder ++ js "/" ++ file_filename ft))
                = true).
  { change (Some (js "/uploads/" ++ folder ++ js "/" ++ file_filename ft))
      with (slot_reference folder (Some ft) (thumbnailURL b)).
    rewrite truthy_slot_reference. reflexivity. }
  rewrite Htp. cbn [negb andb].
  unfold movie_of, metadata_of. rewrite Hft, Hnv.
  reflexivity.
Qed.

Lemma thumbnail_name_not_reserved `{NodeRuntime} (now : N) (originalname : jsstring) :
  uniqueName_at thumbnail now originalname <> js "metadata.json"
  /\ uniqueName_at thumbnail now originalname <> fieldname video ++ js "-url.txt".
Proof.
  assert (Ht : fieldname thumbnail = ch "t" :: js "humbnail") by (vm_compute; reflexivity).
  assert (Hm : js "metadata.json" = ch "m" :: js "etadata.json")
    by (vm_compute; reflexivity).
  assert (Hv : fieldname video ++ js "-url.txt" = ch "v" :: js "ideo-url.txt")
    by (vm_compute; reflexivity).
  unfold uniqueName_at. rewrite Ht, Hm, Hv.
  split; intros Heq; apply (f_equal head) in Heq; simpl in Heq; discriminate Heq.
Qed.

(** X22. [POST /upload] with a title, a description, a thumbnail file and no
    video file, where [uploads] is a directory, no file sits at
    [uploads/temp], nothing sits at the folder's path and the catalog file
    holds an array: the answer is 200; the entry's [thumbnail] is
    [/uploads/<folder>/<stored name>]; the part's bytes are at that place of
    the file tree and no longer in [uploads/temp], which stays behind as a
    directory; and the catalog file holds the array with the entry at its
    end.  The stored name is built from the first clock reading and the
    folder's name from the second. *)
Theorem upload_of_a_thumbnail_file_is_accepted `{NodeRuntime} :
  forall (req : Request) (w : World) (u : Upload) (text : jsstring)
         (earlier : list json),
    truthy (title (req_body req)) = true ->
    truthy (description (req_body req)) = true ->
    req_parts req thumbnail = Some u ->
    req_parts req video = None ->
    files w !! [UPLOADS_BASE_DIR] = Some Dir ->
    (files w !! [UPLOADS_BASE_DIR; js "temp"] = None
     \/ files w !! [UPLOADS_BASE_DIR; js "temp"] = Some Dir) ->
    files w !! [UPLOADS_BASE_DIR; js "temp";
                uniqueName_at thumbnail (clock w (reads w)) (upload_originalname u)]
    <> Some Dir ->
    (forall rest : path,
        files w !! ([UPLOADS_BASE_DIR; folder_of (req_body req) (tick w)] ++ rest)
        = None) ->
    files w !! moviesFile = Some (File text) ->
    JSON_parse text = Some (JArray earlier) ->
    exists (movie : json) (w' : World),
      post_upload req w
      = (Ok {| status := 200;
               body := JObject [ (js "message", JString (js "Movie added successfully"));
                                 (js "movie", movie);
                                 (js "folderPath",
                                  JString (folder_of (req_body req) (tick w))) ] |},
         w')
      /\ field (js "thumbnail") movie
         = Some (JString (js "/uploads/" ++ folder_of (req_body req) (tick w) ++ js "/"
                          ++ uniqueName_at thumbnail (clock w (reads w))
                               (upload_originalname u)))
      /\ files w' !! [UPLOADS_BASE_DIR; folder_of (req_body req) (tick w);
                      uniqueName_at thumbnail (clock w (reads w))
                        (upload_originalname u)]
         = Some (File (upload_data u))
      /\ files w' !! [UPLOADS_BASE_DIR; js "temp";
                      uniqueName_at thumbnail (clock w (reads w))
                        (upload_originalname u)]
         = None
      /\ files w' !! [UPLOADS_BASE_DIR; js "temp"] = Some Dir
      /\ files w' !! moviesFile
         = Some (File (JSON_stringify (JArray (earlier ++ [movie])))).
Proof.
  intros req w u text earlier Ht Hd Hpt Hpv Hup Htemp Hname Hfresh Hfile Hparse.
  set (name := uniqueName_at thumbnail (clock w (reads w)) (upload_originalname u)) in *.
  set (b := req_body req) in *.
  destruct (stage_part_ok thumbnail u w Hup Htemp Hname) as (fs0 & Hstage & Htemp0 & Hfs0).
  fold name in Hstage.
  set (ft := {| file_originalname := upload_originalname u;
                file_filename := name;
                file_path := [UPLOADS_BASE_DIR; js "temp"; name] |}) in *.
  set (req_files := fun slot : Slot =>
                      match slot with thumbnail => Some ft | video => None end).
  set (w1 := with_files (<[[UPLOADS_BASE_DIR; js "temp"; name] := File (upload_data u)]> fs0)
               (tick w)) in *.
  assert (Hm : multer_upload req w = (Ok req_files, w1)).
  { unfold multer_upload. unfold bindM at 1. rewrite Hpt, Hstage.
    unfold bindM at 1. rewrite Hpv. reflexivity. }
  set (folder := folder_of b (tick w)) in *.
  assert (Hfolder : folder_of b w1 = folder) by reflexivity.
  assert (Hnot_temp : folder <> js "temp") by apply movieFolderName_not_temp.
  destruct (thumbnail_name_not_reserved (clock w (reads w)) (upload_originalname u))
    as [Hnot_meta Hnot_side].
  fold name in Hnot_meta, Hnot_side.
  assert (Hup1 : files w1 !! [UPLOADS_BASE_DIR] = Some Dir).
  { unfold w1. cbn [files with_files]. rewrite lookup_insert_ne by (intros [=]).
    rewrite Hfs0 by (intros [=]). exact Hup. }
  assert (Hfresh1 : forall rest : path,
             files w1 !! ([UPLOADS_BASE_DIR; folder_of b w1] ++ rest) = None).
  { intros rest. rewrite Hfolder. unfold w1. cbn [files with_files].
    rewrite lookup_insert_ne.
    - rewrite Hfs0; [apply Hfresh|].
      cbn [app]. intros Heq. apply Hnot_temp. congruence.
    - cbn [app]. intros Heq. apply Hnot_temp. congruence. }
  assert (Hold1 : files w1 !! file_path ft = Some (File (upload_data u)))
    by apply lookup_insert_eq.
  assert (Hfile1 : files w1 !! moviesFile = Some (File text)).
  { unfold w1. cbn [files with_files]. rewrite lookup_insert_ne by (intros [=]).
    rewrite Hfs0 by (intros [=]). exact Hfile. }
  exists (movie_of b req_files w1).
  eexists. split.
  - unfold post_upload. rewrite Hm.
    rewrite (process_upload_with_thumbnail_file b req_files w1 ft (upload_data u)
               Ht Hd eq_refl eq_refl eq_refl Hold1 Hup1 Hfresh1).
    rewrite Hfolder.
    match goal with
    | |- context [with_files ?fs (tick (tick (tick w1)))] => set (fs4 := fs)
    end.
    assert (Hcat4 : fs4 !! moviesFile = files w1 !! moviesFile).
    { unfold fs4. rewrite lookup_insert_ne by (intros [=]).
      rewrite with_sidecar_lookup_other by (intros [=]).
      rewrite lookup_insert_ne by (intros [=]).
      rewrite lookup_delete_ne by (intros [=]).
      apply lookup_insert_ne. intros [=]. }
    unfold try_catch. unfold bindM at 1.
    rewrite (read_movies_same_catalog w1 (with_files fs4 (tick (tick (tick w1))))
               (JArray earlier) Hcat4
               (read_movies_array w1 text earlier Hfile1 Hparse)).
    unfold bindM at 1, push, retM at 1.
    unfold bindM, writeFileSync, lift_fs. cbn [files with_files].
    rewrite (write_catalog fs4 text) by (rewrite Hcat4; exact Hfile1).
    reflexivity.
  - cbn [files with_files]. unfold ft. cbn [file_filename file_path].
    split; [reflexivity|].
    split.
    { rewrite lookup_insert_ne by (intros [=]).
      rewrite lookup_insert_ne.
      2:{ intros Heq. apply Hnot_meta. congruence. }
      rewrite with_sidecar_lookup_other.
      2:{ intros Heq. apply Hnot_side. congruence. }
      apply lookup_insert_eq. }
    split.
    { rewrite lookup_insert_ne by (intros [=]).
      rewrite lookup_insert_ne.
      2:{ intros Heq. apply Hnot_temp. congruence. }
      rewrite with_sidecar_lookup_other.
      2:{ intros Heq. apply Hnot_temp. congruence. }
      rewrite lookup_insert_ne.
      2:{ intros Heq. apply Hnot_temp. congruence. }
      apply lookup_delete_eq. }
    split.
    { rewrite lookup_insert_ne by (intros [=]).
      rewrite lookup_insert_ne by (intros [=]).
      rewrite with_sidecar_lookup_other by (intros [=]).
      rewrite lookup_insert_ne by (intros [=]).
      rewrite lookup_delete_ne by (intros [=]).
      rewrite lookup_insert_ne.
      2:{ intros Heq. apply Hnot_temp. congruence. }
      unfold w1. cbn [files with_files].
      rewrite lookup_insert_ne by (intros [=]).
      exact Htemp0. }
    apply lookup_insert_eq.
Qed.

Lemma upload_of_a_thumbnail_file_is_accepted_witness :
  exists (movie : json) (w' : World),
    post_upload (H := Node.runtime) Sample.movie_request Sample.booted
    = (Ok {| status := 200;
             body := JObject [ (js "message", JString (js "Movie added successfully"));
                               (js "movie", movie);
                               (js "folderPath", JString Sample.movie_folder) ] |},
       w')
    /\ field (js "thumbnail") movie
       = Some (JString (js "/uploads/1700000000001-My_Movie/thumbnail-1700000000000-pic.png"))
    /\ files w' !! [UPLOADS_BASE_DIR; Sample.movie_folder;
                    js "thumbnail-1700000000000-pic.png"]
       = Some (File (js "DATA"))
    /\ files w' !! [UPLOADS_BASE_DIR; js "temp"; js "thumbnail-1700000000000-pic.png"]
       = None
    /\ files w' !! moviesFile = Some (File (Node.stringify (JArray [movie]))).
Proof.
  assert (Hfolder : folder_of (req_body Sample.movie_request) (tick Sample.booted)
                    = Sample.movie_folder) by (vm_compute; reflexivity).
  assert (Hname : uniqueName_at (H := Node.runtime) thumbnail
                    (clock Sample.booted (reads Sample.booted)) (js "pic.png")
                  = js "thumbnail-1700000000000-pic.png") by (vm_compute; reflexivity).
  assert (Href : js "/uploads/" ++ Sample.movie_folder ++ js "/"
                 ++ js "thumbnail-1700000000000-pic.png"
                 = js "/uploads/1700000000001-My_Movie/thumbnail-1700000000000-pic.png")
    by (vm_compute; reflexivity).
  destruct (upload_of_a_thumbnail_file_is_accepted (H := Node.runtime)
              Sample.movie_request Sample.booted
              {| upload_originalname := js "pic.png"; upload_data := js "DATA" |}
              (js "[]") [])
    as (movie & w' & Hrun & Hthumb & Hmoved & Hgone & _ & Hcat).
  - reflexivity.
  - reflexivity.
  - reflexivity.
  - reflexivity.
  - vm_compute. reflexivity.
  - left. vm_compute. reflexivity.
  - vm_compute. discriminate.
  - apply nothing_below. vm_compute. reflexivity.
  - vm_compute. reflexivity.
  - vm_compute. reflexivity.
  - cbn [upload_originalname upload_data] in *.
    rewrite Hfolder in Hrun, Hthumb, Hmoved. rewrite Hname in Hthumb, Hmoved, Hgone.
    rewrite Href in Hthumb.
    exists movie, w'. repeat split; assumption.
Defined.
